(** * ST7701 MIPI-DSI panel driver: a shallow embedding and its properties

    This development embeds
    [src/libraries/ESP32_Display_Panel/src/drivers/lcd/port/esp_lcd_st7701_mipi.c]
    and proves properties of the driver's operations.

    Modelling conventions.
    - C integers are [Z]; a [uint8_t] store is written out as a reduction
      modulo 256 ([to_uint8]), a [uint16_t] store modulo 65536.
    - The driver keeps its state in a heap block ([calloc]/[free]) reached
      through [panel->user_data].  The heap is a finite map from locations
      to [st7701_panel_t] records.  Going through a pointer that holds no
      live block, reading past the end of a buffer, calling through a null
      function pointer and freeing a block that is not live are undefined
      behaviour in C; these are the only ways a run of the model yields
      [None].
    - A C [return] in the middle of a function is an outcome of its own
      ([Return]), which the sequencing of statements propagates and the
      function boundary ([function]) turns into the function's result.
    - The transport, the GPIO driver, the DPI panel driver, the scheduler
      and the logger are external.  Every call to them is recorded, in
      program order, in the world's [trace]; what an external call returns
      is chosen by an environment [Env], as a function of the history.
    - Macros and enumerators that come from headers which are not part of
      the translated file ([esp_lcd_panel_commands.h],
      [esp_lcd_st7701_interface.h], [esp_lcd_types.h]) are parameters,
      gathered in the class [Headers]. *)

From Stdlib Require Import ZArith Lia.
From stdpp Require Import base option list strings gmap.

Local Open Scope Z_scope.

(** ** Status codes *)

(** [esp_err_t].  The five codes the driver names, and any other code an
    external layer may hand back. *)
Inductive esp_err_t : Type :=
| ESP_OK
| ESP_FAIL
| ESP_ERR_NO_MEM
| ESP_ERR_INVALID_ARG
| ESP_ERR_NOT_SUPPORTED
| ESP_ERR_OTHER (code : Z).

(** ** Header constants *)

Class Headers : Type := {
  (* esp_lcd_panel_commands.h *)
  LCD_CMD_SWRESET : Z;
  LCD_CMD_SLPIN : Z;
  LCD_CMD_SLPOUT : Z;
  LCD_CMD_INVOFF : Z;
  LCD_CMD_INVON : Z;
  LCD_CMD_DISPOFF : Z;
  LCD_CMD_DISPON : Z;
  LCD_CMD_MADCTL : Z;
  LCD_CMD_COLMOD : Z;
  LCD_CMD_ML_BIT : Z;
  LCD_CMD_BGR_BIT : Z;
  (* esp_lcd_st7701_interface.h *)
  ST7701_CMD_SDIR : Z;
  ST7701_CMD_SS_BIT : Z;
  ST7701_CMD_CND2BKxSEL : Z;
  ST7701_CMD_BKxSEL_BYTE0 : Z;
  ST7701_CMD_BKxSEL_BYTE1 : Z;
  ST7701_CMD_BKxSEL_BYTE2 : Z;
  ST7701_CMD_BKxSEL_BYTE3 : Z;
  ST7701_CMD_CN2_BIT : Z;
  ST7701_CMD_BKxSEL_BK0 : Z;
  (* esp_lcd_types.h *)
  LCD_RGB_ELEMENT_ORDER_RGB : Z;
  LCD_RGB_ELEMENT_ORDER_BGR : Z
}.

(** The values these macros have in ESP-IDF and in the ST7701 interface
    header; used wherever a concrete run of the driver is evaluated. *)
Definition esp_idf_headers : Headers := {|
  LCD_CMD_SWRESET := 0x01;
  LCD_CMD_SLPIN := 0x10;
  LCD_CMD_SLPOUT := 0x11;
  LCD_CMD_INVOFF := 0x20;
  LCD_CMD_INVON := 0x21;
  LCD_CMD_DISPOFF := 0x28;
  LCD_CMD_DISPON := 0x29;
  LCD_CMD_MADCTL := 0x36;
  LCD_CMD_COLMOD := 0x3A;
  LCD_CMD_ML_BIT := Z.shiftl 1 4;
  LCD_CMD_BGR_BIT := Z.shiftl 1 3;
  ST7701_CMD_SDIR := 0xC7;
  ST7701_CMD_SS_BIT := Z.shiftl 1 2;
  ST7701_CMD_CND2BKxSEL := 0xFF;
  ST7701_CMD_BKxSEL_BYTE0 := 0x77;
  ST7701_CMD_BKxSEL_BYTE1 := 0x01;
  ST7701_CMD_BKxSEL_BYTE2 := 0x00;
  ST7701_CMD_BKxSEL_BYTE3 := 0x00;
  ST7701_CMD_CN2_BIT := Z.shiftl 1 4;
  ST7701_CMD_BKxSEL_BK0 := 0x00;
  LCD_RGB_ELEMENT_ORDER_RGB := 0;
  LCD_RGB_ELEMENT_ORDER_BGR := 1
|}.

(** ** Data model *)

(** Opaque handles ([esp_lcd_panel_io_handle_t], the DSI bus, the DPI
    configuration, the [ret_panel] out-pointer) are addresses. *)
Definition NULL : Z := 0.

Definition is_null (p : Z) : bool := p =? NULL.

(** Locations of [st7701_panel_t] blocks on the heap. *)
Abbreviation loc := positive.

(** [esp_panel_lcd_vendor_init_cmd_t]: one entry of an initialisation
    table.  [data] is the buffer the entry points to, [data_bytes] the
    number of bytes of it to send; the two are independent fields (the
    built-in table has entries with a one-byte buffer and [data_bytes]
    zero). *)
Record esp_panel_lcd_vendor_init_cmd_t : Type := mk_init_cmd {
  cmd : Z;
  data : list Z;
  data_bytes : Z;
  delay_ms : Z
}.

(** The operations of [esp_lcd_panel_t] the driver deals with. *)
Inductive panel_op : Type :=
| op_reset
| op_init
| op_del
| op_mirror
| op_invert_color
| op_disp_on_off
| op_disp_sleep.

(** Function pointers stored in a panel object: the null pointer, the DPI
    driver's implementation of an operation, or this driver's
    ([fn_st7701 op_del] is [panel_st7701_del], and so on). *)
Inductive panel_fn : Type :=
| fn_null
| fn_dpi (op : panel_op)
| fn_st7701 (op : panel_op).

(** [st7701_panel_t]. *)
Record st7701_panel_t : Type := mk_st7701 {
  io : Z;
  reset_gpio_num : Z;
  madctl_val : Z;
  colmod_val : Z;
  init_cmds : option (list esp_panel_lcd_vendor_init_cmd_t);
  init_cmds_size : Z;
  reset_level : bool;
  del : panel_fn;
  init : panel_fn
}.

(** What [calloc] hands out: every field zero. *)
Definition st7701_zeroed : st7701_panel_t :=
  mk_st7701 NULL 0 0 0 None 0 false fn_null fn_null.

(** The part of [esp_lcd_panel_t] the driver touches. *)
Record esp_lcd_panel_t : Type := mk_panel {
  p_reset : panel_fn;
  p_init : panel_fn;
  p_del : panel_fn;
  p_mirror : panel_fn;
  p_invert_color : panel_fn;
  p_disp_on_off : panel_fn;
  p_disp_sleep : panel_fn;
  user_data : option loc
}.

(** The vendor part of the device configuration
    ([esp_panel_lcd_vendor_config_t], with [mipi_config] flattened). *)
Record esp_panel_lcd_vendor_config_t : Type := mk_vendor_config {
  vc_init_cmds : option (list esp_panel_lcd_vendor_init_cmd_t);
  vc_init_cmds_size : Z;
  vc_dsi_bus : Z;
  vc_dpi_config : Z
}.

(** [esp_lcd_panel_dev_config_t]. *)
Record esp_lcd_panel_dev_config_t : Type := mk_dev_config {
  dev_reset_gpio_num : Z;
  dev_color_space : Z;
  dev_bits_per_pixel : Z;
  dev_reset_active_high : bool;
  dev_vendor_config : option esp_panel_lcd_vendor_config_t
}.

(** ** Fixed-width stores and bit tests *)

Definition to_uint8 (z : Z) : Z := z mod 256.

Definition to_uint16 (z : Z) : Z := z mod 65536.

(** Every bit of the mask [m] is one in [v]. *)
Definition bit_set (v m : Z) : Prop := Z.land v m = m.

(** Every bit of the mask [m] is zero in [v]. *)
Definition bit_clear (v m : Z) : Prop := Z.land v m = 0.

(** ** The world: heap and trace *)

Inductive log_level : Type := LOG_E | LOG_W | LOG_I | LOG_D.

Inductive event : Type :=
| EvRxParam (io_h lcd_cmd size : Z)
| EvTxParam (io_h lcd_cmd : Z) (param : list Z) (param_size : Z)
| EvDelay (ms : Z)
| EvGpioConfig (pin_bit_mask : Z)
| EvGpioResetPin (gpio_num : Z)
| EvGpioSetLevel (gpio_num level : Z)
| EvNewPanelDpi (bus dpi_config : Z)
| EvPanelCall (f : panel_fn)
| EvLog (lvl : log_level) (msg : string) (args : list Z).

Record World : Type := mk_world {
  heap : gmap loc st7701_panel_t;
  trace : list event
}.

(** The environment decides, from the history up to and including the
    call, what each external call returns. *)
Record Env : Type := mk_env {
  env_status : list event -> esp_err_t;
  env_rx_bytes : list event -> list Z;
  env_calloc_null : list event -> bool
}.

(** ** The monad of driver code *)

(** A statement either falls through with a value or executes a C
    [return] with a status, which skips the rest of the function body. *)
Inductive outcome (A : Type) : Type :=
| Normal (a : A)
| Return (e : esp_err_t).

Arguments Normal {A} a.
Arguments Return {A} e.

Definition M (A : Type) : Type := World -> option (outcome A * World).

#[global] Instance M_ret : MRet M := fun A a w => Some (Normal a, w).

#[global] Instance M_bind : MBind M :=
  fun A B f m w =>
    match m w with
    | Some (Normal a, w') => f a w'
    | Some (Return e, w') => Some (Return e, w')
    | None => None
    end.

(** [return e;] *)
Definition return_ {A : Type} (e : esp_err_t) : M A :=
  fun w => Some (Return e, w).

(** A function whose body is [body]: at the call site a [return] is an
    ordinary result. *)
Definition function (body : M esp_err_t) : M esp_err_t :=
  fun w => match body w with
           | Some (Normal e, w') | Some (Return e, w') => Some (Normal e, w')
           | None => None
           end.

(** A function that delivers an object through an out-parameter on
    success: falling off the end of [body] with [a] stands for
    [*out = a; return ESP_OK;]. *)
Definition function_out {A : Type} (body : M A) : M (esp_err_t * option A) :=
  fun w => match body w with
           | Some (Normal a, w') => Some (Normal (ESP_OK, Some a), w')
           | Some (Return e, w') => Some (Normal (e, None), w')
           | None => None
           end.

(** Undefined behaviour. *)
Definition undefined {A : Type} : M A := fun _ => None.

Definition emit (e : event) : M unit :=
  fun w => Some (Normal tt, mk_world (heap w) (trace w ++ [e])).

Definition load (l : loc) : M st7701_panel_t :=
  fun w => match heap w !! l with Some s => Some (Normal s, w) | None => None end.

Definition modify (l : loc) (f : st7701_panel_t -> st7701_panel_t) : M unit :=
  fun w => match heap w !! l with
           | Some s => Some (Normal tt, mk_world (<[l := f s]> (heap w)) (trace w))
           | None => None
           end.

(** [free(p)]: releasing a block that is not live is undefined. *)
Definition free (l : loc) : M unit :=
  fun w => match heap w !! l with
           | Some _ => Some (Normal tt, mk_world (delete l (heap w)) (trace w))
           | None => None
           end.

(** Going through a pointer that may be null. *)
Definition ptr {A : Type} (p : option A) : M A :=
  match p with
  | Some a => mret a
  | None => undefined
  end.

(** [buf[i]] for a byte buffer. *)
Definition read_byte (buf : list Z) (i : nat) : M Z := ptr (buf !! i).

(** [(uint8_t []){ ... }] *)
Definition uint8_array (l : list Z) : list Z := to_uint8 <$> l.

(** Field stores into a [st7701_panel_t]. *)
Definition set_io (v : Z) (s : st7701_panel_t) : st7701_panel_t :=
  mk_st7701 v (reset_gpio_num s) (madctl_val s) (colmod_val s)
            (init_cmds s) (init_cmds_size s) (reset_level s) (del s) (init s).

Definition set_reset_gpio_num (v : Z) (s : st7701_panel_t) : st7701_panel_t :=
  mk_st7701 (io s) v (madctl_val s) (colmod_val s)
            (init_cmds s) (init_cmds_size s) (reset_level s) (del s) (init s).

Definition set_madctl_val (v : Z) (s : st7701_panel_t) : st7701_panel_t :=
  mk_st7701 (io s) (reset_gpio_num s) (to_uint8 v) (colmod_val s)
            (init_cmds s) (init_cmds_size s) (reset_level s) (del s) (init s).

Definition set_colmod_val (v : Z) (s : st7701_panel_t) : st7701_panel_t :=
  mk_st7701 (io s) (reset_gpio_num s) (madctl_val s) (to_uint8 v)
            (init_cmds s) (init_cmds_size s) (reset_level s) (del s) (init s).

Definition set_init_cmds (v : option (list esp_panel_lcd_vendor_init_cmd_t))
    (s : st7701_panel_t) : st7701_panel_t :=
  mk_st7701 (io s) (reset_gpio_num s) (madctl_val s) (colmod_val s)
            v (init_cmds_size s) (reset_level s) (del s) (init s).

Definition set_init_cmds_size (v : Z) (s : st7701_panel_t) : st7701_panel_t :=
  mk_st7701 (io s) (reset_gpio_num s) (madctl_val s) (colmod_val s)
            (init_cmds s) (to_uint16 v) (reset_level s) (del s) (init s).

Definition set_reset_level (v : bool) (s : st7701_panel_t) : st7701_panel_t :=
  mk_st7701 (io s) (reset_gpio_num s) (madctl_val s) (colmod_val s)
            (init_cmds s) (init_cmds_size s) v (del s) (init s).

Definition set_del (v : panel_fn) (s : st7701_panel_t) : st7701_panel_t :=
  mk_st7701 (io s) (reset_gpio_num s) (madctl_val s) (colmod_val s)
            (init_cmds s) (init_cmds_size s) (reset_level s) v (init s).

Definition set_init (v : panel_fn) (s : st7701_panel_t) : st7701_panel_t :=
  mk_st7701 (io s) (reset_gpio_num s) (madctl_val s) (colmod_val s)
            (init_cmds s) (init_cmds_size s) (reset_level s) (del s) v.

(** ** The built-in initialisation table *)

Definition vendor_specific_init_default : list esp_panel_lcd_vendor_init_cmd_t := [
  mk_init_cmd 0xFF [0x77; 0x01; 0x00; 0x00; 0x13] 5 0;
  mk_init_cmd 0xEF [0x08] 1 0;
  mk_init_cmd 0xFF [0x77; 0x01; 0x00; 0x00; 0x10] 5 0;
  mk_init_cmd 0xC0 [0x2c; 0x00] 2 0;
  mk_init_cmd 0xC1 [0x10; 0x0C] 2 0;
  mk_init_cmd 0xC2 [0x21; 0x0A] 2 0;
  mk_init_cmd 0xCC [0x10] 1 0;
  mk_init_cmd 0xB0 [0x00; 0x0B; 0x12; 0x0D; 0x10; 0x06; 0x02; 0x08; 0x07; 0x1F; 0x04; 0x11; 0x0F; 0x29; 0x31; 0x1E] 16 0;
  mk_init_cmd 0xB1 [0x00; 0x0B; 0x13; 0x0D; 0x11; 0x06; 0x03; 0x08; 0x07; 0x20; 0x04; 0x12; 0x11; 0x29; 0x31; 0x1E] 16 0;
  mk_init_cmd 0xFF [0x77; 0x01; 0x00; 0x00; 0x11] 5 0;
  mk_init_cmd 0xB0 [0x5D] 1 0;
  mk_init_cmd 0xB1 [0x72] 1 0;
  mk_init_cmd 0xB2 [0x84] 1 0;
  mk_init_cmd 0xB3 [0x80] 1 0;
  mk_init_cmd 0xB5 [0x4D] 1 0;
  mk_init_cmd 0xB7 [0x85] 1 0;
  mk_init_cmd 0xB8 [0x20] 1 0;
  mk_init_cmd 0xC1 [0x78] 1 0;
  mk_init_cmd 0xC2 [0x78] 1 0;
  mk_init_cmd 0xD0 [0x88] 1 0;
  mk_init_cmd 0xE0 [0x80; 0x00; 0x02] 3 0;
  mk_init_cmd 0xE1 [0x05; 0x00; 0x07; 0x00; 0x06; 0x00; 0x08; 0x00; 0x00; 0x33; 0x33] 11 0;
  mk_init_cmd 0xE2 [0x00; 0x00; 0x30; 0x30; 0x01; 0x00; 0x00; 0x00; 0x01; 0x00; 0x00; 0x00] 12 0;
  mk_init_cmd 0xE3 [0x00; 0x00; 0x11; 0x11] 4 0;
  mk_init_cmd 0xE4 [0x44; 0x44] 2 0;
  mk_init_cmd 0xE5 [0x0C; 0x78; 0x00; 0xE0; 0x0E; 0x7A; 0x00; 0xE0; 0x08; 0x74; 0x00; 0xE0; 0x0A; 0x76; 0x00; 0xE0] 16 0;
  mk_init_cmd 0xE6 [0x00; 0x00; 0x11; 0x11] 4 0;
  mk_init_cmd 0xE7 [0x44; 0x44] 2 0;
  mk_init_cmd 0xE8 [0x0D; 0x79; 0x00; 0xE0; 0x0F; 0x7B; 0x00; 0xE0; 0x09; 0x75; 0x00; 0xE0; 0x0B; 0x77; 0x00; 0xE0] 16 0;
  mk_init_cmd 0xE9 [0x36; 0x00] 2 0;
  mk_init_cmd 0xEB [0x00; 0x01; 0xE4; 0xE4; 0x44; 0x88; 0x40] 7 0;
  mk_init_cmd 0xED [0xA1; 0xC2; 0xFB; 0x0F; 0x67; 0x45; 0xFF; 0xFF; 0xFF; 0xFF; 0x54; 0x76; 0xF0; 0xBF; 0x2C; 0x1A] 16 0;
  mk_init_cmd 0xEF [0x10; 0x0D; 0x04; 0x08; 0x3F; 0x1F] 6 0;
  mk_init_cmd 0xFF [0x77; 0x01; 0x00; 0x00; 0x13] 5 0;
  mk_init_cmd 0xE8 [0x00; 0x0E] 2 0;
  mk_init_cmd 0xE8 [0x00; 0x0C] 2 20;
  mk_init_cmd 0xE8 [0x00; 0x00] 2 0;
  mk_init_cmd 0xFF [0x77; 0x01; 0x00; 0x00; 0x00] 5 0;
  mk_init_cmd 0x11 [0x00] 0 120;
  mk_init_cmd 0x29 [0x00] 0 0
].

Section Driver.

Context {hdr : Headers}.
Variable env : Env.

(** *** External calls *)

(** An external call returning a status: recorded, then answered by the
    environment. *)
Definition extern (e : event) : M esp_err_t :=
  fun w => let t := trace w ++ [e] in
           Some (Normal (env_status env t), mk_world (heap w) t).

Definition esp_lcd_panel_io_tx_param (io_h lcd_cmd : Z) (param : list Z)
    (param_size : Z) : M esp_err_t :=
  extern (EvTxParam io_h lcd_cmd param param_size).

(** Returns the status and the bytes placed in the caller's buffer. *)
Definition esp_lcd_panel_io_rx_param (io_h lcd_cmd size : Z)
    : M (esp_err_t * list Z) :=
  fun w => let t := trace w ++ [EvRxParam io_h lcd_cmd size] in
           Some (Normal (env_status env t, env_rx_bytes env t),
                 mk_world (heap w) t).

Definition gpio_config (pin_bit_mask : Z) : M esp_err_t :=
  extern (EvGpioConfig pin_bit_mask).

Definition gpio_reset_pin (gpio_num : Z) : M esp_err_t :=
  extern (EvGpioResetPin gpio_num).

Definition gpio_set_level (gpio_num level : Z) : M esp_err_t :=
  extern (EvGpioSetLevel gpio_num level).

(** [vTaskDelay(pdMS_TO_TICKS(ms))]: the delay asked of the scheduler. *)
Definition vTaskDelay_ms (ms : Z) : M unit := emit (EvDelay ms).

Definition ESP_LOG (lvl : log_level) (msg : string) (args : list Z) : M unit :=
  emit (EvLog lvl msg args).

(** A call through a saved function pointer of the DPI panel. *)
Definition call_panel_fn (f : panel_fn) : M esp_err_t :=
  match f with
  | fn_dpi _ => extern (EvPanelCall f)
  | _ => undefined
  end.

(** [calloc(1, sizeof(st7701_panel_t))]: null, or a fresh zeroed block. *)
Definition calloc_st7701 : M (option loc) :=
  fun w => if env_calloc_null env (trace w) then Some (Normal None, w)
           else let l := fresh (dom (heap w)) in
                Some (Normal (Some l),
                      mk_world (<[l := st7701_zeroed]> (heap w)) (trace w)).

(** [esp_lcd_new_panel_dpi]: the status and the panel object placed in
    the caller's handle, whose operations are the DPI driver's own. *)
Definition dpi_panel : esp_lcd_panel_t :=
  mk_panel (fn_dpi op_reset) (fn_dpi op_init) (fn_dpi op_del)
           (fn_dpi op_mirror) (fn_dpi op_invert_color)
           (fn_dpi op_disp_on_off) (fn_dpi op_disp_sleep) None.

Definition esp_lcd_new_panel_dpi (bus dpi_config : Z)
    : M (esp_err_t * esp_lcd_panel_t) :=
  fun w => let t := trace w ++ [EvNewPanelDpi bus dpi_config] in
           Some (Normal (env_status env t, dpi_panel), mk_world (heap w) t).

(** *** The [esp_check.h] macros *)

Definition ESP_RETURN_ON_ERROR (x : M esp_err_t) (msg : string) : M unit :=
  err_rc ← x;
  match err_rc with
  | ESP_OK => mret tt
  | _ => ESP_LOG LOG_E msg [];; return_ err_rc
  end.

Definition ESP_RETURN_ON_FALSE (a : bool) (err_code : esp_err_t)
    (msg : string) : M unit :=
  if a then mret tt else (ESP_LOG LOG_E msg [];; return_ err_code).

(** The [goto] macros take the code at the target label. *)
Definition ESP_GOTO_ON_ERROR (x : M esp_err_t) (goto_tag : esp_err_t -> M unit)
    (msg : string) : M unit :=
  err_rc ← x;
  match err_rc with
  | ESP_OK => mret tt
  | _ => ESP_LOG LOG_E msg [];; goto_tag err_rc
  end.

Definition ESP_GOTO_ON_FALSE (a : bool) (err_code : esp_err_t)
    (goto_tag : esp_err_t -> M unit) (msg : string) : M unit :=
  if a then mret tt else (ESP_LOG LOG_E msg [];; goto_tag err_code).

(** *** [esp_lcd_new_panel_st7701_mipi] *)

(** The code at label [err], entered with [ret] set. *)
Definition new_panel_err (st7701 : option loc)
    (panel_dev_config : esp_lcd_panel_dev_config_t) (ret : esp_err_t) : M unit :=
  (if bool_decide (is_Some st7701) then
     if 0 <=? dev_reset_gpio_num panel_dev_config then
       gpio_reset_pin (dev_reset_gpio_num panel_dev_config);; mret tt
     else mret tt
   else mret tt);;
  return_ ret.

Definition new_panel_body (io : Z)
    (panel_dev_config : option esp_lcd_panel_dev_config_t) (ret_panel : Z)
    : M esp_lcd_panel_t :=
  ESP_RETURN_ON_FALSE
    (negb (is_null io) && bool_decide (is_Some panel_dev_config)
     && negb (is_null ret_panel))
    ESP_ERR_INVALID_ARG "invalid argument";;
  cfg ← ptr panel_dev_config;
  ESP_RETURN_ON_FALSE
    (match dev_vendor_config cfg with
     | Some vc => negb (is_null (vc_dpi_config vc)) && negb (is_null (vc_dsi_bus vc))
     | None => false
     end)
    ESP_ERR_INVALID_ARG "invalid vendor config";;
  vendor_config ← ptr (dev_vendor_config cfg);
  st7701 ← calloc_st7701;
  ESP_RETURN_ON_FALSE (bool_decide (is_Some st7701)) ESP_ERR_NO_MEM
    "no mem for st7701 panel";;
  l ← ptr st7701;
  let err := new_panel_err st7701 cfg in
  (if 0 <=? dev_reset_gpio_num cfg then
     ESP_GOTO_ON_ERROR
       (gpio_config (Z.shiftl 1 (dev_reset_gpio_num cfg) mod 2 ^ 64))
       err "configure GPIO for RST line failed"
   else mret tt);;
  (if dev_color_space cfg =? LCD_RGB_ELEMENT_ORDER_RGB then
     modify l (set_madctl_val 0)
   else if dev_color_space cfg =? LCD_RGB_ELEMENT_ORDER_BGR then
     modify l (fun s => set_madctl_val (Z.lor (madctl_val s) LCD_CMD_BGR_BIT) s)
   else
     ESP_GOTO_ON_FALSE false ESP_ERR_NOT_SUPPORTED err
       "unsupported rgb element order");;
  (if dev_bits_per_pixel cfg =? 16 then (* RGB565 *)
     modify l (set_colmod_val 0x55)
   else if dev_bits_per_pixel cfg =? 18 then (* RGB666 *)
     modify l (set_colmod_val 0x66)
   else if dev_bits_per_pixel cfg =? 24 then (* RGB888 *)
     modify l (set_colmod_val 0x77)
   else
     ESP_GOTO_ON_FALSE false ESP_ERR_NOT_SUPPORTED err
       "unsupported pixel width");;
  modify l (set_io io);;
  modify l (set_init_cmds (vc_init_cmds vendor_config));;
  modify l (set_init_cmds_size (vc_init_cmds_size vendor_config));;
  modify l (set_reset_gpio_num (dev_reset_gpio_num cfg));;
  modify l (set_reset_level (dev_reset_active_high cfg));;
  (* Create MIPI DPI panel *)
  '(rc, panel_handle) ← esp_lcd_new_panel_dpi (vc_dsi_bus vendor_config)
                                               (vc_dpi_config vendor_config);
  ESP_GOTO_ON_ERROR (mret rc) err "create MIPI DPI panel failed";;
  ESP_LOG LOG_D "new MIPI DPI panel @%p" [];;
  (* Save the original functions of MIPI DPI panel *)
  modify l (set_del (p_del panel_handle));;
  modify l (set_init (p_init panel_handle));;
  (* Overwrite the functions of MIPI DPI panel: all seven operations and
     user_data are replaced, so nothing of the DPI object's own fields is
     left in the model's record *)
  let panel_handle :=
    mk_panel (fn_st7701 op_reset) (fn_st7701 op_init) (fn_st7701 op_del)
             (fn_st7701 op_mirror) (fn_st7701 op_invert_color)
             (fn_st7701 op_disp_on_off) (fn_st7701 op_disp_sleep) (Some l) in
  ESP_LOG LOG_D "new st7701 panel @%p" [];;
  mret panel_handle.

Definition esp_lcd_new_panel_st7701_mipi (io : Z)
    (panel_dev_config : option esp_lcd_panel_dev_config_t) (ret_panel : Z)
    : M (esp_err_t * option esp_lcd_panel_t) :=
  function_out (new_panel_body io panel_dev_config ret_panel).

(** *** [panel_st7701_del] *)

Definition panel_st7701_del (panel : esp_lcd_panel_t) : M esp_err_t :=
  function (
    l ← ptr (user_data panel);
    st7701 ← load l;
    (if 0 <=? reset_gpio_num st7701 then
       gpio_reset_pin (reset_gpio_num st7701);; mret tt
     else mret tt);;
    (* Delete MIPI DPI panel *)
    call_panel_fn (del st7701);;
    ESP_LOG LOG_D "del st7701 panel @%p" [];;
    free l;;
    return_ ESP_OK).

(** *** [panel_st7701_reset] *)

Definition panel_st7701_reset (panel : esp_lcd_panel_t) : M esp_err_t :=
  function (
    l ← ptr (user_data panel);
    st7701 ← load l;
    (if 0 <=? reset_gpio_num st7701 then
       (* perform hardware reset *)
       gpio_set_level (reset_gpio_num st7701) (Z.b2z (reset_level st7701));;
       vTaskDelay_ms 10;;
       gpio_set_level (reset_gpio_num st7701)
                      (Z.b2z (negb (reset_level st7701)));;
       vTaskDelay_ms 10
     else if negb (is_null (io st7701)) then
       (* perform software reset *)
       ESP_RETURN_ON_ERROR
         (esp_lcd_panel_io_tx_param (io st7701) LCD_CMD_SWRESET [] 0)
         "send command failed";;
       vTaskDelay_ms 20
     else mret tt);;
    return_ ESP_OK).

(** *** [panel_st7701_init] *)

(** The conflict check at the head of the loop body. *)
Definition init_check_overwrite (l : loc) (c : esp_panel_lcd_vendor_init_cmd_t)
    (is_command2_disable : bool) : M unit :=
  if is_command2_disable && (0 <? data_bytes c) then
    is_cmd_overwritten ←
      (if cmd c =? LCD_CMD_MADCTL then
         b ← read_byte (data c) 0;
         modify l (set_madctl_val b);;
         mret true
       else if cmd c =? LCD_CMD_COLMOD then
         b ← read_byte (data c) 0;
         modify l (set_colmod_val b);;
         mret true
       else mret false);
    if is_cmd_overwritten : bool then
      ESP_LOG LOG_W
        "The %02Xh command has been used and will be overwritten by external initialization sequence"
        [cmd c]
    else mret tt
  else mret tt.

(** One iteration of the replay loop; the result is the value of
    [is_command2_disable] at the end of the iteration. *)
Definition init_cmd_iter (io_h : Z) (l : loc)
    (c : esp_panel_lcd_vendor_init_cmd_t) (is_command2_disable : bool)
    : M bool :=
  (* Check if the command has been used or conflicts with the internal
     only when command2 is disable *)
  init_check_overwrite l c is_command2_disable;;
  (* Send command *)
  ESP_RETURN_ON_ERROR
    (esp_lcd_panel_io_tx_param io_h (cmd c) (data c) (data_bytes c))
    "send command failed";;
  vTaskDelay_ms (delay_ms c);;
  (* Check if the current cmd is the command2 disable cmd *)
  if (cmd c =? ST7701_CMD_CND2BKxSEL) && (4 <? data_bytes c) then
    b ← read_byte (data c) 4;
    mret (Z.land b ST7701_CMD_CN2_BIT =? 0)
  else mret is_command2_disable.

(** The [for] loop over the entries; the result is the value of
    [is_command2_disable] when the loop is left. *)
Fixpoint init_cmds_loop (io_h : Z) (l : loc)
    (cmds : list esp_panel_lcd_vendor_init_cmd_t) (is_command2_disable : bool)
    : M bool :=
  match cmds with
  | [] => mret is_command2_disable
  | c :: rest =>
      flag ← init_cmd_iter io_h l c is_command2_disable;
      init_cmds_loop io_h l rest flag
  end.

(** What the function does before the loop. *)
Definition init_prologue (st7701 : st7701_panel_t) : M unit :=
  '(rc, ID) ← esp_lcd_panel_io_rx_param (io st7701) 0x04 3;
  ESP_RETURN_ON_ERROR (mret rc) "read ID failed";;
  ESP_LOG LOG_I "LCD ID: %02X %02X %02X" (take 3 ID);;
  (* back to CMD_Page 0 *)
  ESP_RETURN_ON_ERROR
    (esp_lcd_panel_io_tx_param (io st7701) ST7701_CMD_CND2BKxSEL
       (uint8_array [ST7701_CMD_BKxSEL_BYTE0; ST7701_CMD_BKxSEL_BYTE1;
                     ST7701_CMD_BKxSEL_BYTE2; ST7701_CMD_BKxSEL_BYTE3; 0x00])
       5)
    "Write cmd failed";;
  ESP_RETURN_ON_ERROR
    (esp_lcd_panel_io_tx_param (io st7701) LCD_CMD_MADCTL [madctl_val st7701] 1)
    "send command failed";;
  ESP_RETURN_ON_ERROR
    (esp_lcd_panel_io_tx_param (io st7701) LCD_CMD_COLMOD [colmod_val st7701] 1)
    "send command failed";;
  ESP_LOG LOG_I " st7701->madctl_val: 0x%x, st7701->colmod_val: 0x%x"
    [madctl_val st7701; colmod_val st7701].

(** The entries the loop goes over: the first [init_cmds_size] entries of
    the caller's table if there is one, of the built-in table otherwise
    (where the count is [sizeof] the table over [sizeof] an entry, stored
    in a [uint16_t]).  A caller's count is expected not to exceed the
    length of the caller's table. *)
Definition init_active_cmds (st7701 : st7701_panel_t)
    : list esp_panel_lcd_vendor_init_cmd_t :=
  match init_cmds st7701 with
  | Some cmds => take (Z.to_nat (init_cmds_size st7701)) cmds
  | None =>
      take (Z.to_nat (to_uint16 (Z.of_nat (length vendor_specific_init_default))))
           vendor_specific_init_default
  end.

Definition panel_st7701_init (panel : esp_lcd_panel_t) : M esp_err_t :=
  function (
    l ← ptr (user_data panel);
    st7701 ← load l;
    init_prologue st7701;;
    (* vendor specific initialization *)
    init_cmds_loop (io st7701) l (init_active_cmds st7701) true;;
    ESP_LOG LOG_D "send init commands success" [];;
    st7701' ← load l;
    ESP_RETURN_ON_ERROR (call_panel_fn (init st7701'))
      "init MIPI DPI panel failed";;
    return_ ESP_OK).

(** *** [panel_st7701_invert_color], [panel_st7701_disp_on_off],
    [panel_st7701_sleep] *)

Definition panel_st7701_invert_color (panel : esp_lcd_panel_t)
    (invert_color_data : bool) : M esp_err_t :=
  function (
    l ← ptr (user_data panel);
    st7701 ← load l;
    let command := if invert_color_data then LCD_CMD_INVON else LCD_CMD_INVOFF in
    ESP_RETURN_ON_ERROR (esp_lcd_panel_io_tx_param (io st7701) command [] 0)
      "send command failed";;
    return_ ESP_OK).

Definition panel_st7701_disp_on_off (panel : esp_lcd_panel_t) (on_off : bool)
    : M esp_err_t :=
  function (
    l ← ptr (user_data panel);
    st7701 ← load l;
    let command := if on_off then LCD_CMD_DISPON else LCD_CMD_DISPOFF in
    ESP_RETURN_ON_ERROR (esp_lcd_panel_io_tx_param (io st7701) command [] 0)
      "send command failed";;
    return_ ESP_OK).

Definition panel_st7701_sleep (panel : esp_lcd_panel_t) (sleep : bool)
    : M esp_err_t :=
  function (
    l ← ptr (user_data panel);
    st7701 ← load l;
    let command := if sleep then LCD_CMD_SLPIN else LCD_CMD_SLPOUT in
    ESP_RETURN_ON_ERROR (esp_lcd_panel_io_tx_param (io st7701) command [] 0)
      "io tx param failed";;
    vTaskDelay_ms 100;;
    return_ ESP_OK).

(** *** [panel_st7701_mirror] *)

Definition panel_st7701_mirror (panel : esp_lcd_panel_t)
    (mirror_x mirror_y : bool) : M esp_err_t :=
  function (
    l ← ptr (user_data panel);
    st7701 ← load l;
    let io_h := io st7701 in
    ESP_RETURN_ON_FALSE (negb (is_null io_h)) ESP_FAIL
      "Panel IO is deleted, cannot send command";;
    (* Control mirror through LCD command *)
    let sdir_val := to_uint8 (if mirror_x then ST7701_CMD_SS_BIT else 0) in
    (if mirror_y then
       modify l (fun s => set_madctl_val (Z.lor (madctl_val s) LCD_CMD_ML_BIT) s)
     else
       modify l (fun s =>
         set_madctl_val (Z.land (madctl_val s) (Z.lnot LCD_CMD_ML_BIT)) s));;
    (* Enable the Command2 BK0 *)
    ESP_RETURN_ON_ERROR
      (esp_lcd_panel_io_tx_param io_h ST7701_CMD_CND2BKxSEL
         (uint8_array [ST7701_CMD_BKxSEL_BYTE0; ST7701_CMD_BKxSEL_BYTE1;
                       ST7701_CMD_BKxSEL_BYTE2; ST7701_CMD_BKxSEL_BYTE3;
                       Z.lor ST7701_CMD_BKxSEL_BK0 ST7701_CMD_CN2_BIT])
         5)
      "send command failed";;
    ESP_RETURN_ON_ERROR
      (esp_lcd_panel_io_tx_param io_h ST7701_CMD_SDIR [sdir_val] 1)
      "send command failed";;
    (* Disable Command2 *)
    ESP_RETURN_ON_ERROR
      (esp_lcd_panel_io_tx_param io_h ST7701_CMD_CND2BKxSEL
         (uint8_array [ST7701_CMD_BKxSEL_BYTE0; ST7701_CMD_BKxSEL_BYTE1;
                       ST7701_CMD_BKxSEL_BYTE2; ST7701_CMD_BKxSEL_BYTE3; 0])
         5)
      "send command failed";;
    st7701' ← load l;
    ESP_RETURN_ON_ERROR
      (esp_lcd_panel_io_tx_param io_h LCD_CMD_MADCTL [madctl_val st7701'] 1)
      "send command failed";;
    return_ ESP_OK).

End Driver.

(** * Vocabulary of the statements *)

Definition is_tx_event (e : event) : bool :=
  match e with EvTxParam _ _ _ _ => true | _ => false end.

(** The transport writes of a trace, in order. *)
Definition tx_events (t : list event) : list event :=
  List.filter is_tx_event t.

Definition is_log_event (e : event) : bool :=
  match e with EvLog _ _ _ => true | _ => false end.

(** A trace without its log lines: what reaches the transport, the GPIO
    driver, the scheduler and the DPI driver. *)
Definition bus_events (t : list event) : list event :=
  List.filter (fun e => negb (is_log_event e)) t.

Definition is_warning (e : event) : bool :=
  match e with EvLog LOG_W _ _ => true | _ => false end.

(** The warnings of a trace. *)
Definition warnings (t : list event) : list event := List.filter is_warning t.

(** Issuing the transport writes [writes] one after the other under
    [ESP_RETURN_ON_ERROR], from history [t]: the status returned and the
    events produced.  The first write the environment rejects ends the
    sequence. *)
Fixpoint send_all (env : Env) (t : list event) (writes : list event)
    : esp_err_t * list event :=
  match writes with
  | [] => (ESP_OK, [])
  | e :: rest =>
      match env_status env (t ++ [e]) with
      | ESP_OK => let '(r, evs) := send_all env (t ++ [e]) rest in (r, e :: evs)
      | err => (err, [e; EvLog LOG_E "send command failed" []])
      end
  end.

(** The panel object a successful construction hands back. *)
Definition st7701_panel_handle (l : loc) : esp_lcd_panel_t :=
  mk_panel (fn_st7701 op_reset) (fn_st7701 op_init) (fn_st7701 op_del)
           (fn_st7701 op_mirror) (fn_st7701 op_invert_color)
           (fn_st7701 op_disp_on_off) (fn_st7701 op_disp_sleep) (Some l).

(** An entry whose buffer holds the bytes it announces. *)
Definition init_cmd_wf (c : esp_panel_lcd_vendor_init_cmd_t) : Prop :=
  data_bytes c <= Z.of_nat (length (data c)).

(** What one entry puts on the transport and asks of the scheduler. *)
Definition entry_events (io_h : Z) (c : esp_panel_lcd_vendor_init_cmd_t)
    : list event :=
  [EvTxParam io_h (cmd c) (data c) (data_bytes c); EvDelay (delay_ms c)].

Definition override_warning (c : esp_panel_lcd_vendor_init_cmd_t) : event :=
  EvLog LOG_W
    "The %02Xh command has been used and will be overwritten by external initialization sequence"
    [cmd c].

Section Vocabulary.

Context {hdr : Headers}.
Variable env : Env.

(** The value of [is_command2_disable] after an iteration on [c] that
    runs to its end. *)
Definition next_flag (c : esp_panel_lcd_vendor_init_cmd_t) (flag : bool)
    : bool :=
  if (cmd c =? ST7701_CMD_CND2BKxSEL) && (4 <? data_bytes c) then
    match data c !! 4%nat with
    | Some b => Z.land b ST7701_CMD_CN2_BIT =? 0
    | None => flag
    end
  else flag.

(** The value [mirror] leaves in [madctl_val], before the store narrows it
    to a byte. *)
Definition mirror_madctl (mirror_y : bool) (madctl : Z) : Z :=
  if mirror_y then Z.lor madctl LCD_CMD_ML_BIT
  else Z.land madctl (Z.lnot LCD_CMD_ML_BIT).

(** The scan-direction byte [mirror] computes from [mirror_x]. *)
Definition mirror_sdir (mirror_x : bool) : Z :=
  to_uint8 (if mirror_x then ST7701_CMD_SS_BIT else 0).

(** The four transport writes of [mirror], in program order. *)
Definition mirror_writes (io_h sdir_val madctl : Z) : list event :=
  [EvTxParam io_h ST7701_CMD_CND2BKxSEL
     (uint8_array [ST7701_CMD_BKxSEL_BYTE0; ST7701_CMD_BKxSEL_BYTE1;
                   ST7701_CMD_BKxSEL_BYTE2; ST7701_CMD_BKxSEL_BYTE3;
                   Z.lor ST7701_CMD_BKxSEL_BK0 ST7701_CMD_CN2_BIT]) 5;
   EvTxParam io_h ST7701_CMD_SDIR [sdir_val] 1;
   EvTxParam io_h ST7701_CMD_CND2BKxSEL
     (uint8_array [ST7701_CMD_BKxSEL_BYTE0; ST7701_CMD_BKxSEL_BYTE1;
                   ST7701_CMD_BKxSEL_BYTE2; ST7701_CMD_BKxSEL_BYTE3; 0]) 5;
   EvTxParam io_h LCD_CMD_MADCTL [madctl] 1].

(** A run of calls to [mirror] by a caller that goes on whatever status
    comes back. *)
Fixpoint mirror_calls (panel : esp_lcd_panel_t) (args : list (bool * bool))
    : M unit :=
  match args with
  | [] => mret tt
  | (mirror_x, mirror_y) :: rest =>
      panel_st7701_mirror env panel mirror_x mirror_y;;
      mirror_calls panel rest
  end.

(** The events of the part of [panel_st7701_init] that precedes the loop,
    [id] being the bytes the identifier read returned. *)
Definition init_prologue_events (id : list Z) (st7701 : st7701_panel_t)
    : list event :=
  [EvRxParam (io st7701) 0x04 3;
   EvLog LOG_I "LCD ID: %02X %02X %02X" id;
   EvTxParam (io st7701) ST7701_CMD_CND2BKxSEL
     (uint8_array [ST7701_CMD_BKxSEL_BYTE0; ST7701_CMD_BKxSEL_BYTE1;
                   ST7701_CMD_BKxSEL_BYTE2; ST7701_CMD_BKxSEL_BYTE3; 0x00]) 5;
   EvTxParam (io st7701) LCD_CMD_MADCTL [madctl_val st7701] 1;
   EvTxParam (io st7701) LCD_CMD_COLMOD [colmod_val st7701] 1;
   EvLog LOG_I " st7701->madctl_val: 0x%x, st7701->colmod_val: 0x%x"
     [madctl_val st7701; colmod_val st7701]].

(** The identifier bytes read at the start of [panel_st7701_init]. *)
Definition init_id (st7701 : st7701_panel_t) (w : World) : list Z :=
  take 3 (env_rx_bytes env (trace w ++ [EvRxParam (io st7701) 0x04 3])).

(** *** The flag of the loop, in the words of the specification

    The specification calls command-group-2 "considered enabled" while the
    loop's flag [is_command2_disable] is [true], which is its value when the
    loop is entered, and a "group-2-disable entry" a page-select entry with
    more than four parameter bytes whose fifth byte has
    [ST7701_CMD_CN2_BIT] set: the entry after which the flag is [false]. *)

Definition group2_disable_entry (c : esp_panel_lcd_vendor_init_cmd_t) : Prop :=
  cmd c = ST7701_CMD_CND2BKxSEL /\ 4 < data_bytes c /\
  exists b, data c !! 4%nat = Some b /\ Z.land b ST7701_CMD_CN2_BIT <> 0.

(** A page-select entry with more than four parameter bytes whose fifth
    byte has [ST7701_CMD_CN2_BIT] clear: the entry after which the flag is
    [true] again. *)
Definition group2_enable_entry (c : esp_panel_lcd_vendor_init_cmd_t) : Prop :=
  cmd c = ST7701_CMD_CND2BKxSEL /\ 4 < data_bytes c /\
  exists b, data c !! 4%nat = Some b /\ Z.land b ST7701_CMD_CN2_BIT = 0.

Definition targets_madctl_or_colmod (c : esp_panel_lcd_vendor_init_cmd_t)
    : Prop :=
  cmd c = LCD_CMD_MADCTL \/ cmd c = LCD_CMD_COLMOD.

End Vocabulary.

(** * Concrete environments, worlds and tables *)

(** An environment in which every external call succeeds. *)
Definition env_ok : Env :=
  mk_env (fun _ => ESP_OK) (fun _ => [0x00; 0x77; 0x01]) (fun _ => false).

(** An environment in which creating the DPI panel fails for lack of
    memory and everything else succeeds. *)
Definition env_dpi_no_mem : Env :=
  mk_env (fun t => match last t with
                   | Some (EvNewPanelDpi _ _) => ESP_ERR_NO_MEM
                   | _ => ESP_OK
                   end)
         (fun _ => [0x00; 0x77; 0x01]) (fun _ => false).

(** An environment whose transport rejects every write. *)
Definition env_tx_fails : Env :=
  mk_env (fun t => match last t with
                   | Some (EvTxParam _ _ _ _) => ESP_FAIL
                   | _ => ESP_OK
                   end)
         (fun _ => [0x00; 0x77; 0x01]) (fun _ => false).

Definition world_empty : World := mk_world ∅ [].

(** A world with one live panel state, at location 1. *)
Definition world_with (s : st7701_panel_t) : World :=
  mk_world {[1%positive := s]} [].

Definition panel_1 : esp_lcd_panel_t := st7701_panel_handle 1.

(** Device configurations: RGB or BGR order, 16 bits per pixel, no caller
    table; without and with a reset pin. *)
Definition vendor_config_default : esp_panel_lcd_vendor_config_t :=
  mk_vendor_config None 0 0x3000 0x4000.

Definition dev_config_rgb565 : esp_lcd_panel_dev_config_t :=
  mk_dev_config (-1) 0 16 false (Some vendor_config_default).

Definition dev_config_bgr565 : esp_lcd_panel_dev_config_t :=
  mk_dev_config (-1) 1 16 false (Some vendor_config_default).

Definition dev_config_pin5 : esp_lcd_panel_dev_config_t :=
  mk_dev_config 5 0 16 false (Some vendor_config_default).

(** Panel states: software reset only, with a transport and without. *)
Definition st_soft : st7701_panel_t :=
  mk_st7701 0x1000 (-1) 0 0x55 None 0 false (fn_dpi op_del) (fn_dpi op_init).

(** A panel state with reset pin 5, active high. *)
Definition st_pin5 : st7701_panel_t :=
  mk_st7701 0x1000 5 0 0x55 None 0 true (fn_dpi op_del) (fn_dpi op_init).

Definition st_no_io : st7701_panel_t :=
  mk_st7701 NULL (-1) 0x10 0x55 None 0 false (fn_dpi op_del) (fn_dpi op_init).

(** A caller table: select a command-2 bank, go back to page 0, then set
    the pixel format. *)
Definition cmd_bank3 : esp_panel_lcd_vendor_init_cmd_t :=
  mk_init_cmd 0xFF [0x77; 0x01; 0x00; 0x00; 0x13] 5 0.

Definition cmd_page0 : esp_panel_lcd_vendor_init_cmd_t :=
  mk_init_cmd 0xFF [0x77; 0x01; 0x00; 0x00; 0x00] 5 0.

Definition cmd_colmod_77 : esp_panel_lcd_vendor_init_cmd_t :=
  mk_init_cmd 0x3A [0x77] 1 0.

Definition dev_config_caller_table : esp_lcd_panel_dev_config_t :=
  mk_dev_config (-1) 0 16 false
    (Some (mk_vendor_config (Some [cmd_bank3; cmd_page0; cmd_colmod_77]) 3
                            0x3000 0x4000)).

(** * Vocabulary of the further properties *)

(** The fields of the driver state that only the constructor writes. *)
Definition same_config (s s' : st7701_panel_t) : Prop :=
  io s' = io s /\ reset_gpio_num s' = reset_gpio_num s /\
  init_cmds s' = init_cmds s /\ init_cmds_size s' = init_cmds_size s /\
  reset_level s' = reset_level s /\ del s' = del s /\ init s' = init s.

(** Both saved register values fit a byte. *)
Definition regs_are_bytes (s : st7701_panel_t) : Prop :=
  0 <= madctl_val s < 256 /\ 0 <= colmod_val s < 256.

(** The GPIO events of the constructor when a reset pin is configured. *)
Definition gpio_config_event (pin : Z) : event :=
  EvGpioConfig (Z.shiftl 1 pin mod 2 ^ 64).

(** [evs] if a reset pin is configured, nothing otherwise. *)
Definition if_pin (pin : Z) (evs : list event) : list event :=
  if 0 <=? pin then evs else [].

(** The calls a user of the panel handle can make, short of deleting it. *)
Inductive panel_call : Type :=
| call_reset
| call_init
| call_invert_color (invert_color_data : bool)
| call_mirror (mirror_x mirror_y : bool)
| call_disp_on_off (on_off : bool)
| call_sleep (sleep : bool).

(** The table [panel_st7701_init] goes over can be read: a caller's count
    does not exceed the length of the caller's table, and the buffer of
    every entry holds the bytes the entry announces. *)
Definition init_table_ok (st7701 : st7701_panel_t) : Prop :=
  match init_cmds st7701 with
  | Some cmds => init_cmds_size st7701 <= Z.of_nat (length cmds)
  | None => True
  end /\
  Forall init_cmd_wf (init_active_cmds st7701).

Section FurtherVocabulary.

Context {hdr : Headers}.
Variable env : Env.

(** The arguments of the constructor pass its two checks. *)
Definition valid_new_panel_args (io_h : Z) (cfg : esp_lcd_panel_dev_config_t)
    (vc : esp_panel_lcd_vendor_config_t) (ret_panel : Z) : Prop :=
  io_h <> NULL /\ ret_panel <> NULL /\ dev_vendor_config cfg = Some vc /\
  vc_dpi_config vc <> NULL /\ vc_dsi_bus vc <> NULL.

(** The value the constructor gives [madctl_val] and [colmod_val]. *)
Definition initial_madctl (color_space : Z) : Z :=
  if color_space =? LCD_RGB_ELEMENT_ORDER_RGB then 0
  else to_uint8 LCD_CMD_BGR_BIT.

Definition initial_colmod (bits_per_pixel : Z) : Z :=
  if bits_per_pixel =? 16 then 0x55
  else if bits_per_pixel =? 18 then 0x66 else 0x77.

(** The state a successful construction leaves in the new block. *)
Definition constructed_state (io_h : Z) (cfg : esp_lcd_panel_dev_config_t)
    (vc : esp_panel_lcd_vendor_config_t) : st7701_panel_t :=
  mk_st7701 io_h (dev_reset_gpio_num cfg)
    (initial_madctl (dev_color_space cfg))
    (initial_colmod (dev_bits_per_pixel cfg))
    (vc_init_cmds vc) (to_uint16 (vc_init_cmds_size vc))
    (dev_reset_active_high cfg) (fn_dpi op_del) (fn_dpi op_init).

(** What the check at the head of an iteration does to the pair
    ([madctl_val], [colmod_val]). *)
Definition override_regs (c : esp_panel_lcd_vendor_init_cmd_t) (flag : bool)
    (regs : Z * Z) : Z * Z :=
  if flag && (0 <? data_bytes c) then
    match data c !! 0%nat with
    | Some b =>
        if cmd c =? LCD_CMD_MADCTL then (to_uint8 b, regs.2)
        else if cmd c =? LCD_CMD_COLMOD then (regs.1, to_uint8 b)
        else regs
    | None => regs
    end
  else regs.

(** The pair of registers after the whole table, the flag being [flag] at
    the first entry. *)
Fixpoint replay_regs (cmds : list esp_panel_lcd_vendor_init_cmd_t)
    (flag : bool) (regs : Z * Z) : Z * Z :=
  match cmds with
  | [] => regs
  | c :: rest => replay_regs rest (next_flag c flag) (override_regs c flag regs)
  end.

(** Everything a complete [panel_st7701_init] puts on the bus, in order. *)
Definition init_bus (st7701 : st7701_panel_t) : list event :=
  [EvRxParam (io st7701) 0x04 3;
   EvTxParam (io st7701) ST7701_CMD_CND2BKxSEL
     (uint8_array [ST7701_CMD_BKxSEL_BYTE0; ST7701_CMD_BKxSEL_BYTE1;
                   ST7701_CMD_BKxSEL_BYTE2; ST7701_CMD_BKxSEL_BYTE3; 0x00]) 5;
   EvTxParam (io st7701) LCD_CMD_MADCTL [madctl_val st7701] 1;
   EvTxParam (io st7701) LCD_CMD_COLMOD [colmod_val st7701] 1]
  ++ flat_map (entry_events (io st7701)) (init_active_cmds st7701)
  ++ [EvPanelCall (init st7701)].

(** The run that produced [evs] from history [t] ended with a call the
    environment rejected with status [r], followed by one error line. *)
Definition failed_at (t : list event) (evs : list event) (r : esp_err_t)
    : Prop :=
  exists evs0 e msg,
    evs = evs0 ++ [e; EvLog LOG_E msg []] /\ is_log_event e = false /\
    r = env_status env (t ++ evs0 ++ [e]).

(** One call on the handle, and a run of calls by a caller that goes on
    whatever status comes back. *)
Definition run_call (panel : esp_lcd_panel_t) (c : panel_call)
    : M esp_err_t :=
  match c with
  | call_reset => panel_st7701_reset env panel
  | call_init => panel_st7701_init env panel
  | call_invert_color b => panel_st7701_invert_color env panel b
  | call_mirror x y => panel_st7701_mirror env panel x y
  | call_disp_on_off b => panel_st7701_disp_on_off env panel b
  | call_sleep b => panel_st7701_sleep env panel b
  end.

Fixpoint run_calls (panel : esp_lcd_panel_t) (cs : list panel_call)
    : M unit :=
  match cs with
  | [] => mret tt
  | c :: rest => run_call panel c;; run_calls panel rest
  end.

End FurtherVocabulary.

(** An environment in which the allocator has no memory left, and one in
    which the GPIO driver rejects the configuration of a pin. *)
Definition env_calloc_fails : Env :=
  mk_env (fun _ => ESP_OK) (fun _ => [0x00; 0x77; 0x01]) (fun _ => true).

Definition env_gpio_fails : Env :=
  mk_env (fun t => match last t with
                   | Some (EvGpioConfig _) => ESP_FAIL
                   | _ => ESP_OK
                   end)
         (fun _ => [0x00; 0x77; 0x01]) (fun _ => false).

(** A device configuration with a colour order the driver does not know,
    and one without vendor configuration. *)
Definition dev_config_order7 : esp_lcd_panel_dev_config_t :=
  mk_dev_config 5 7 16 false (Some vendor_config_default).

Definition dev_config_no_vendor : esp_lcd_panel_dev_config_t :=
  mk_dev_config (-1) 0 16 false None.

(** Device configurations with reset pin 5 and RGB order: a pixel width the
    driver does not know, and 24 bits per pixel. *)
Definition dev_config_17bpp : esp_lcd_panel_dev_config_t :=
  mk_dev_config 5 0 17 false (Some vendor_config_default).

Definition dev_config_rgb888 : esp_lcd_panel_dev_config_t :=
  mk_dev_config 5 0 24 false (Some vendor_config_default).

(** A run of calls that uses every operation of the handle. *)
Definition calls_all : list panel_call :=
  [call_reset; call_init; call_mirror true true; call_invert_color true;
   call_disp_on_off true; call_sleep false; call_init].

(** * Properties *)

(** ** Bit-level facts *)

Lemma to_uint8_land (z : Z) : to_uint8 z = Z.land z (Z.ones 8).
Proof. unfold to_uint8. rewrite Z.land_ones by lia. reflexivity. Qed.

Lemma byte_mask_high_bits (m i : Z) :
  0 <= m < 256 -> 8 <= i -> Z.testbit m i = false.
Proof.
  intros Hm Hi. destruct (Z.eq_dec m 0) as [->|Hne].
  - apply Z.bits_0.
  - apply Z.bits_above_log2; [lia|].
    assert (Z.log2 m < 8); [|lia].
    apply Z.log2_lt_pow2; lia.
Qed.

Lemma ones8_testbit (i : Z) : 0 <= i -> Z.testbit (Z.ones 8) i = bool_decide (i < 8).
Proof.
  intros Hi. case_bool_decide.
  - apply Z.ones_spec_low. lia.
  - apply Z.ones_spec_high. lia.
Qed.

(** Or-ing a byte mask into a value and storing it in a byte sets the mask. *)
Lemma bit_set_lor_uint8 (v m : Z) :
  0 <= m < 256 -> bit_set (to_uint8 (Z.lor v m)) m.
Proof.
  intros Hm. unfold bit_set. rewrite to_uint8_land.
  apply Z.bits_inj'. intros i Hi.
  rewrite !Z.land_spec, Z.lor_spec, ones8_testbit by lia.
  case_bool_decide.
  - destruct (Z.testbit v i), (Z.testbit m i); reflexivity.
  - rewrite (byte_mask_high_bits m i) by lia.
    destruct (Z.testbit v i); reflexivity.
Qed.

(** And-ing with the complement of a mask clears the mask. *)
Lemma bit_clear_land_lnot_uint8 (v m : Z) :
  bit_clear (to_uint8 (Z.land v (Z.lnot m))) m.
Proof.
  unfold bit_clear. rewrite to_uint8_land.
  apply Z.bits_inj'. intros i Hi.
  rewrite !Z.land_spec, Z.lnot_spec, Z.bits_0 by lia.
  destruct (Z.testbit v i), (Z.testbit m i), (Z.testbit (Z.ones 8) i); reflexivity.
Qed.

(** A mask that is set survives or-ing another mask in. *)
Lemma bit_set_keep_lor (v m k : Z) :
  0 <= k < 256 -> bit_set v k -> bit_set (to_uint8 (Z.lor v m)) k.
Proof.
  unfold bit_set. intros Hk Hv. rewrite to_uint8_land.
  apply Z.bits_inj'. intros i Hi.
  assert (Hb := f_equal (fun z => Z.testbit z i) Hv). simpl in Hb.
  rewrite Z.land_spec in Hb.
  rewrite !Z.land_spec, Z.lor_spec, ones8_testbit by lia.
  case_bool_decide.
  - destruct (Z.testbit v i), (Z.testbit m i), (Z.testbit k i);
      simpl in *; congruence.
  - rewrite (byte_mask_high_bits k i) by lia.
    destruct (Z.testbit v i), (Z.testbit m i); reflexivity.
Qed.

(** A mask that is set survives clearing a disjoint mask. *)
Lemma bit_set_keep_land_lnot (v m k : Z) :
  0 <= k < 256 -> Z.land k m = 0 -> bit_set v k ->
  bit_set (to_uint8 (Z.land v (Z.lnot m))) k.
Proof.
  unfold bit_set. intros Hk Hd Hv. rewrite to_uint8_land.
  apply Z.bits_inj'. intros i Hi.
  assert (Hb := f_equal (fun z => Z.testbit z i) Hv). simpl in Hb.
  assert (Hc := f_equal (fun z => Z.testbit z i) Hd). simpl in Hc.
  rewrite Z.land_spec in Hb. rewrite Z.land_spec, Z.bits_0 in Hc.
  rewrite !Z.land_spec, Z.lnot_spec, ones8_testbit by lia.
  case_bool_decide.
  - destruct (Z.testbit v i), (Z.testbit m i), (Z.testbit k i);
      simpl in *; congruence.
  - rewrite (byte_mask_high_bits k i) by lia.
    destruct (Z.testbit v i), (Z.testbit m i); reflexivity.
Qed.

Lemma bit_set_uint8_self (m : Z) : 0 <= m < 256 -> bit_set (to_uint8 m) m.
Proof.
  intros Hm. unfold bit_set, to_uint8. rewrite Z.mod_small by lia.
  apply Z.land_diag.
Qed.

(** ** Symbolic execution *)

Ltac unfold_m :=
  unfold function, function_out, return_, undefined, ptr, read_byte, load,
    modify, free, emit, extern, esp_lcd_panel_io_tx_param,
    esp_lcd_panel_io_rx_param, esp_lcd_new_panel_dpi, gpio_config,
    gpio_reset_pin, gpio_set_level, vTaskDelay_ms, ESP_LOG, call_panel_fn,
    ESP_RETURN_ON_ERROR, ESP_RETURN_ON_FALSE, ESP_GOTO_ON_ERROR,
    ESP_GOTO_ON_FALSE, mbind, M_bind, mret, M_ret in *.

(** Brings a trace built by successive appends to the form [t ++ evs]. *)
Ltac norm_trace := rewrite <- ?app_assoc; simpl.

(** Reads back what the last store put at the location. *)
Ltac heap_step := repeat (rewrite ?lookup_insert_eq; simpl).

Ltac heap_step_in H := repeat (rewrite ?lookup_insert_eq in H; simpl in H).

(** The cases of the two [switch] statements of the constructor. *)
Ltac case_color_space cfg :=
  destruct (Z.eqb_spec (dev_color_space cfg) LCD_RGB_ELEMENT_ORDER_RGB)
    as [Hrgb|Hrgb];
  [|destruct (Z.eqb_spec (dev_color_space cfg) LCD_RGB_ELEMENT_ORDER_BGR)
      as [Hbgr|Hbgr]].

Ltac case_bits_per_pixel cfg :=
  destruct (Z.eqb_spec (dev_bits_per_pixel cfg) 16) as [Hbpp|Hbpp16];
  [|destruct (Z.eqb_spec (dev_bits_per_pixel cfg) 18) as [Hbpp|Hbpp18];
    [|destruct (Z.eqb_spec (dev_bits_per_pixel cfg) 24) as [Hbpp|Hbpp24]]].

Section Properties.

Context {hdr : Headers}.
Variable env : Env.

(** *** [panel_st7701_mirror] *)

Lemma mirror_run_null (panel : esp_lcd_panel_t) (l : loc)
    (st7701 : st7701_panel_t) (mirror_x mirror_y : bool) (w : World) :
  user_data panel = Some l ->
  heap w !! l = Some st7701 ->
  io st7701 = NULL ->
  panel_st7701_mirror env panel mirror_x mirror_y w
    = Some (Normal ESP_FAIL,
            mk_world (heap w)
              (trace w ++ [EvLog LOG_E "Panel IO is deleted, cannot send command" []])).
Proof.
  intros Hud Hl Hio. unfold panel_st7701_mirror. unfold_m.
  rewrite Hud. simpl. rewrite Hl, Hio. reflexivity.
Qed.

Lemma mirror_run (panel : esp_lcd_panel_t) (l : loc)
    (st7701 : st7701_panel_t) (mirror_x mirror_y : bool) (w : World) :
  user_data panel = Some l ->
  heap w !! l = Some st7701 ->
  io st7701 <> NULL ->
  let st7701' :=
    set_madctl_val (mirror_madctl mirror_y (madctl_val st7701)) st7701 in
  panel_st7701_mirror env panel mirror_x mirror_y w
    = Some (Normal (send_all env (trace w)
                      (mirror_writes (io st7701) (mirror_sdir mirror_x)
                                    (madctl_val st7701'))).1,
            mk_world (<[l := st7701']> (heap w))
              (trace w ++ (send_all env (trace w)
                      (mirror_writes (io st7701) (mirror_sdir mirror_x)
                                    (madctl_val st7701'))).2)).
Proof.
  intros Hud Hl Hio. unfold panel_st7701_mirror, mirror_sdir. unfold_m.
  rewrite Hud. simpl. rewrite Hl. unfold is_null.
  destruct (Z.eqb_spec (io st7701) NULL) as [?|_]; [contradiction|].
  destruct mirror_y; simpl; rewrite Hl; simpl;
  repeat match goal with
  | |- context [match env_status env ?t with _ => _ end] =>
      destruct (env_status env t); simpl; rewrite ?lookup_insert_eq; simpl;
      norm_trace; try reflexivity
  end.
Qed.

(** [send_all] either gets through every write, or stops at the first one
    the environment rejects and reports its status. *)
Lemma send_all_cases (t : list event) (writes : list event) :
  ((send_all env t writes).1 = ESP_OK /\ (send_all env t writes).2 = writes) \/
  (exists pre e post,
      writes = pre ++ e :: post /\
      (send_all env t writes).1 = env_status env (t ++ pre ++ [e]) /\
      (send_all env t writes).1 <> ESP_OK /\
      (send_all env t writes).2
        = pre ++ [e; EvLog LOG_E "send command failed" []]).
Proof.
  revert t. induction writes as [|e rest IH]; intros t; [left; auto|].
  simpl. destruct (env_status env (t ++ [e])) eqn:Hst.
  1: { destruct (IH (t ++ [e])) as [[Hr Hevs]|(pre & e' & post & -> & Hr & Hne & Hevs)];
       destruct (send_all env (t ++ [e]) _) as [r evs]; simpl in *.
       - left. subst. auto.
       - right. exists (e :: pre), e', post. rewrite <- app_assoc in Hr.
         subst evs. auto. }
  all: right; exists [], e, rest; simpl; rewrite Hst; repeat split; congruence.
Qed.

(** The bit of [madctl_val] that [mirror] leaves follows [mirror_y]. *)
Lemma mirror_madctl_bit (mirror_y : bool) (s : st7701_panel_t) :
  0 <= LCD_CMD_ML_BIT < 256 ->
  let v := madctl_val (set_madctl_val (mirror_madctl mirror_y (madctl_val s)) s) in
  if mirror_y then bit_set v LCD_CMD_ML_BIT else bit_clear v LCD_CMD_ML_BIT.
Proof.
  intros Hml. simpl. destruct mirror_y; simpl.
  - by apply bit_set_lor_uint8.
  - apply bit_clear_land_lnot_uint8.
Qed.

(** [mirror] keeps a byte mask that is disjoint from the vertical-mirror
    bit. *)
Lemma mirror_madctl_keeps (mirror_y : bool) (s : st7701_panel_t) (k : Z) :
  0 <= k < 256 -> Z.land k LCD_CMD_ML_BIT = 0 -> bit_set (madctl_val s) k ->
  bit_set (madctl_val (set_madctl_val (mirror_madctl mirror_y (madctl_val s)) s)) k.
Proof.
  intros Hk Hd Hs. simpl. destruct mirror_y; simpl.
  - by apply bit_set_keep_lor.
  - by apply bit_set_keep_land_lnot.
Qed.

Lemma mirror_calls_keep (panel : esp_lcd_panel_t) (l : loc) (k : Z)
    (args : list (bool * bool)) :
  0 <= k < 256 -> Z.land k LCD_CMD_ML_BIT = 0 ->
  user_data panel = Some l ->
  forall (w : World) (s : st7701_panel_t),
    heap w !! l = Some s -> bit_set (madctl_val s) k ->
    exists w' s',
      mirror_calls env panel args w = Some (Normal tt, w') /\
      heap w' !! l = Some s' /\ bit_set (madctl_val s') k.
Proof.
  intros Hk Hd Hud. induction args as [|[mx my] args IH]; intros w s Hl Hs.
  - exists w, s. auto.
  - simpl. unfold mbind, M_bind.
    destruct (Z.eq_dec (io s) NULL) as [Hio|Hio].
    + rewrite (mirror_run_null panel l s mx my w Hud Hl Hio).
      apply (IH _ s); assumption.
    + rewrite (mirror_run panel l s mx my w Hud Hl Hio).
      eapply IH; simpl.
      * apply lookup_insert_eq.
      * by apply mirror_madctl_keeps.
Qed.


(** *** [esp_lcd_new_panel_st7701_mipi] *)

(** What a successful construction has done: the arguments passed the
    checks, a fresh block was allocated and filled in from the
    configuration, and the handle points to it. *)
Lemma new_panel_ok_inv (io_h : Z)
    (panel_dev_config : option esp_lcd_panel_dev_config_t) (ret_panel : Z)
    (w w' : World) (out : option esp_lcd_panel_t) :
  esp_lcd_new_panel_st7701_mipi env io_h panel_dev_config ret_panel w
    = Some (Normal (ESP_OK, out), w') ->
  exists cfg vc madctl colmod,
    let l := fresh (dom (heap w)) in
    panel_dev_config = Some cfg /\
    dev_vendor_config cfg = Some vc /\
    io_h <> NULL /\
    out = Some (st7701_panel_handle l) /\
    heap w' = <[l := mk_st7701 io_h (dev_reset_gpio_num cfg) madctl colmod
                       (vc_init_cmds vc) (to_uint16 (vc_init_cmds_size vc))
                       (dev_reset_active_high cfg)
                       (fn_dpi op_del) (fn_dpi op_init)]> (heap w) /\
    (exists evs, trace w' = trace w ++ evs) /\
    ((dev_color_space cfg = LCD_RGB_ELEMENT_ORDER_RGB /\ madctl = 0) \/
     (dev_color_space cfg <> LCD_RGB_ELEMENT_ORDER_RGB /\
      dev_color_space cfg = LCD_RGB_ELEMENT_ORDER_BGR /\
      madctl = to_uint8 LCD_CMD_BGR_BIT)) /\
    ((dev_bits_per_pixel cfg = 16 /\ colmod = 0x55) \/
     (dev_bits_per_pixel cfg = 18 /\ colmod = 0x66) \/
     (dev_bits_per_pixel cfg = 24 /\ colmod = 0x77)).
Proof.
  unfold esp_lcd_new_panel_st7701_mipi, new_panel_body, new_panel_err.
  unfold_m. unfold is_null, calloc_st7701.
  destruct (Z.eqb_spec io_h NULL) as [|Hio]; simpl; [discriminate|].
  destruct panel_dev_config as [cfg|]; simpl; [|discriminate].
  destruct (Z.eqb_spec ret_panel NULL); simpl; [discriminate|].
  destruct (dev_vendor_config cfg) as [vc|] eqn:Hvc; simpl; [|discriminate].
  destruct (Z.eqb_spec (vc_dpi_config vc) NULL); simpl; [discriminate|].
  destruct (Z.eqb_spec (vc_dsi_bus vc) NULL); simpl; [discriminate|].
  destruct (env_calloc_null env (trace w)); simpl; [discriminate|].
  set (l := fresh (dom (heap w))).
  intros H.
  (* the reset pin, the two switches, the DPI panel: every failing branch
     contradicts H *)
  destruct (0 <=? dev_reset_gpio_num cfg) eqn:Hpin; simpl in H;
    [destruct (env_status env _) eqn:Hgpio in H; simpl in H; try discriminate|];
    (case_color_space cfg; simpl in H; heap_step_in H; try discriminate);
    (case_bits_per_pixel cfg; simpl in H; heap_step_in H; try discriminate);
    (destruct (env_status env _) eqn:Hdpi in H; simpl in H; try discriminate);
    heap_step_in H;
    injection H as <- <-; simpl; rewrite !insert_insert_eq;
    eexists cfg, vc, _, _; (split; [reflexivity|]); (split; [assumption|]);
    (split; [assumption|]); (split; [reflexivity|]);
    (split; [reflexivity|]);
    (split; [norm_trace; eexists; reflexivity|]);
    (split; [first [left; split; [assumption|reflexivity]
                   |right; split; [assumption|split; [assumption|reflexivity]]]|]);
    first [left; split; [assumption|reflexivity]
          |right; left; split; [assumption|reflexivity]
          |right; right; split; [assumption|reflexivity]].
Qed.

(** Once the block is allocated, no failing path of the constructor
    releases it: whatever makes the construction fail (the reset pin, the
    colour order, the pixel width, the DPI panel), the block that [calloc]
    returned is still live afterwards. *)
Lemma new_panel_failure_keeps_block (io_h : Z)
    (cfg : esp_lcd_panel_dev_config_t) (vc : esp_panel_lcd_vendor_config_t)
    (ret_panel : Z) (w w' : World) (r : esp_err_t)
    (out : option esp_lcd_panel_t) :
  io_h <> NULL -> ret_panel <> NULL ->
  dev_vendor_config cfg = Some vc ->
  vc_dpi_config vc <> NULL -> vc_dsi_bus vc <> NULL ->
  env_calloc_null env (trace w) = false ->
  esp_lcd_new_panel_st7701_mipi env io_h (Some cfg) ret_panel w
    = Some (Normal (r, out), w') ->
  r <> ESP_OK ->
  heap w !! fresh (dom (heap w)) = None /\
  is_Some (heap w' !! fresh (dom (heap w))) /\
  out = None.
Proof.
  intros Hio Hret Hvc Hdpi Hbus Hcalloc Hrun Hr.
  split; [apply not_elem_of_dom, is_fresh|].
  revert Hrun.
  unfold esp_lcd_new_panel_st7701_mipi, new_panel_body, new_panel_err.
  unfold_m. unfold is_null, calloc_st7701.
  destruct (Z.eqb_spec io_h NULL); [contradiction|].
  destruct (Z.eqb_spec ret_panel NULL); [contradiction|].
  simpl. rewrite Hvc.
  destruct (Z.eqb_spec (vc_dpi_config vc) NULL); [contradiction|].
  destruct (Z.eqb_spec (vc_dsi_bus vc) NULL); [contradiction|].
  simpl. rewrite Hcalloc. simpl.
  destruct (0 <=? dev_reset_gpio_num cfg) eqn:Hpin; simpl;
    [destruct (env_status env _) eqn:Hgpio; simpl|];
    (case_color_space cfg; simpl; heap_step);
    (case_bits_per_pixel cfg; simpl; heap_step);
    try (match goal with
         | |- context [match env_status env ?t with _ => _ end] =>
             destruct (env_status env t)
         end; simpl; heap_step);
    intros Hrun; injection Hrun as <- <- <-; simpl;
    try contradiction; rewrite ?lookup_insert_eq; eauto.
Qed.

(** *** The replay loop of [panel_st7701_init] *)

Lemma init_cmd_wf_lookup (c : esp_panel_lcd_vendor_init_cmd_t) (i : nat) :
  init_cmd_wf c -> Z.of_nat i < data_bytes c -> is_Some (data c !! i).
Proof.
  unfold init_cmd_wf. intros Hwf Hi. apply lookup_lt_is_Some. lia.
Qed.

(** With the flag false, or no parameter bytes, the check does nothing. *)
Lemma check_overwrite_skip (l : loc) (c : esp_panel_lcd_vendor_init_cmd_t)
    (flag : bool) (w : World) :
  flag = false \/ data_bytes c <= 0 ->
  init_check_overwrite l c flag w = Some (Normal tt, w).
Proof.
  intros [->|Hdb]; unfold init_check_overwrite; [reflexivity|].
  destruct (Z.ltb_spec 0 (data_bytes c)); [lia|].
  rewrite andb_false_r. reflexivity.
Qed.

Lemma check_overwrite_madctl (l : loc) (c : esp_panel_lcd_vendor_init_cmd_t)
    (b : Z) (s : st7701_panel_t) (w : World) :
  0 < data_bytes c -> cmd c = LCD_CMD_MADCTL -> data c !! 0%nat = Some b ->
  heap w !! l = Some s ->
  init_check_overwrite l c true w
    = Some (Normal tt, mk_world (<[l := set_madctl_val b s]> (heap w))
                                (trace w ++ [override_warning c])).
Proof.
  intros Hdb Hcmd Hb Hl. unfold init_check_overwrite. unfold_m.
  destruct (Z.ltb_spec 0 (data_bytes c)); [|lia]. simpl.
  rewrite Hcmd, Z.eqb_refl, <- Hcmd. simpl. rewrite Hb. simpl. rewrite Hl.
  reflexivity.
Qed.

Lemma check_overwrite_colmod (l : loc) (c : esp_panel_lcd_vendor_init_cmd_t)
    (b : Z) (s : st7701_panel_t) (w : World) :
  0 < data_bytes c -> cmd c <> LCD_CMD_MADCTL -> cmd c = LCD_CMD_COLMOD ->
  data c !! 0%nat = Some b -> heap w !! l = Some s ->
  init_check_overwrite l c true w
    = Some (Normal tt, mk_world (<[l := set_colmod_val b s]> (heap w))
                                (trace w ++ [override_warning c])).
Proof.
  intros Hdb Hne Hcmd Hb Hl. unfold init_check_overwrite. unfold_m.
  destruct (Z.ltb_spec 0 (data_bytes c)); [|lia]. simpl.
  destruct (Z.eqb_spec (cmd c) LCD_CMD_MADCTL); [contradiction|].
  rewrite Hcmd, Z.eqb_refl, <- Hcmd. simpl. rewrite Hb. simpl. rewrite Hl.
  reflexivity.
Qed.

Lemma check_overwrite_other (l : loc) (c : esp_panel_lcd_vendor_init_cmd_t)
    (flag : bool) (w : World) :
  cmd c <> LCD_CMD_MADCTL -> cmd c <> LCD_CMD_COLMOD ->
  init_check_overwrite l c flag w = Some (Normal tt, w).
Proof.
  intros Hm Hc. unfold init_check_overwrite. unfold_m.
  destruct (flag && (0 <? data_bytes c)); [|reflexivity].
  destruct (Z.eqb_spec (cmd c) LCD_CMD_MADCTL); [contradiction|].
  destruct (Z.eqb_spec (cmd c) LCD_CMD_COLMOD); [contradiction|].
  reflexivity.
Qed.

(** The check never fails on a well-formed entry and a live state; it
    touches the two registers only and puts nothing on the bus. *)
Lemma check_overwrite_defined (l : loc) (c : esp_panel_lcd_vendor_init_cmd_t)
    (flag : bool) (s : st7701_panel_t) (w : World) :
  init_cmd_wf c -> heap w !! l = Some s ->
  exists w' evs s',
    init_check_overwrite l c flag w = Some (Normal tt, w') /\
    trace w' = trace w ++ evs /\ bus_events evs = [] /\
    heap w' !! l = Some s' /\ init s' = init s.
Proof.
  intros Hwf Hl.
  destruct flag; [|exists w, [], s; rewrite app_nil_r;
                   rewrite check_overwrite_skip by auto; auto].
  destruct (Z.ltb_spec 0 (data_bytes c)) as [Hdb|Hdb];
    [|exists w, [], s; rewrite app_nil_r;
      rewrite check_overwrite_skip by auto; auto].
  destruct (init_cmd_wf_lookup c 0 Hwf) as [b Hb]; [simpl; lia|].
  destruct (Z.eq_dec (cmd c) LCD_CMD_MADCTL) as [Hm|Hm].
  { eexists _, _, _. rewrite (check_overwrite_madctl l c b s) by assumption.
    split; [reflexivity|]. simpl. rewrite lookup_insert_eq. auto. }
  destruct (Z.eq_dec (cmd c) LCD_CMD_COLMOD) as [Hc|Hc].
  { eexists _, _, _. rewrite (check_overwrite_colmod l c b s) by assumption.
    split; [reflexivity|]. simpl. rewrite lookup_insert_eq. auto. }
  exists w, [], s. rewrite app_nil_r.
  rewrite check_overwrite_other by assumption. auto.
Qed.

(** One iteration, from the world the check leaves. *)
Lemma init_cmd_iter_after_check (io_h : Z) (l : loc)
    (c : esp_panel_lcd_vendor_init_cmd_t) (flag : bool) (w w1 : World) :
  init_cmd_wf c ->
  init_check_overwrite l c flag w = Some (Normal tt, w1) ->
  let tx := EvTxParam io_h (cmd c) (data c) (data_bytes c) in
  init_cmd_iter env io_h l c flag w
    = Some (match env_status env (trace w1 ++ [tx]) with
            | ESP_OK =>
                (Normal (next_flag c flag),
                 mk_world (heap w1) (trace w1 ++ entry_events io_h c))
            | e =>
                (Return e,
                 mk_world (heap w1)
                   (trace w1 ++ [tx; EvLog LOG_E "send command failed" []]))
            end).
Proof.
  intros Hwf Hchk tx. subst tx. unfold init_cmd_iter. unfold_m. rewrite Hchk.
  unfold next_flag, entry_events. simpl.
  destruct (env_status env _); simpl; norm_trace; try reflexivity.
  destruct ((cmd c =? ST7701_CMD_CND2BKxSEL) && (4 <? data_bytes c)) eqn:Hsel;
    [|reflexivity].
  apply andb_prop in Hsel as [_ Hdb]. apply Z.ltb_lt in Hdb.
  destruct (init_cmd_wf_lookup c 4 Hwf) as [b Hb]; [simpl; lia|].
  rewrite Hb. reflexivity.
Qed.

(** An iteration that runs to its end leaves the flag [next_flag]. *)
Lemma init_cmd_iter_flag (io_h : Z) (l : loc)
    (c : esp_panel_lcd_vendor_init_cmd_t) (flag flag' : bool) (w w' : World) :
  init_cmd_iter env io_h l c flag w = Some (Normal flag', w') ->
  flag' = next_flag c flag.
Proof.
  unfold init_cmd_iter. unfold_m.
  destruct (init_check_overwrite l c flag w) as [[[[]|?] w1]|]; try discriminate.
  simpl.
  match goal with |- context [env_status env ?t] => destruct (env_status env t) end;
    simpl; try discriminate.
  unfold next_flag.
  destruct ((cmd c =? ST7701_CMD_CND2BKxSEL) && (4 <? data_bytes c)).
  - destruct (data c !! 4%nat); simpl; [|discriminate]. congruence.
  - congruence.
Qed.

Lemma init_cmds_loop_app (io_h : Z) (l : loc)
    (xs ys : list esp_panel_lcd_vendor_init_cmd_t) (flag : bool) (w : World) :
  init_cmds_loop env io_h l (xs ++ ys) flag w
    = (flag' ← init_cmds_loop env io_h l xs flag;
       init_cmds_loop env io_h l ys flag') w.
Proof.
  revert flag w. induction xs as [|c xs IH]; intros flag w; [reflexivity|].
  simpl. unfold mbind, M_bind.
  destruct (init_cmd_iter env io_h l c flag w) as [[[f1|e] w1]|]; try reflexivity.
  apply IH.
Qed.

(** The flag with which the loop is left when it runs to its end. *)
Lemma init_cmds_loop_flag (io_h : Z) (l : loc)
    (cmds : list esp_panel_lcd_vendor_init_cmd_t) (flag flag' : bool)
    (w w' : World) :
  init_cmds_loop env io_h l cmds flag w = Some (Normal flag', w') ->
  flag' = fold_left (fun f c => next_flag c f) cmds flag.
Proof.
  revert flag w. induction cmds as [|c cmds IH]; intros flag w; simpl.
  - unfold mret, M_ret. congruence.
  - unfold mbind, M_bind.
    destruct (init_cmd_iter env io_h l c flag w) as [[[f1|e] w1]|] eqn:Hit;
      try discriminate.
    intros H. apply init_cmd_iter_flag in Hit as ->. eauto.
Qed.

(** The loop never gets stuck on well-formed entries and a live state. *)
Lemma init_cmds_loop_defined (io_h : Z) (l : loc)
    (cmds : list esp_panel_lcd_vendor_init_cmd_t) :
  Forall init_cmd_wf cmds ->
  forall (flag : bool) (s : st7701_panel_t) (w : World),
    heap w !! l = Some s ->
    exists o w' evs s',
      init_cmds_loop env io_h l cmds flag w = Some (o, w') /\
      trace w' = trace w ++ evs /\
      heap w' !! l = Some s' /\ init s' = init s /\
      ((forall t, env_status env t = ESP_OK) ->
         exists flag', o = Normal flag' /\
           bus_events evs = flat_map (entry_events io_h) cmds).
Proof.
  induction 1 as [|c cmds Hwf _ IH]; intros flag s w Hl.
  - exists (Normal flag), w, [], s. rewrite app_nil_r. simpl; eauto 10.
  - destruct (check_overwrite_defined l c flag s w Hwf Hl)
      as (w1 & evs1 & s1 & Hchk & Ht1 & Hbus1 & Hl1 & Hinit1).
    simpl. unfold mbind, M_bind.
    rewrite (init_cmd_iter_after_check io_h l c flag w w1 Hwf Hchk).
    destruct (env_status env _) eqn:Hst.
    1: { edestruct (IH (next_flag c flag) s1
              (mk_world (heap w1) (trace w1 ++ entry_events io_h c)) Hl1)
        as (o & w' & evs & s' & Hrun & Ht & Hl' & Hinit' & Hok).
      exists o, w', (evs1 ++ entry_events io_h c ++ evs), s'.
      split; [exact Hrun|]. split.
      { rewrite Ht. simpl. rewrite Ht1. by rewrite <- !app_assoc. }
      split; [exact Hl'|]. split; [congruence|].
      intros Hall. destruct (Hok Hall) as (flag' & -> & Hbus).
      exists flag'. split; [reflexivity|].
      unfold bus_events in *. rewrite !List.filter_app, Hbus1, Hbus.
      reflexivity. }
    all: eexists _, _, (evs1 ++ _), s1; simpl;
      (split; [reflexivity|]);
      (split; [rewrite Ht1, <- app_assoc; reflexivity|]);
      (split; [exact Hl1|]); (split; [exact Hinit1|]);
      intros Hall; rewrite Hall in Hst; discriminate.
Qed.

(** ** The claims *)

(** C4.  [panel_st7701_reset] by cases.  With a reset GPIO configured it
    drives the pin to the active level, asks for a 10 ms delay, drives the
    pin to the inactive level, asks for 10 ms again, and puts nothing on
    the transport.  Without a GPIO and with a transport it sends exactly
    one software-reset command; when the transport accepts it, a 20 ms
    delay follows and the result is [ESP_OK], and when the transport
    rejects it, that status is returned at once.  With neither it returns
    [ESP_OK] and does nothing.  The driver state is never modified. *)
Theorem C4_reset_by_cases (panel : esp_lcd_panel_t) (l : loc)
    (st7701 : st7701_panel_t) (w : World) :
  user_data panel = Some l ->
  heap w !! l = Some st7701 ->
  exists r evs,
    panel_st7701_reset env panel w
      = Some (Normal r, mk_world (heap w) (trace w ++ evs)) /\
    (0 <= reset_gpio_num st7701 ->
       r = ESP_OK /\
       evs = [EvGpioSetLevel (reset_gpio_num st7701)
                             (Z.b2z (reset_level st7701));
              EvDelay 10;
              EvGpioSetLevel (reset_gpio_num st7701)
                             (Z.b2z (negb (reset_level st7701)));
              EvDelay 10] /\
       tx_events evs = []) /\
    (reset_gpio_num st7701 < 0 -> io st7701 <> NULL ->
       let swreset := EvTxParam (io st7701) LCD_CMD_SWRESET [] 0 in
       tx_events evs = [swreset] /\
       (env_status env (trace w ++ [swreset]) = ESP_OK ->
          r = ESP_OK /\ evs = [swreset; EvDelay 20]) /\
       (env_status env (trace w ++ [swreset]) <> ESP_OK ->
          r = env_status env (trace w ++ [swreset]) /\
          evs = [swreset; EvLog LOG_E "send command failed" []])) /\
    (reset_gpio_num st7701 < 0 -> io st7701 = NULL ->
       r = ESP_OK /\ evs = []).
Proof.
  intros Hud Hl.
  unfold panel_st7701_reset. unfold_m. rewrite Hud. simpl. rewrite Hl.
  destruct (Z.leb_spec 0 (reset_gpio_num st7701)) as [Hpin|Hpin].
  - simpl. eexists _, _. split.
    + norm_trace. reflexivity.
    + split; [auto|]. split; intros; lia.
  - unfold is_null. destruct (Z.eqb_spec (io st7701) NULL) as [Hio|Hio]; simpl.
    + exists ESP_OK, []. rewrite app_nil_r. destruct w; simpl.
      split; [reflexivity|]. split; [lia|]. split; [congruence|auto].
    + destruct (env_status env
                  (trace w ++ [EvTxParam (io st7701) LCD_CMD_SWRESET [] 0]))
        eqn:Hst; simpl; norm_trace;
        (eexists _, _; split; [reflexivity|]);
        (split; [lia|]); (split; [|congruence]); intros _ _;
        (split; [reflexivity|]); split; intros; try tauto; try congruence;
        try discriminate; auto.
Qed.

(** C5.  Whatever [mirror_x] and [mirror_y] are, [panel_st7701_mirror] on
    a panel whose transport handle is null returns [ESP_FAIL]; the only
    thing it does is log the error: no transport write is attempted and the
    driver state, [madctl_val] included, is untouched. *)
Theorem C5_mirror_without_transport (panel : esp_lcd_panel_t) (l : loc)
    (st7701 : st7701_panel_t) (mirror_x mirror_y : bool) (w : World) :
  user_data panel = Some l ->
  heap w !! l = Some st7701 ->
  io st7701 = NULL ->
  exists w',
    panel_st7701_mirror env panel mirror_x mirror_y w
      = Some (Normal ESP_FAIL, w') /\
    tx_events (trace w') = tx_events (trace w) /\
    bus_events (trace w') = bus_events (trace w) /\
    heap w' = heap w /\
    madctl_val <$> heap w' !! l = Some (madctl_val st7701).
Proof.
  intros Hud Hl Hio. eexists. split.
  - exact (mirror_run_null panel l st7701 mirror_x mirror_y w Hud Hl Hio).
  - simpl. unfold tx_events, bus_events. rewrite !List.filter_app. simpl.
    rewrite !app_nil_r, Hl. auto.
Qed.

(** C7.  On a panel with a transport, [mirror(true, false)] writes a
    scan-direction byte in which [ST7701_CMD_SS_BIT] is set and leaves
    [LCD_CMD_ML_BIT] clear in [madctl_val]; [mirror(false, true)] writes a
    scan-direction byte in which [ST7701_CMD_SS_BIT] is clear and leaves
    [LCD_CMD_ML_BIT] set in [madctl_val].  The byte is the parameter of the
    second of the four writes, which are issued in order until the
    transport rejects one. *)
Theorem C7_mirror_bits (panel : esp_lcd_panel_t) (l : loc)
    (st7701 : st7701_panel_t) (w : World) :
  0 <= ST7701_CMD_SS_BIT < 256 ->
  0 <= LCD_CMD_ML_BIT < 256 ->
  user_data panel = Some l ->
  heap w !! l = Some st7701 ->
  io st7701 <> NULL ->
  (exists r evs st7701' sdir_val,
      panel_st7701_mirror env panel true false w
        = Some (Normal r, mk_world (<[l := st7701']> (heap w)) (trace w ++ evs)) /\
      (r, evs) = send_all env (trace w)
                   (mirror_writes (io st7701) sdir_val (madctl_val st7701')) /\
      (r = ESP_OK ->
         evs = mirror_writes (io st7701) sdir_val (madctl_val st7701')) /\
      bit_set sdir_val ST7701_CMD_SS_BIT /\
      bit_clear (madctl_val st7701') LCD_CMD_ML_BIT) /\
  (exists r evs st7701' sdir_val,
      panel_st7701_mirror env panel false true w
        = Some (Normal r, mk_world (<[l := st7701']> (heap w)) (trace w ++ evs)) /\
      (r, evs) = send_all env (trace w)
                   (mirror_writes (io st7701) sdir_val (madctl_val st7701')) /\
      (r = ESP_OK ->
         evs = mirror_writes (io st7701) sdir_val (madctl_val st7701')) /\
      bit_clear sdir_val ST7701_CMD_SS_BIT /\
      bit_set (madctl_val st7701') LCD_CMD_ML_BIT).
Proof.
  intros Hss Hml Hud Hl Hio.
  split; eexists _, _, _, _;
    (split; [exact (mirror_run panel l st7701 _ _ w Hud Hl Hio)|]);
    (split; [symmetry; apply surjective_pairing|]);
    (split;
      [intros Hr;
       match goal with
       | |- context [send_all env ?t ?ws] =>
           destruct (send_all_cases t ws)
             as [[_ Hevs]|(? & ? & ? & _ & _ & Hne & _)];
           [exact Hevs|contradiction]
       end|]).
  - split.
    + unfold mirror_sdir. by apply bit_set_uint8_self.
    + apply (mirror_madctl_bit false st7701 Hml).
  - split.
    + reflexivity.
    + apply (mirror_madctl_bit true st7701 Hml).
Qed.

(** C8.  A construction with colour order BGR that succeeds leaves
    [LCD_CMD_BGR_BIT] set in [madctl_val], and after any sequence of calls
    to [mirror], with any arguments and whatever the transport answers, the
    bit is still set. *)
Theorem C8_bgr_bit_survives_mirror (io_h : Z)
    (cfg : esp_lcd_panel_dev_config_t) (ret_panel : Z) (w0 w1 : World)
    (panel : esp_lcd_panel_t) :
  0 <= LCD_CMD_BGR_BIT < 256 ->
  Z.land LCD_CMD_BGR_BIT LCD_CMD_ML_BIT = 0 ->
  LCD_RGB_ELEMENT_ORDER_BGR <> LCD_RGB_ELEMENT_ORDER_RGB ->
  dev_color_space cfg = LCD_RGB_ELEMENT_ORDER_BGR ->
  esp_lcd_new_panel_st7701_mipi env io_h (Some cfg) ret_panel w0
    = Some (Normal (ESP_OK, Some panel), w1) ->
  exists l st7701,
    user_data panel = Some l /\
    heap w1 !! l = Some st7701 /\
    bit_set (madctl_val st7701) LCD_CMD_BGR_BIT /\
    forall args : list (bool * bool),
      exists w2 st7701',
        mirror_calls env panel args w1 = Some (Normal tt, w2) /\
        heap w2 !! l = Some st7701' /\
        bit_set (madctl_val st7701') LCD_CMD_BGR_BIT.
Proof.
  intros Hbgr Hdisj Hne Hcs Hnew.
  apply new_panel_ok_inv in Hnew
    as (cfg' & vc & madctl & colmod & Hcfg & _ & _ & Hout & Hheap & _ & Hm & _).
  injection Hcfg as <-. injection Hout as ->.
  destruct Hm as [[Hrgb _]|(_ & _ & ->)]; [congruence|].
  eexists _, _. split; [reflexivity|].
  split; [rewrite Hheap; apply lookup_insert_eq|].
  assert (Hset : bit_set (to_uint8 LCD_CMD_BGR_BIT) LCD_CMD_BGR_BIT)
    by by apply bit_set_uint8_self.
  split; [exact Hset|].
  intros args.
  eapply (mirror_calls_keep _ _ LCD_CMD_BGR_BIT args Hbgr Hdisj);
    [reflexivity|rewrite Hheap; apply lookup_insert_eq|exact Hset].
Qed.

(** C9.  On a panel with a transport, [mirror] stores the new
    vertical-mirror bit in [madctl_val] before any of its four writes: the
    writes are issued in order, the first one the transport rejects ends the
    call with that write's status, and in every case, a rejected first write
    included, [madctl_val] holds the value computed from [mirror_y]. *)
Theorem C9_mirror_state_kept_on_failure (panel : esp_lcd_panel_t) (l : loc)
    (st7701 : st7701_panel_t) (mirror_x mirror_y : bool) (w : World) :
  0 <= LCD_CMD_ML_BIT < 256 ->
  user_data panel = Some l ->
  heap w !! l = Some st7701 ->
  io st7701 <> NULL ->
  exists r evs st7701',
    let writes :=
      mirror_writes (io st7701) (mirror_sdir mirror_x) (madctl_val st7701') in
    panel_st7701_mirror env panel mirror_x mirror_y w
      = Some (Normal r, mk_world (<[l := st7701']> (heap w)) (trace w ++ evs)) /\
    st7701' = set_madctl_val (mirror_madctl mirror_y (madctl_val st7701)) st7701 /\
    (if mirror_y then bit_set (madctl_val st7701') LCD_CMD_ML_BIT
     else bit_clear (madctl_val st7701') LCD_CMD_ML_BIT) /\
    (r = ESP_OK -> evs = writes) /\
    (r <> ESP_OK ->
       exists pre e post,
         writes = pre ++ e :: post /\
         r = env_status env (trace w ++ pre ++ [e]) /\
         evs = pre ++ [e; EvLog LOG_E "send command failed" []]).
Proof.
  intros Hml Hud Hl Hio. eexists _, _, _.
  split; [exact (mirror_run panel l st7701 _ _ w Hud Hl Hio)|].
  split; [reflexivity|].
  split; [apply (mirror_madctl_bit mirror_y st7701 Hml)|].
  match goal with
  | |- context [send_all env ?t ?ws] =>
      destruct (send_all_cases t ws)
        as [[Hr Hevs]|(pre & e & post & Hw & Hr & Hne & Hevs)]
  end.
  - split; [intros _; exact Hevs|]. intros Hbad. contradiction.
  - split; [intros Hok; contradiction|]. intros _.
    exists pre, e, post. auto.
Qed.


(** C6.  Once the arguments have passed the checks, the block is allocated
    and the reset pin (if any) is configured, construction with a supported
    colour order resolves [bits_per_pixel] 16, 18 and 24 to [colmod_val]
    0x55, 0x66 and 0x77 and goes on to create the DPI panel, whose status
    is the status of the construction: when that is [ESP_OK] the handle of
    the block holding the resolved value is returned.  For every other
    value of [bits_per_pixel] construction fails with
    [ESP_ERR_NOT_SUPPORTED] and returns no handle.  A construction that
    succeeds had one of the three supported widths. *)
Theorem C6_pixel_format (io_h : Z) (cfg : esp_lcd_panel_dev_config_t)
    (vc : esp_panel_lcd_vendor_config_t) (ret_panel : Z) (w : World) :
  io_h <> NULL -> ret_panel <> NULL ->
  dev_vendor_config cfg = Some vc ->
  vc_dpi_config vc <> NULL -> vc_dsi_bus vc <> NULL ->
  env_calloc_null env (trace w) = false ->
  (0 <= dev_reset_gpio_num cfg ->
   env_status env
     (trace w ++ [EvGpioConfig (Z.shiftl 1 (dev_reset_gpio_num cfg) mod 2 ^ 64)])
     = ESP_OK) ->
  exists r out w',
    esp_lcd_new_panel_st7701_mipi env io_h (Some cfg) ret_panel w
      = Some (Normal (r, out), w') /\
    let l := fresh (dom (heap w)) in
    let order_supported :=
      dev_color_space cfg = LCD_RGB_ELEMENT_ORDER_RGB \/
      dev_color_space cfg = LCD_RGB_ELEMENT_ORDER_BGR in
    let resolves_to colmod :=
      colmod_val <$> heap w' !! l = Some colmod /\
      r = env_status env
            (trace w
             ++ (if 0 <=? dev_reset_gpio_num cfg
                 then [EvGpioConfig
                         (Z.shiftl 1 (dev_reset_gpio_num cfg) mod 2 ^ 64)]
                 else [])
             ++ [EvNewPanelDpi (vc_dsi_bus vc) (vc_dpi_config vc)]) /\
      (r = ESP_OK -> out = Some (st7701_panel_handle l)) in
    (order_supported -> dev_bits_per_pixel cfg = 16 -> resolves_to 0x55) /\
    (order_supported -> dev_bits_per_pixel cfg = 18 -> resolves_to 0x66) /\
    (order_supported -> dev_bits_per_pixel cfg = 24 -> resolves_to 0x77) /\
    (dev_bits_per_pixel cfg <> 16 -> dev_bits_per_pixel cfg <> 18 ->
     dev_bits_per_pixel cfg <> 24 ->
       r = ESP_ERR_NOT_SUPPORTED /\ out = None) /\
    (r = ESP_OK ->
       out = Some (st7701_panel_handle l) /\ order_supported /\
       (dev_bits_per_pixel cfg = 16 \/ dev_bits_per_pixel cfg = 18 \/
        dev_bits_per_pixel cfg = 24)).
Proof.
  intros Hio Hret Hvc Hdpi Hbus Hcalloc Hgpio. cbv zeta.
  unfold esp_lcd_new_panel_st7701_mipi, new_panel_body, new_panel_err.
  unfold_m. unfold is_null, calloc_st7701.
  destruct (Z.eqb_spec io_h NULL); [contradiction|].
  destruct (Z.eqb_spec ret_panel NULL); [contradiction|].
  simpl. rewrite Hvc.
  destruct (Z.eqb_spec (vc_dpi_config vc) NULL); [contradiction|].
  destruct (Z.eqb_spec (vc_dsi_bus vc) NULL); [contradiction|].
  simpl. rewrite Hcalloc. simpl.
  destruct (Z.leb_spec 0 (dev_reset_gpio_num cfg)) as [Hpin|Hpin]; simpl;
    [rewrite (Hgpio Hpin); simpl|];
    (case_color_space cfg; simpl; heap_step);
    (case_bits_per_pixel cfg; simpl; heap_step);
    norm_trace;
    try (match goal with
         | |- context [match env_status env ?t with _ => _ end] =>
             destruct (env_status env t)
         end; simpl; heap_step);
    (eexists _, _, _; split; [reflexivity|]); simpl;
    rewrite ?lookup_insert_eq; simpl;
    repeat split; intros; try reflexivity; try lia; try discriminate;
    try tauto; auto.
Qed.

(** *** [panel_st7701_init] as a whole *)

(** With a transport and a DPI driver that accept everything,
    [panel_st7701_init] is the prologue, the loop run from the flag [true],
    and the call of the saved [init]. *)
Lemma init_run_all_ok (panel : esp_lcd_panel_t) (l : loc)
    (st7701 : st7701_panel_t) (op : panel_op) (w : World) :
  (forall t, env_status env t = ESP_OK) ->
  user_data panel = Some l ->
  heap w !! l = Some st7701 ->
  Forall init_cmd_wf (init_active_cmds st7701) ->
  init st7701 = fn_dpi op ->
  exists flag' wl evs,
    init_cmds_loop env (io st7701) l (init_active_cmds st7701) true
      (mk_world (heap w)
                (trace w ++ init_prologue_events (init_id env st7701 w) st7701))
      = Some (Normal flag', wl) /\
    trace wl = (trace w ++ init_prologue_events (init_id env st7701 w) st7701) ++ evs /\
    bus_events evs = flat_map (entry_events (io st7701)) (init_active_cmds st7701) /\
    panel_st7701_init env panel w
      = Some (Normal ESP_OK,
              mk_world (heap wl)
                (trace wl ++ [EvLog LOG_D "send init commands success" [];
                              EvPanelCall (fn_dpi op)])).
Proof.
  intros Hall Hud Hl Hwf Hinit.
  edestruct (init_cmds_loop_defined (io st7701) l _ Hwf true st7701
               (mk_world (heap w)
                  (trace w ++ init_prologue_events (init_id env st7701 w) st7701)) Hl)
    as (o & wl & evs & s' & Hloop & Ht & Hl' & Hinit' & Hok).
  destruct (Hok Hall) as (flag' & -> & Hbus).
  exists flag', wl, evs. split; [exact Hloop|]. split; [exact Ht|].
  split; [exact Hbus|].
  unfold panel_st7701_init, init_prologue. unfold_m.
  rewrite Hud. simpl. rewrite Hl. simpl. rewrite !Hall. simpl. norm_trace.
  unfold init_prologue_events, init_id in Hloop. simpl in Hloop.
  rewrite Hloop. simpl. rewrite Hl'. rewrite Hinit', Hinit. simpl.
  rewrite Hall. norm_trace. reflexivity.
Qed.

Lemma next_flag_disable (d : esp_panel_lcd_vendor_init_cmd_t) (flag : bool) :
  group2_disable_entry d -> next_flag d flag = false.
Proof.
  intros (Hcmd & Hdb & b & Hb & Hbit). unfold next_flag.
  rewrite Hcmd, Z.eqb_refl, Hb. simpl.
  destruct (Z.ltb_spec 4 (data_bytes d)); [|lia].
  by apply Z.eqb_neq.
Qed.

Lemma next_flag_no_enable (c : esp_panel_lcd_vendor_init_cmd_t) :
  ~ group2_enable_entry c -> next_flag c false = false.
Proof.
  intros Hno. unfold next_flag.
  destruct (Z.eqb_spec (cmd c) ST7701_CMD_CND2BKxSEL) as [Hcmd|]; [|reflexivity].
  destruct (Z.ltb_spec 4 (data_bytes c)) as [Hdb|]; [|reflexivity]. simpl.
  destruct (data c !! 4%nat) as [b|] eqn:Hb; [|reflexivity].
  apply Z.eqb_neq. intros Hbit. apply Hno. unfold group2_enable_entry. eauto 10.
Qed.

Lemma fold_next_flag_no_enable (mid : list esp_panel_lcd_vendor_init_cmd_t) :
  Forall (fun c => ~ group2_enable_entry c) mid ->
  fold_left (fun f c => next_flag c f) mid false = false.
Proof.
  induction 1 as [|c mid Hc _ IH]; [reflexivity|].
  simpl. by rewrite next_flag_no_enable.
Qed.

(** After a disable entry and entries that do not enable again, the flag is
    [false]. *)
Lemma flag_after_disable (io_h : Z) (l : loc)
    (pre mid : list esp_panel_lcd_vendor_init_cmd_t)
    (d : esp_panel_lcd_vendor_init_cmd_t) (flag0 f1 : bool) (w w1 : World) :
  group2_disable_entry d ->
  Forall (fun c => ~ group2_enable_entry c) mid ->
  init_cmds_loop env io_h l (pre ++ d :: mid) flag0 w = Some (Normal f1, w1) ->
  f1 = false.
Proof.
  intros Hd Hmid Hrun. apply init_cmds_loop_flag in Hrun as ->.
  rewrite fold_left_app. simpl. rewrite next_flag_disable by assumption.
  by apply fold_next_flag_no_enable.
Qed.

(** The first iteration of a loop entered with the flag [true], on an entry
    with parameters that targets one of the two registers, starts with the
    override warning. *)
Lemma loop_first_override (io_h : Z) (l : loc)
    (e : esp_panel_lcd_vendor_init_cmd_t)
    (rest : list esp_panel_lcd_vendor_init_cmd_t) (b : Z)
    (s : st7701_panel_t) (o : outcome bool) (w wl : World) :
  init_cmd_wf e -> Forall init_cmd_wf rest ->
  targets_madctl_or_colmod e -> 0 < data_bytes e ->
  data e !! 0%nat = Some b -> heap w !! l = Some s ->
  init_cmds_loop env io_h l (e :: rest) true w = Some (o, wl) ->
  exists post, trace wl = trace w ++ override_warning e :: post.
Proof.
  intros Hwf Hrest Ht Hdb Hb Hl Hrun.
  assert (exists s1, init_check_overwrite l e true w
            = Some (Normal tt, mk_world (<[l := s1]> (heap w))
                                        (trace w ++ [override_warning e])))
    as [s1 Hchk].
  { destruct (Z.eq_dec (cmd e) LCD_CMD_MADCTL) as [Hm|Hm].
    - eexists. by apply check_overwrite_madctl.
    - destruct Ht as [?|Hc]; [contradiction|].
      eexists. by apply check_overwrite_colmod. }
  simpl in Hrun. unfold mbind, M_bind in Hrun.
  rewrite (init_cmd_iter_after_check io_h l e true w _ Hwf Hchk) in Hrun.
  simpl in Hrun.
  destruct (env_status env _) in Hrun.
  1: { edestruct (init_cmds_loop_defined io_h l rest Hrest (next_flag e true))
         as (o' & w' & evs & s' & Hrun' & Htr & _); [|rewrite Hrun' in Hrun].
       { simpl. apply lookup_insert_eq. }
       injection Hrun as <- <-. rewrite Htr. simpl. norm_trace. eauto. }
  all: injection Hrun as <- <-; simpl; norm_trace; eauto.
Qed.

(** C1 (amended).  In the replay loop of [panel_st7701_init] an entry is
    checked against the two registers only while the flag is [true]
    ("command-group-2 considered enabled"): with the flag [false] the check
    changes nothing and logs nothing, and with the flag [true] an entry
    with parameters that targets MADCTL or COLMOD overwrites [madctl_val]
    or [colmod_val] with its first byte and logs the override warning.  The
    loop is entered with the flag [true]: after the prologue, the first
    thing done for a first entry of that kind is the warning.  After a
    group-2-disable entry the flag is [false], and stays so until a
    page-select entry with more than four bytes and the bit clear comes by:
    an entry that follows a disable entry with no such entry in between does
    not trigger an override. *)
Theorem C1_override_gated_by_flag :
  (forall l c w, init_check_overwrite l c false w = Some (Normal tt, w)) /\
  (forall l c b s w,
      0 < data_bytes c -> data c !! 0%nat = Some b -> heap w !! l = Some s ->
      (cmd c = LCD_CMD_MADCTL ->
         init_check_overwrite l c true w
           = Some (Normal tt, mk_world (<[l := set_madctl_val b s]> (heap w))
                                       (trace w ++ [override_warning c]))) /\
      (cmd c <> LCD_CMD_MADCTL -> cmd c = LCD_CMD_COLMOD ->
         init_check_overwrite l c true w
           = Some (Normal tt, mk_world (<[l := set_colmod_val b s]> (heap w))
                                       (trace w ++ [override_warning c])))) /\
  (forall panel l st7701 op w e rest b,
      (forall t, env_status env t = ESP_OK) ->
      user_data panel = Some l -> heap w !! l = Some st7701 ->
      init st7701 = fn_dpi op ->
      init_active_cmds st7701 = e :: rest ->
      Forall init_cmd_wf (e :: rest) ->
      targets_madctl_or_colmod e -> 0 < data_bytes e ->
      data e !! 0%nat = Some b ->
      exists w' post,
        panel_st7701_init env panel w = Some (Normal ESP_OK, w') /\
        trace w' = trace w ++ init_prologue_events (init_id env st7701 w) st7701
                           ++ override_warning e :: post) /\
  (forall io_h l pre d mid e post flag0 w f1 w1,
      group2_disable_entry d ->
      Forall (fun c => ~ group2_enable_entry c) mid ->
      init_cmds_loop env io_h l (pre ++ d :: mid) flag0 w
        = Some (Normal f1, w1) ->
      f1 = false /\
      init_check_overwrite l e f1 w1 = Some (Normal tt, w1) /\
      init_cmds_loop env io_h l ((pre ++ d :: mid) ++ e :: post) flag0 w
        = init_cmds_loop env io_h l (e :: post) false w1).
Proof.
  split; [|split; [|split]].
  - intros l c w. apply check_overwrite_skip. by left.
  - intros l c b s w Hdb Hb Hl. split.
    + intros Hm. by apply check_overwrite_madctl.
    + intros Hm Hc. by apply check_overwrite_colmod.
  - intros panel l st7701 op w e rest b Hall Hud Hl Hinit Hact Hwf Ht Hdb Hb.
    destruct (init_run_all_ok panel l st7701 op w Hall Hud Hl)
      as (flag' & wl & evs & Hloop & _ & _ & Hrun);
      [by rewrite Hact|assumption|].
    rewrite Hact in Hloop.
    apply Forall_cons in Hwf as [Hwfe Hwfr].
    eapply (loop_first_override (io st7701) l e rest b st7701) in Hloop
      as [post Hpost]; try eassumption.
    eexists _, _. split; [exact Hrun|]. simpl. rewrite Hpost. simpl.
    norm_trace. reflexivity.
  - intros io_h l pre d mid e post flag0 w f1 w1 Hd Hmid Hrun.
    assert (f1 = false) as -> by (eapply flag_after_disable; eauto).
    split; [reflexivity|]. split.
    + apply check_overwrite_skip. by left.
    + rewrite init_cmds_loop_app. unfold mbind at 1, M_bind at 1.
      by rewrite Hrun.
Qed.

(** C10.  In the replay loop, an iteration on an entry with zero parameter
    bytes, whichever register it names and whatever the flag, changes
    nothing in the driver state and logs no warning; an iteration on a
    page-select entry with four parameter bytes or fewer that runs to its
    end leaves the flag as it found it. *)
Theorem C10_short_entries (io_h : Z) (l : loc)
    (c : esp_panel_lcd_vendor_init_cmd_t) (flag : bool) (w : World) :
  (data_bytes c = 0 ->
     init_check_overwrite l c flag w = Some (Normal tt, w) /\
     exists o evs,
       init_cmd_iter env io_h l c flag w
         = Some (o, mk_world (heap w) (trace w ++ evs)) /\
       warnings evs = []) /\
  (cmd c = ST7701_CMD_CND2BKxSEL -> data_bytes c <= 4 ->
     (forall flag' w',
         init_cmd_iter env io_h l c flag w = Some (Normal flag', w') ->
         flag' = flag) /\
     (forall s, init_cmd_wf c -> heap w !! l = Some s ->
        exists o w',
          init_cmd_iter env io_h l c flag w = Some (o, w') /\
          (o = Normal flag \/ exists e, o = Return e /\ e <> ESP_OK))).
Proof.
  split.
  - intros Hdb.
    assert (Hwf : init_cmd_wf c) by (unfold init_cmd_wf; lia).
    assert (Hchk : init_check_overwrite l c flag w = Some (Normal tt, w))
      by (apply check_overwrite_skip; right; lia).
    split; [exact Hchk|].
    rewrite (init_cmd_iter_after_check io_h l c flag w w Hwf Hchk).
    destruct (env_status env _); eexists _, _; split; reflexivity.
  - intros Hcmd Hdb.
    assert (Hflag : next_flag c flag = flag).
    { unfold next_flag. destruct (Z.ltb_spec 4 (data_bytes c)); [lia|].
      by rewrite andb_false_r. }
    split.
    + intros flag' w' Hrun. apply init_cmd_iter_flag in Hrun. congruence.
    + intros s Hwf Hl.
      destruct (check_overwrite_defined l c flag s w Hwf Hl)
        as (w1 & evs1 & s1 & Hchk & _).
      rewrite (init_cmd_iter_after_check io_h l c flag w w1 Hwf Hchk).
      destruct (env_status env _) eqn:Hst; eexists _, _;
        (split; [reflexivity|]);
        first [left; by rewrite Hflag
              |right; eexists; split; [reflexivity|discriminate]].
Qed.

Lemma default_table_wf : Forall init_cmd_wf vendor_specific_init_default.
Proof.
  unfold vendor_specific_init_default.
  repeat (apply Forall_cons; split; [unfold init_cmd_wf; simpl; lia|]).
  apply Forall_nil_2.
Qed.

(** C2 (amended).  A panel constructed with no caller-supplied command
    list, initialised over a transport and a DPI driver that accept every
    call: [panel_st7701_init] reads the identifier, writes the page select,
    MADCTL and COLMOD, then replays the built-in table entry by entry, each
    write followed by the entry's delay, and finally calls the [init] that
    was saved from the DPI panel.  The table has 40 entries; its last two
    are sleep-out with a 120 ms delay and display-on with a 0 ms delay. *)
Theorem C2_default_table_replayed (io_h : Z)
    (cfg : esp_lcd_panel_dev_config_t) (vc : esp_panel_lcd_vendor_config_t)
    (ret_panel : Z) (w0 w1 : World) (panel : esp_lcd_panel_t) :
  LCD_CMD_SLPOUT = 0x11 -> LCD_CMD_DISPON = 0x29 ->
  (forall t, env_status env t = ESP_OK) ->
  dev_vendor_config cfg = Some vc -> vc_init_cmds vc = None ->
  esp_lcd_new_panel_st7701_mipi env io_h (Some cfg) ret_panel w0
    = Some (Normal (ESP_OK, Some panel), w1) ->
  exists w2 evs madctl colmod,
    (exists l, user_data panel = Some l /\
               madctl_val <$> heap w1 !! l = Some madctl /\
               colmod_val <$> heap w1 !! l = Some colmod) /\
    panel_st7701_init env panel w1 = Some (Normal ESP_OK, w2) /\
    trace w2 = trace w1 ++ evs /\
    bus_events evs
      = [EvRxParam io_h 0x04 3;
         EvTxParam io_h ST7701_CMD_CND2BKxSEL
           (uint8_array [ST7701_CMD_BKxSEL_BYTE0; ST7701_CMD_BKxSEL_BYTE1;
                         ST7701_CMD_BKxSEL_BYTE2; ST7701_CMD_BKxSEL_BYTE3;
                         0x00]) 5;
         EvTxParam io_h LCD_CMD_MADCTL [madctl] 1;
         EvTxParam io_h LCD_CMD_COLMOD [colmod] 1]
        ++ flat_map (entry_events io_h) vendor_specific_init_default
        ++ [EvPanelCall (fn_dpi op_init)] /\
    length vendor_specific_init_default = 40%nat /\
    drop 38 vendor_specific_init_default
      = [mk_init_cmd LCD_CMD_SLPOUT [0x00] 0 120;
         mk_init_cmd LCD_CMD_DISPON [0x00] 0 0].
Proof.
  intros Hslp Hdisp Hall Hvc Hcmds Hnew.
  apply new_panel_ok_inv in Hnew
    as (cfg' & vc' & madctl & colmod & Hcfg & Hvc' & _ & Hout & Hheap & _).
  injection Hcfg as <-. rewrite Hvc in Hvc'. injection Hvc' as <-.
  injection Hout as ->. rewrite Hcmds in Hheap.
  match type of Hheap with _ = <[?l := ?s]> _ =>
    assert (Hl : heap w1 !! l = Some s) by (rewrite Hheap; apply lookup_insert_eq);
    destruct (init_run_all_ok (st7701_panel_handle l) l s op_init w1 Hall
                eq_refl Hl default_table_wf eq_refl)
      as (flag' & wl & evs & _ & Ht & Hbus & Hrun)
  end.
  eexists _, _, madctl, colmod.
  split; [eexists; split; [reflexivity|]; by rewrite Hl|].
  split; [exact Hrun|].
  split; [simpl; rewrite Ht, <- !app_assoc; reflexivity|].
  split.
  - unfold bus_events in *. rewrite !List.filter_app, Hbus. reflexivity.
  - rewrite Hslp, Hdisp. split; reflexivity.
Qed.

End Properties.

(** ** Concrete runs *)

(** Hardware reset on pin 5, active high. *)
Example reset_pin5_run :
  @panel_st7701_reset esp_idf_headers env_ok panel_1 (world_with st_pin5)
    = Some (Normal ESP_OK,
            mk_world (heap (world_with st_pin5))
              [EvGpioSetLevel 5 1; EvDelay 10; EvGpioSetLevel 5 0; EvDelay 10]).
Proof. vm_compute. reflexivity. Qed.

(** Software reset over a transport that rejects the write. *)
Example reset_rejected_run :
  @panel_st7701_reset esp_idf_headers env_tx_fails panel_1 (world_with st_soft)
    = Some (Normal ESP_FAIL,
            mk_world (heap (world_with st_soft))
              [EvTxParam 0x1000 0x01 [] 0;
               EvLog LOG_E "send command failed" []]).
Proof. vm_compute. reflexivity. Qed.

(** [mirror(false, true)] over a transport that rejects the first write:
    the error comes back and [madctl_val] already has the new bit. *)
Example mirror_rejected_run :
  exists w',
    @panel_st7701_mirror esp_idf_headers env_tx_fails panel_1 false true
      (world_with st_soft) = Some (Normal ESP_FAIL, w') /\
    madctl_val <$> heap w' !! 1%positive = Some 0x10 /\
    trace w' = [EvTxParam 0x1000 0xFF [0x77; 0x01; 0x00; 0x00; 0x10] 5;
                EvLog LOG_E "send command failed" []].
Proof.
  eexists. split; [vm_compute; reflexivity|].
  split; vm_compute; reflexivity.
Qed.

(** [sleep(true)] sends sleep-in and asks for 100 ms. *)
Example sleep_in_run :
  @panel_st7701_sleep esp_idf_headers env_ok panel_1 true (world_with st_soft)
    = Some (Normal ESP_OK,
            mk_world (heap (world_with st_soft))
              [EvTxParam 0x1000 0x10 [] 0; EvDelay 100]).
Proof. vm_compute. reflexivity. Qed.

(** [del] releases the pin, calls the DPI panel's [del] and frees the
    state. *)
Example del_run :
  exists w',
    panel_st7701_del env_ok panel_1 (world_with st_pin5)
      = Some (Normal ESP_OK, w') /\
    heap w' !! 1%positive = None /\
    bus_events (trace w') = [EvGpioResetPin 5; EvPanelCall (fn_dpi op_del)].
Proof.
  eexists. split; [vm_compute; reflexivity|].
  split; vm_compute; reflexivity.
Qed.

Lemma cmd_bank3_disables : @group2_disable_entry esp_idf_headers cmd_bank3.
Proof.
  split; [reflexivity|]. split; [reflexivity|].
  exists 0x13. split; [reflexivity|]. vm_compute. discriminate.
Qed.

(** C1, counterexample.  A panel is constructed with 16 bits per pixel
    and the caller table [bank 3; page 0; COLMOD 0x77].  The table contains
    a group-2-disable entry, and the COLMOD entry comes after it, yet
    initialising triggers an override for the COLMOD entry: [colmod_val]
    goes from 0x55 to 0x77 and the override warning is logged. *)
Lemma C1_override_after_disable_entry :
  @group2_disable_entry esp_idf_headers cmd_bank3 /\
  cmd cmd_colmod_77 = @LCD_CMD_COLMOD esp_idf_headers /\
  exists w1 w2,
    @esp_lcd_new_panel_st7701_mipi esp_idf_headers env_ok 0x1000
      (Some dev_config_caller_table) 0x2000 world_empty
      = Some (Normal (ESP_OK, Some panel_1), w1) /\
    (init_cmds <$> heap w1 !! 1%positive)
      = Some (Some [cmd_bank3; cmd_page0; cmd_colmod_77]) /\
    colmod_val <$> heap w1 !! 1%positive = Some 0x55 /\
    @panel_st7701_init esp_idf_headers env_ok panel_1 w1
      = Some (Normal ESP_OK, w2) /\
    colmod_val <$> heap w2 !! 1%positive = Some 0x77 /\
    warnings (trace w2) = [override_warning cmd_colmod_77].
Proof.
  split; [exact cmd_bank3_disables|]. split; [reflexivity|].
  eexists _, _. split; [vm_compute; reflexivity|].
  split; [vm_compute; reflexivity|]. split; [vm_compute; reflexivity|].
  split; [vm_compute; reflexivity|]. split; vm_compute; reflexivity.
Qed.

(** C1, witness: after [bank 3] the flag is false and a COLMOD entry is
    left alone. *)
Lemma C1_override_gated_by_flag_witness :
  exists f1 w1,
    @init_cmds_loop esp_idf_headers env_ok 0x1000 1 [cmd_bank3] true
      (world_with st_soft) = Some (Normal f1, w1) /\
    f1 = false /\
    @init_check_overwrite esp_idf_headers 1 cmd_colmod_77 f1 w1
      = Some (Normal tt, w1).
Proof.
  eexists _, _. split; [vm_compute; reflexivity|].
  destruct (@C1_override_gated_by_flag esp_idf_headers env_ok)
    as (_ & _ & _ & Hafter).
  destruct (Hafter 0x1000 1%positive [] cmd_bank3 [] cmd_colmod_77 [] true
              (world_with st_soft) _ _ cmd_bank3_disables (Forall_nil_2 _)
              ltac:(vm_compute; reflexivity))
    as (Hf & Hchk & _).
  split; [exact Hf|exact Hchk].
Defined.

(** C2, counterexample.  Constructing with RGB order, 16 bits per pixel, no
    reset pin and no caller table, then initialising: the built-in table
    that is replayed has 40 entries, not 38; the run makes 43 transport
    writes, three before the table and one per entry. *)
Lemma C2_table_has_40_entries :
  length vendor_specific_init_default = 40%nat /\
  length vendor_specific_init_default <> 38%nat /\
  exists w1 w2,
    @esp_lcd_new_panel_st7701_mipi esp_idf_headers env_ok 0x1000
      (Some dev_config_rgb565) 0x2000 world_empty
      = Some (Normal (ESP_OK, Some panel_1), w1) /\
    @panel_st7701_init esp_idf_headers env_ok panel_1 w1
      = Some (Normal ESP_OK, w2) /\
    length (tx_events (drop (length (trace w1)) (trace w2))) = 43%nat.
Proof.
  split; [reflexivity|]. split; [discriminate|].
  eexists _, _. split; [vm_compute; reflexivity|].
  split; vm_compute; reflexivity.
Qed.

Lemma construct_rgb565_run :
  exists w1,
    @esp_lcd_new_panel_st7701_mipi esp_idf_headers env_ok 0x1000
      (Some dev_config_rgb565) 0x2000 world_empty
      = Some (Normal (ESP_OK, Some panel_1), w1).
Proof. eexists. vm_compute. reflexivity. Defined.

(** C2, witness. *)
Lemma C2_default_table_replayed_witness :
  exists w1 w2 evs,
    @esp_lcd_new_panel_st7701_mipi esp_idf_headers env_ok 0x1000
      (Some dev_config_rgb565) 0x2000 world_empty
      = Some (Normal (ESP_OK, Some panel_1), w1) /\
    @panel_st7701_init esp_idf_headers env_ok panel_1 w1
      = Some (Normal ESP_OK, w2) /\
    trace w2 = trace w1 ++ evs /\
    last (bus_events evs) = Some (EvPanelCall (fn_dpi op_init)).
Proof.
  destruct construct_rgb565_run as [w1 Hnew]. exists w1.
  destruct (@C2_default_table_replayed esp_idf_headers env_ok 0x1000
              dev_config_rgb565 vendor_config_default 0x2000 world_empty w1
              panel_1 eq_refl eq_refl (fun _ => eq_refl) eq_refl eq_refl Hnew)
    as (w2 & evs & madctl & colmod & _ & Hrun & Ht & Hbus & _).
  exists w2, evs. split; [exact Hnew|]. split; [exact Hrun|].
  split; [exact Ht|]. rewrite Hbus. reflexivity.
Defined.

(** C3.  Construction with reset pin 5 when the DPI panel cannot be
    created: the pin is released and the error is returned, but the block
    allocated for the driver state is still on the heap, which was empty
    before the call: nothing on the error path frees it. *)
Theorem C3_failed_construction_leaks_state :
  heap world_empty = ∅ /\
  exists w',
    @esp_lcd_new_panel_st7701_mipi esp_idf_headers env_dpi_no_mem 0x1000
      (Some dev_config_pin5) 0x2000 world_empty
      = Some (Normal (ESP_ERR_NO_MEM, None), w') /\
    last (trace w') = Some (EvGpioResetPin 5) /\
    is_Some (heap w' !! 1%positive) /\
    size (heap w') = 1%nat.
Proof.
  split; [reflexivity|].
  eexists. split; [vm_compute; reflexivity|].
  split; [reflexivity|]. split; [eexists; vm_compute; reflexivity|].
  vm_compute. reflexivity.
Qed.

(** C4, witness: software reset over a working transport. *)
Lemma C4_reset_by_cases_witness :
  user_data panel_1 = Some 1%positive /\
  heap (world_with st_soft) !! 1%positive = Some st_soft /\
  exists r evs,
    @panel_st7701_reset esp_idf_headers env_ok panel_1 (world_with st_soft)
      = Some (Normal r, mk_world (heap (world_with st_soft)) evs) /\
    r = ESP_OK /\
    evs = [EvTxParam 0x1000 0x01 [] 0; EvDelay 20].
Proof.
  split; [reflexivity|]. split; [reflexivity|].
  destruct (@C4_reset_by_cases esp_idf_headers env_ok panel_1 1%positive
              st_soft (world_with st_soft) eq_refl eq_refl)
    as (r & evs & Hrun & _ & Hsoft & _).
  destruct Hsoft as (_ & Hok & _); [reflexivity|discriminate|].
  destruct (Hok eq_refl) as [-> ->].
  eexists _, _. split; [exact Hrun|]. split; reflexivity.
Defined.

(** C5, witness. *)
Lemma C5_mirror_without_transport_witness :
  user_data panel_1 = Some 1%positive /\
  heap (world_with st_no_io) !! 1%positive = Some st_no_io /\
  io st_no_io = NULL /\
  exists w',
    @panel_st7701_mirror esp_idf_headers env_ok panel_1 true false
      (world_with st_no_io) = Some (Normal ESP_FAIL, w') /\
    tx_events (trace w') = [] /\
    madctl_val <$> heap w' !! 1%positive = Some 0x10.
Proof.
  repeat (split; [reflexivity|]).
  destruct (@C5_mirror_without_transport esp_idf_headers env_ok panel_1
              1%positive st_no_io true false (world_with st_no_io)
              eq_refl eq_refl eq_refl)
    as (w' & Hrun & Htx & _ & _ & Hm).
  exists w'. split; [exact Hrun|]. split; [exact Htx|exact Hm].
Defined.

(** C6, witness: 24 bits per pixel resolves to 0x77 and the construction
    succeeds; 17 bits per pixel is not a supported width. *)
Lemma C6_pixel_format_witness :
  (exists w',
     @esp_lcd_new_panel_st7701_mipi esp_idf_headers env_ok 0x1000
       (Some dev_config_rgb888) 0x2000 world_empty
       = Some (Normal (ESP_OK, Some panel_1), w') /\
     colmod_val <$> heap w' !! 1%positive = Some 0x77) /\
  (exists w',
     @esp_lcd_new_panel_st7701_mipi esp_idf_headers env_ok 0x1000
       (Some dev_config_17bpp) 0x2000 world_empty
       = Some (Normal (ESP_ERR_NOT_SUPPORTED, None), w')).
Proof.
  split.
  - destruct (@C6_pixel_format esp_idf_headers env_ok 0x1000
                dev_config_rgb888 vendor_config_default 0x2000 world_empty)
      as (r & out & w' & Hrun & _ & _ & H24 & _);
      try discriminate; try reflexivity.
    destruct H24 as (Hcol & -> & Hout); [left; reflexivity|reflexivity|].
    rewrite (Hout eq_refl) in Hrun.
    exists w'. split; [exact Hrun|exact Hcol].
  - destruct (@C6_pixel_format esp_idf_headers env_ok 0x1000
                dev_config_17bpp vendor_config_default 0x2000 world_empty)
      as (r & out & w' & Hrun & _ & _ & _ & Hbad & _);
      try discriminate; try reflexivity.
    destruct Hbad as [-> ->]; try discriminate.
    exists w'. exact Hrun.
Defined.

(** C7, witness. *)
Lemma C7_mirror_bits_witness :
  exists r evs st7701' sdir_val,
    @panel_st7701_mirror esp_idf_headers env_ok panel_1 true false
      (world_with st_soft)
      = Some (Normal r, mk_world (<[1%positive := st7701']> (heap (world_with st_soft)))
                                 (trace (world_with st_soft) ++ evs)) /\
    bit_set sdir_val 4 /\ bit_clear (madctl_val st7701') 16.
Proof.
  destruct (@C7_mirror_bits esp_idf_headers env_ok panel_1 1%positive st_soft
              (world_with st_soft))
    as ((r & evs & s' & sdir & Hrun & _ & _ & Hss & Hml) & _);
    try reflexivity; try discriminate.
  1, 2: split; by vm_compute.
  exists r, evs, s', sdir. split; [exact Hrun|]. split; [exact Hss|exact Hml].
Defined.

Lemma construct_bgr565_run :
  exists w1,
    @esp_lcd_new_panel_st7701_mipi esp_idf_headers env_ok 0x1000
      (Some dev_config_bgr565) 0x2000 world_empty
      = Some (Normal (ESP_OK, Some panel_1), w1).
Proof. eexists. vm_compute. reflexivity. Defined.

(** C8, witness. *)
Lemma C8_bgr_bit_survives_mirror_witness :
  exists w1 w2 st7701',
    @esp_lcd_new_panel_st7701_mipi esp_idf_headers env_ok 0x1000
      (Some dev_config_bgr565) 0x2000 world_empty
      = Some (Normal (ESP_OK, Some panel_1), w1) /\
    @mirror_calls esp_idf_headers env_ok panel_1
      [(true, true); (false, false)] w1 = Some (Normal tt, w2) /\
    heap w2 !! 1%positive = Some st7701' /\
    bit_set (madctl_val st7701') 8.
Proof.
  destruct construct_bgr565_run as [w1 Hnew]. exists w1.
  destruct (@C8_bgr_bit_survives_mirror esp_idf_headers env_ok 0x1000
              dev_config_bgr565 0x2000 world_empty w1 panel_1)
    as (l & st & Hud & _ & _ & Hseq);
    try reflexivity; try discriminate; try exact Hnew.
  { split; by vm_compute. }
  injection Hud as <-.
  destruct (Hseq [(true, true); (false, false)]) as (w2 & s2 & Hrun & Hl & Hb).
  exists w2, s2. auto.
Defined.

(** C9, witness: the transport rejects the first write. *)
Lemma C9_mirror_state_kept_on_failure_witness :
  exists r evs st7701',
    @panel_st7701_mirror esp_idf_headers env_tx_fails panel_1 false true
      (world_with st_soft)
      = Some (Normal r, mk_world (<[1%positive := st7701']> (heap (world_with st_soft)))
                                 (trace (world_with st_soft) ++ evs)) /\
    bit_set (madctl_val st7701') 16.
Proof.
  destruct (@C9_mirror_state_kept_on_failure esp_idf_headers env_tx_fails
              panel_1 1%positive st_soft false true (world_with st_soft))
    as (r & evs & s' & Hrun & _ & Hbit & _);
    try reflexivity; try discriminate.
  { split; by vm_compute. }
  exists r, evs, s'. split; [exact Hrun|exact Hbit].
Defined.

(** C10, witness: a sleep-out entry with no parameter bytes, and a
    page-select entry with four. *)
Lemma C10_short_entries_witness :
  @init_check_overwrite esp_idf_headers 1 (mk_init_cmd 0x11 [0x00] 0 120) true
    (world_with st_soft) = Some (Normal tt, world_with st_soft) /\
  exists o w',
    @init_cmd_iter esp_idf_headers env_ok 0x1000 1
      (mk_init_cmd 0xFF [0x77; 0x01; 0x00; 0x00] 4 0) true (world_with st_soft)
      = Some (o, w') /\
    o = Normal true.
Proof.
  split.
  - destruct (@C10_short_entries esp_idf_headers env_ok 0x1000 1%positive
                (mk_init_cmd 0x11 [0x00] 0 120) true (world_with st_soft))
      as [Hzero _].
    destruct (Hzero eq_refl) as [Hchk _]. exact Hchk.
  - destruct (@C10_short_entries esp_idf_headers env_ok 0x1000 1%positive
                (mk_init_cmd 0xFF [0x77; 0x01; 0x00; 0x00] 4 0) true
                (world_with st_soft))
      as [_ Hsel].
    destruct (Hsel eq_refl ltac:(simpl; lia)) as [_ Hrun].
    destruct (Hrun st_soft ltac:(unfold init_cmd_wf; simpl; lia) eq_refl)
      as (o & w' & Hiter & [->|(e & -> & Hne)]).
    + exists (Normal true), w'. split; [exact Hiter|reflexivity].
    + exfalso. revert Hiter. vm_compute. discriminate.
Defined.

(** * Further properties *)

Section SingleCommands.

Context {hdr : Headers}.
Variable env : Env.

(** X1.  [panel_st7701_sleep] sends sleep-in or sleep-out, chosen by the flag,
    with no parameters; when the transport accepts the write it asks for a
    100 ms delay, in either direction, and returns [ESP_OK]; when the
    transport rejects it, the status comes back at once, without the delay.
    The driver state is not touched and the handle is not checked for
    null. *)
Theorem sleep_sends_one_command_then_waits (panel : esp_lcd_panel_t)
    (l : loc) (st7701 : st7701_panel_t) (sleep : bool) (w : World) :
  user_data panel = Some l ->
  heap w !! l = Some st7701 ->
  let tx := EvTxParam (io st7701)
              (if sleep then LCD_CMD_SLPIN else LCD_CMD_SLPOUT) [] 0 in
  exists r evs,
    panel_st7701_sleep env panel sleep w
      = Some (Normal r, mk_world (heap w) (trace w ++ evs)) /\
    bus_events evs
      = tx :: match r with ESP_OK => [EvDelay 100] | _ => [] end /\
    r = env_status env (trace w ++ [tx]).
Proof.
  intros Hud Hl tx. subst tx.
  unfold panel_st7701_sleep. unfold_m. rewrite Hud. simpl. rewrite Hl. simpl.
  destruct (env_status env _) eqn:Hst; simpl; norm_trace;
    eexists _, _; (split; [reflexivity|]); split; reflexivity.
Qed.

(** X2.  [panel_st7701_invert_color] and [panel_st7701_disp_on_off] each send
    exactly one command without parameters, chosen by the flag (inversion
    on or off, display on or off), ask for no delay, return the status of
    that write and leave the driver state alone. *)
Theorem invert_and_on_off_send_one_command (panel : esp_lcd_panel_t)
    (l : loc) (st7701 : st7701_panel_t) (flag : bool) (w : World) :
  user_data panel = Some l ->
  heap w !! l = Some st7701 ->
  (let tx := EvTxParam (io st7701)
               (if flag then LCD_CMD_INVON else LCD_CMD_INVOFF) [] 0 in
   exists evs,
     panel_st7701_invert_color env panel flag w
       = Some (Normal (env_status env (trace w ++ [tx])),
               mk_world (heap w) (trace w ++ evs)) /\
     bus_events evs = [tx]) /\
  (let tx := EvTxParam (io st7701)
               (if flag then LCD_CMD_DISPON else LCD_CMD_DISPOFF) [] 0 in
   exists evs,
     panel_st7701_disp_on_off env panel flag w
       = Some (Normal (env_status env (trace w ++ [tx])),
               mk_world (heap w) (trace w ++ evs)) /\
     bus_events evs = [tx]).
Proof.
  intros Hud Hl. split; intros tx; subst tx;
    unfold panel_st7701_invert_color, panel_st7701_disp_on_off; unfold_m;
    rewrite Hud; simpl; rewrite Hl; simpl;
    destruct (env_status env _) eqn:Hst; simpl; norm_trace;
    eexists; split; reflexivity.
Qed.

(** X3.  [panel_st7701_del] releases the reset pin if one is configured, calls
    the [del] saved from the DPI panel, frees the driver state, and returns
    [ESP_OK] whatever the GPIO driver and the DPI panel answered. *)
Theorem del_frees_and_always_succeeds (panel : esp_lcd_panel_t)
    (l : loc) (st7701 : st7701_panel_t) (op : panel_op) (w : World) :
  user_data panel = Some l ->
  heap w !! l = Some st7701 ->
  del st7701 = fn_dpi op ->
  exists evs,
    panel_st7701_del env panel w
      = Some (Normal ESP_OK, mk_world (delete l (heap w)) (trace w ++ evs)) /\
    bus_events evs
      = if_pin (reset_gpio_num st7701) [EvGpioResetPin (reset_gpio_num st7701)]
        ++ [EvPanelCall (fn_dpi op)].
Proof.
  intros Hud Hl Hdel. unfold panel_st7701_del, if_pin. unfold_m.
  rewrite Hud. simpl. rewrite Hl, Hdel.
  destruct (0 <=? reset_gpio_num st7701); simpl; rewrite Hl; simpl;
    norm_trace; eexists; split; reflexivity.
Qed.

End SingleCommands.

Section Constructor.

Context {hdr : Headers}.
Variable env : Env.

(** Opens the constructor up to the allocation, for arguments that pass
    the checks. *)
Ltac enter_new_panel Hargs :=
  destruct Hargs as (Hio & Hret & Hvc & Hdpi & Hbus);
  unfold esp_lcd_new_panel_st7701_mipi, new_panel_body, new_panel_err;
  unfold_m; unfold is_null, calloc_st7701;
  repeat match goal with
  | |- context [?p =? NULL] =>
      destruct (Z.eqb_spec p NULL) as [|_]; [contradiction|]
  end;
  simpl; rewrite Hvc;
  repeat match goal with
  | |- context [?p =? NULL] =>
      destruct (Z.eqb_spec p NULL) as [|_]; [contradiction|]
  end;
  simpl.

(** X4.  A construction that fails before or at the allocation has no effect
    but a line in the log: a null transport, configuration or result
    pointer, or a vendor configuration that is missing or lacks the DPI
    configuration or the DSI bus, gives [ESP_ERR_INVALID_ARG]; a failed
    allocation gives [ESP_ERR_NO_MEM].  Nothing is allocated and neither
    the GPIO driver nor the DPI driver is called. *)
Theorem new_panel_fails_cleanly_before_allocation (io_h : Z)
    (panel_dev_config : option esp_lcd_panel_dev_config_t) (ret_panel : Z)
    (w : World) :
  let fails_with e msg :=
    esp_lcd_new_panel_st7701_mipi env io_h panel_dev_config ret_panel w
      = Some (Normal (e, None),
              mk_world (heap w) (trace w ++ [EvLog LOG_E msg []])) in
  (io_h = NULL \/ panel_dev_config = None \/ ret_panel = NULL ->
     fails_with ESP_ERR_INVALID_ARG "invalid argument") /\
  (forall cfg,
     io_h <> NULL -> ret_panel <> NULL -> panel_dev_config = Some cfg ->
     (dev_vendor_config cfg = None \/
      exists vc, dev_vendor_config cfg = Some vc /\
                 (vc_dpi_config vc = NULL \/ vc_dsi_bus vc = NULL)) ->
     fails_with ESP_ERR_INVALID_ARG "invalid vendor config") /\
  (forall cfg vc,
     panel_dev_config = Some cfg ->
     valid_new_panel_args io_h cfg vc ret_panel ->
     env_calloc_null env (trace w) = true ->
     fails_with ESP_ERR_NO_MEM "no mem for st7701 panel").
Proof.
  intros fails_with. subst fails_with. simpl.
  split; [|split].
  - intros Hbad.
    unfold esp_lcd_new_panel_st7701_mipi, new_panel_body. unfold_m.
    unfold is_null.
    destruct (Z.eqb_spec io_h NULL); [reflexivity|].
    destruct panel_dev_config; simpl; [|reflexivity].
    destruct (Z.eqb_spec ret_panel NULL); [reflexivity|].
    destruct Hbad as [?|[?|?]]; congruence.
  - intros cfg Hio Hret -> Hbad.
    unfold esp_lcd_new_panel_st7701_mipi, new_panel_body. unfold_m.
    unfold is_null.
    destruct (Z.eqb_spec io_h NULL); [contradiction|].
    destruct (Z.eqb_spec ret_panel NULL); [contradiction|]. simpl.
    destruct Hbad as [->|(vc & -> & Hnull)]; [reflexivity|].
    destruct (Z.eqb_spec (vc_dpi_config vc) NULL); [reflexivity|].
    destruct (Z.eqb_spec (vc_dsi_bus vc) NULL); [reflexivity|].
    destruct Hnull; contradiction.
  - intros cfg vc -> Hargs Hnull.
    enter_new_panel Hargs. rewrite Hnull. reflexivity.
Qed.

(** X5.  A construction whose arguments and environment are in order succeeds:
    the new block holds the transport handle, the reset pin and its
    polarity, the caller's table with its size narrowed to 16 bits, the
    registers computed from colour order and pixel width, and the [del] and
    [init] of the DPI panel; the handle returned has all seven operations
    replaced by the driver's and points to the block.  On the way the reset
    pin, if any, was configured and the DPI panel created, in that order. *)
Theorem new_panel_succeeds (io_h : Z) (cfg : esp_lcd_panel_dev_config_t)
    (vc : esp_panel_lcd_vendor_config_t) (ret_panel : Z) (w : World) :
  let pin := dev_reset_gpio_num cfg in
  let l := fresh (dom (heap w)) in
  let new_dpi := EvNewPanelDpi (vc_dsi_bus vc) (vc_dpi_config vc) in
  valid_new_panel_args io_h cfg vc ret_panel ->
  env_calloc_null env (trace w) = false ->
  (0 <= pin -> env_status env (trace w ++ [gpio_config_event pin]) = ESP_OK) ->
  dev_color_space cfg = LCD_RGB_ELEMENT_ORDER_RGB \/
  dev_color_space cfg = LCD_RGB_ELEMENT_ORDER_BGR ->
  dev_bits_per_pixel cfg = 16 \/ dev_bits_per_pixel cfg = 18 \/
  dev_bits_per_pixel cfg = 24 ->
  env_status env (trace w ++ if_pin pin [gpio_config_event pin] ++ [new_dpi])
    = ESP_OK ->
  esp_lcd_new_panel_st7701_mipi env io_h (Some cfg) ret_panel w
    = Some (Normal (ESP_OK, Some (st7701_panel_handle l)),
            mk_world (<[l := constructed_state io_h cfg vc]> (heap w))
              (trace w ++ if_pin pin [gpio_config_event pin]
                       ++ [new_dpi;
                           EvLog LOG_D "new MIPI DPI panel @%p" [];
                           EvLog LOG_D "new st7701 panel @%p" []])).
Proof.
  intros pin l new_dpi Hargs Hcalloc Hgpio Horder Hwidth Hnew.
  subst pin l new_dpi. revert Hgpio Hnew.
  unfold constructed_state, initial_madctl, initial_colmod, if_pin,
    gpio_config_event.
  enter_new_panel Hargs. rewrite Hcalloc. simpl.
  destruct (Z.leb_spec 0 (dev_reset_gpio_num cfg)) as [Hpin|Hpin];
    intros Hgpio Hnew; simpl in *;
    [rewrite (Hgpio Hpin); simpl|];
    (case_color_space cfg; simpl; heap_step; [| |destruct Horder; contradiction]);
    (case_bits_per_pixel cfg; simpl; heap_step; [| | |lia]);
    norm_trace; rewrite Hnew; simpl; heap_step;
    rewrite !insert_insert_eq; norm_trace; reflexivity.
Qed.

(** X6.  After the allocation, every failure returns the failing status once
    the reset pin, if one is configured, has been released: these are the
    four jumps to the label [err].  A rejected pin configuration ends the
    construction before the colour order is looked at; an unsupported
    colour order gives [ESP_ERR_NOT_SUPPORTED] whatever the pixel width; an
    unsupported pixel width gives [ESP_ERR_NOT_SUPPORTED] once the colour
    order was accepted; and the DPI panel is created only after all three
    were accepted, its failure being passed on. *)
Theorem new_panel_failure_releases_pin (io_h : Z)
    (cfg : esp_lcd_panel_dev_config_t) (vc : esp_panel_lcd_vendor_config_t)
    (ret_panel : Z) (w : World) :
  let pin := dev_reset_gpio_num cfg in
  let new_dpi := EvNewPanelDpi (vc_dsi_bus vc) (vc_dpi_config vc) in
  let fails_with e evs :=
    exists w', esp_lcd_new_panel_st7701_mipi env io_h (Some cfg) ret_panel w
                 = Some (Normal (e, None), w') /\
               trace w' = trace w ++ evs in
  valid_new_panel_args io_h cfg vc ret_panel ->
  env_calloc_null env (trace w) = false ->
  (0 <= pin ->
   env_status env (trace w ++ [gpio_config_event pin]) <> ESP_OK ->
     fails_with (env_status env (trace w ++ [gpio_config_event pin]))
       [gpio_config_event pin;
        EvLog LOG_E "configure GPIO for RST line failed" [];
        EvGpioResetPin pin]) /\
  ((0 <= pin -> env_status env (trace w ++ [gpio_config_event pin]) = ESP_OK) ->
   dev_color_space cfg <> LCD_RGB_ELEMENT_ORDER_RGB ->
   dev_color_space cfg <> LCD_RGB_ELEMENT_ORDER_BGR ->
     fails_with ESP_ERR_NOT_SUPPORTED
       (if_pin pin [gpio_config_event pin]
        ++ [EvLog LOG_E "unsupported rgb element order" []]
        ++ if_pin pin [EvGpioResetPin pin])) /\
  ((0 <= pin -> env_status env (trace w ++ [gpio_config_event pin]) = ESP_OK) ->
   dev_color_space cfg = LCD_RGB_ELEMENT_ORDER_RGB \/
   dev_color_space cfg = LCD_RGB_ELEMENT_ORDER_BGR ->
   dev_bits_per_pixel cfg <> 16 -> dev_bits_per_pixel cfg <> 18 ->
   dev_bits_per_pixel cfg <> 24 ->
     fails_with ESP_ERR_NOT_SUPPORTED
       (if_pin pin [gpio_config_event pin]
        ++ [EvLog LOG_E "unsupported pixel width" []]
        ++ if_pin pin [EvGpioResetPin pin])) /\
  ((0 <= pin -> env_status env (trace w ++ [gpio_config_event pin]) = ESP_OK) ->
   dev_color_space cfg = LCD_RGB_ELEMENT_ORDER_RGB \/
   dev_color_space cfg = LCD_RGB_ELEMENT_ORDER_BGR ->
   dev_bits_per_pixel cfg = 16 \/ dev_bits_per_pixel cfg = 18 \/
   dev_bits_per_pixel cfg = 24 ->
   env_status env (trace w ++ if_pin pin [gpio_config_event pin] ++ [new_dpi])
     <> ESP_OK ->
     fails_with
       (env_status env (trace w ++ if_pin pin [gpio_config_event pin] ++ [new_dpi]))
       (if_pin pin [gpio_config_event pin]
        ++ [new_dpi; EvLog LOG_E "create MIPI DPI panel failed" []]
        ++ if_pin pin [EvGpioResetPin pin])).
Proof.
  intros pin new_dpi fails_with Hargs Hcalloc.
  subst pin new_dpi fails_with. simpl.
  unfold if_pin, gpio_config_event.
  split; [|split; [|split]].
  - intros Hpin Hbad. revert Hbad.
    enter_new_panel Hargs. rewrite Hcalloc. simpl.
    destruct (Z.leb_spec 0 (dev_reset_gpio_num cfg)); [|lia]. simpl.
    match goal with
    | |- env_status env ?t <> ESP_OK -> _ => destruct (env_status env t)
    end; intros Hbad; [by destruct Hbad| ..];
      simpl; norm_trace; eexists; split; reflexivity.
  - intros Hgpio Hrgb' Hbgr'. revert Hgpio.
    enter_new_panel Hargs. rewrite Hcalloc. simpl.
    destruct (Z.leb_spec 0 (dev_reset_gpio_num cfg)) as [Hpin|Hpin];
      intros Hgpio; simpl; [rewrite (Hgpio Hpin); simpl|];
      (case_color_space cfg; [contradiction|contradiction|]);
      simpl; norm_trace; eexists; split; reflexivity.
  - intros Hgpio Horder Hno16 Hno18 Hno24. revert Hgpio.
    enter_new_panel Hargs. rewrite Hcalloc. simpl.
    destruct (Z.leb_spec 0 (dev_reset_gpio_num cfg)) as [Hpin|Hpin];
      intros Hgpio; simpl; [rewrite (Hgpio Hpin); simpl|];
      (case_color_space cfg; simpl; heap_step; [| |destruct Horder; contradiction]);
      (case_bits_per_pixel cfg; [contradiction|contradiction|contradiction|]);
      simpl; heap_step; norm_trace; eexists; split; reflexivity.
  - intros Hgpio Horder Hwidth. revert Hgpio.
    enter_new_panel Hargs. rewrite Hcalloc. simpl.
    destruct (Z.leb_spec 0 (dev_reset_gpio_num cfg)) as [Hpin|Hpin];
      intros Hgpio; simpl; [rewrite (Hgpio Hpin); simpl|];
      (case_color_space cfg; simpl; heap_step; [| |destruct Horder; contradiction]);
      (case_bits_per_pixel cfg; simpl; heap_step; [| | |lia]);
      norm_trace;
      (match goal with
       | |- env_status env ?t <> ESP_OK -> _ => destruct (env_status env t)
       end; intros Hbad; [by destruct Hbad| ..];
       simpl; heap_step; norm_trace; eexists; split; reflexivity).
Qed.

End Constructor.

Section InitRuns.

Context {hdr : Headers}.
Variable env : Env.

Lemma same_config_refl (s : st7701_panel_t) : same_config s s.
Proof. unfold same_config. auto 10. Qed.

Lemma same_config_trans (s1 s2 s3 : st7701_panel_t) :
  same_config s1 s2 -> same_config s2 s3 -> same_config s1 s3.
Proof. unfold same_config. intuition congruence. Qed.

Lemma to_uint8_range (z : Z) : 0 <= to_uint8 z < 256.
Proof. unfold to_uint8. apply Z.mod_pos_bound. lia. Qed.

(** The check at the head of an iteration, on a well-formed entry and a
    live state: what it does to the state is [override_regs], and it puts
    nothing on the bus. *)
Lemma check_overwrite_run (l : loc) (c : esp_panel_lcd_vendor_init_cmd_t)
    (flag : bool) (s : st7701_panel_t) (w : World) :
  init_cmd_wf c -> heap w !! l = Some s ->
  exists w1 evs s1,
    init_check_overwrite l c flag w = Some (Normal tt, w1) /\
    heap w1 = <[l := s1]> (heap w) /\ trace w1 = trace w ++ evs /\
    bus_events evs = [] /\ same_config s s1 /\
    (madctl_val s1, colmod_val s1)
      = override_regs c flag (madctl_val s, colmod_val s) /\
    (regs_are_bytes s -> regs_are_bytes s1).
Proof.
  intros Hwf Hl. unfold override_regs.
  assert (Hsame : forall w0, heap w0 !! l = Some s ->
            heap w0 = <[l := s]> (heap w0) /\ trace w0 = trace w0 ++ [])
    by (intros w0 H0; rewrite insert_id by done; by rewrite app_nil_r).
  destruct flag; simpl;
    [|exists w, [], s; rewrite check_overwrite_skip by auto;
      destruct (Hsame w Hl); auto 10 using same_config_refl].
  destruct (Z.ltb_spec 0 (data_bytes c)) as [Hdb|Hdb];
    [|exists w, [], s; rewrite check_overwrite_skip by auto;
      destruct (Hsame w Hl); auto 10 using same_config_refl].
  destruct (init_cmd_wf_lookup c 0 Hwf) as [b Hb]; [simpl; lia|]. rewrite Hb.
  destruct (Z.eqb_spec (cmd c) LCD_CMD_MADCTL) as [Hm|Hm].
  { eexists _, _, _. rewrite (check_overwrite_madctl l c b s) by assumption.
    split; [reflexivity|]. simpl.
    do 3 (split; [reflexivity|]). split; [unfold same_config; simpl; auto 10|].
    split; [reflexivity|]. intros [_ Hcol]. split; [apply to_uint8_range|exact Hcol]. }
  destruct (Z.eqb_spec (cmd c) LCD_CMD_COLMOD) as [Hc|Hc].
  { eexists _, _, _. rewrite (check_overwrite_colmod l c b s) by assumption.
    split; [reflexivity|]. simpl.
    do 3 (split; [reflexivity|]). split; [unfold same_config; simpl; auto 10|].
    split; [reflexivity|]. intros [Hmad _]. split; [exact Hmad|apply to_uint8_range]. }
  exists w, [], s. rewrite check_overwrite_other by assumption.
  destruct (Hsame w Hl); auto 10 using same_config_refl.
Qed.

(** The replay loop on well-formed entries and a live state, whatever the
    transport answers: it either gets through the table or is left at the
    first write the transport rejects. *)
Lemma init_cmds_loop_run (io_h : Z) (l : loc)
    (cmds : list esp_panel_lcd_vendor_init_cmd_t) :
  Forall init_cmd_wf cmds ->
  forall (flag : bool) (s : st7701_panel_t) (w : World),
    heap w !! l = Some s ->
    exists o w' evs s',
      init_cmds_loop env io_h l cmds flag w = Some (o, w') /\
      heap w' = <[l := s']> (heap w) /\ trace w' = trace w ++ evs /\
      same_config s s' /\ (regs_are_bytes s -> regs_are_bytes s') /\
      match o with
      | Normal _ =>
          bus_events evs = flat_map (entry_events io_h) cmds /\
          (madctl_val s', colmod_val s')
            = replay_regs cmds flag (madctl_val s, colmod_val s)
      | Return e =>
          e <> ESP_OK /\
          exists pre c post evs0,
            cmds = pre ++ c :: post /\
            bus_events evs0 = flat_map (entry_events io_h) pre /\
            evs = evs0 ++ [EvTxParam io_h (cmd c) (data c) (data_bytes c);
                           EvLog LOG_E "send command failed" []] /\
            e = env_status env
                  (trace w ++ evs0
                   ++ [EvTxParam io_h (cmd c) (data c) (data_bytes c)]) /\
            (madctl_val s', colmod_val s')
              = replay_regs (pre ++ [c]) flag (madctl_val s, colmod_val s)
      end.
Proof.
  induction 1 as [|c cmds Hwf _ IH]; intros flag s w Hl.
  - exists (Normal flag), w, [], s. simpl.
    rewrite insert_id by done. rewrite app_nil_r.
    auto 10 using same_config_refl.
  - destruct (check_overwrite_run l c flag s w Hwf Hl)
      as (w1 & evs1 & s1 & Hchk & Hh1 & Ht1 & Hbus1 & Hcfg1 & Hregs1 & Hbytes1).
    simpl. unfold mbind, M_bind.
    rewrite (init_cmd_iter_after_check env io_h l c flag w w1 Hwf Hchk).
    destruct (env_status env (trace w1 ++ _)) eqn:Hst.
    1: { edestruct (IH (next_flag c flag) s1
              (mk_world (heap w1) (trace w1 ++ entry_events io_h c)))
        as (o & w' & evs & s' & Hrun & Hh & Ht & Hcfg & Hbytes & Ho).
      { simpl. rewrite Hh1. apply lookup_insert_eq. }
      simpl in Hh, Ht.
      exists o, w', (evs1 ++ entry_events io_h c ++ evs), s'.
      split; [exact Hrun|].
      split; [rewrite Hh, Hh1; apply insert_insert_eq|].
      split; [rewrite Ht, Ht1; by rewrite <- !app_assoc|].
      split; [eapply same_config_trans; eassumption|].
      split; [auto|].
      destruct o as [f|e].
      - destruct Ho as [Hbus Hregs]. split.
        + unfold bus_events in *. rewrite !List.filter_app, Hbus1, Hbus.
          reflexivity.
        + simpl. rewrite <- Hregs1. exact Hregs.
      - destruct Ho
          as (Hne & pre & c' & post & evs0 & -> & Hbus0 & -> & -> & Hregs).
        split; [exact Hne|].
        exists (c :: pre), c', post, (evs1 ++ entry_events io_h c ++ evs0).
        split; [reflexivity|]. split.
        + unfold bus_events in *. rewrite !List.filter_app, Hbus1, Hbus0.
          reflexivity.
        + split; [by rewrite <- !app_assoc|].
          split; [simpl; rewrite Ht1; by rewrite <- !app_assoc|].
          simpl. rewrite <- Hregs1. exact Hregs. }
    all: eexists (Return _), _, (evs1 ++ _), s1; simpl;
      (split; [reflexivity|]); (split; [exact Hh1|]);
      (split; [rewrite Ht1, <- app_assoc; reflexivity|]);
      (split; [exact Hcfg1|]); (split; [exact Hbytes1|]);
      (split; [discriminate|]);
      exists [], c, cmds, evs1;
      (split; [reflexivity|]); (split; [exact Hbus1|]);
      (split; [reflexivity|]);
      (split; [rewrite <- Hst, Ht1, <- app_assoc; reflexivity|]);
      simpl; by rewrite <- Hregs1.
Qed.


(** Closes a branch of [init_run] in which a call of the prologue was
    rejected: [n] events precede the rejected call. *)
Ltac prologue_rejected st Hst :=
  eexists _, _, _, st; simpl; (split; [reflexivity|]); simpl;
  (split; [symmetry; by apply insert_id|]);
  (split; [norm_trace; reflexivity|]);
  (split; [apply same_config_refl|]); (split; [auto|]);
  (split; [exists nil; split; [apply prefix_nil|reflexivity]|]);
  split;
  [unfold init_bus, bus_events; simpl; eexists; reflexivity
  |rewrite <- ?app_assoc in Hst; simpl in Hst; rewrite <- Hst;
   first [solve [eexists nil, _, _; simpl; split; [reflexivity|]; split; reflexivity]
         |solve [eexists (_ :: _ :: nil), _, _; simpl;
                 split; [reflexivity|]; split; reflexivity]
         |solve [eexists (_ :: _ :: _ :: nil), _, _; simpl;
                 split; [reflexivity|]; split; reflexivity]
         |solve [eexists (_ :: _ :: _ :: _ :: nil), _, _; simpl;
                 split; [reflexivity|]; split; reflexivity]]].

(** [panel_st7701_init] as a whole, whatever the environment answers. *)
Lemma init_run (panel : esp_lcd_panel_t) (l : loc)
    (st7701 : st7701_panel_t) (op : panel_op) (w : World) :
  user_data panel = Some l ->
  heap w !! l = Some st7701 ->
  Forall init_cmd_wf (init_active_cmds st7701) ->
  init st7701 = fn_dpi op ->
  exists r w' evs st7701',
    panel_st7701_init env panel w = Some (Normal r, w') /\
    heap w' = <[l := st7701']> (heap w) /\ trace w' = trace w ++ evs /\
    same_config st7701 st7701' /\
    (regs_are_bytes st7701 -> regs_are_bytes st7701') /\
    (exists pre,
        pre `prefix_of` init_active_cmds st7701 /\
        (madctl_val st7701', colmod_val st7701')
          = replay_regs pre true (madctl_val st7701, colmod_val st7701)) /\
    match r with
    | ESP_OK =>
        bus_events evs = init_bus st7701 /\
        (madctl_val st7701', colmod_val st7701')
          = replay_regs (init_active_cmds st7701) true
              (madctl_val st7701, colmod_val st7701)
    | _ => bus_events evs `prefix_of` init_bus st7701 /\ failed_at env (trace w) evs r
    end.
Proof.
  intros Hud Hl Hwf Hinit. unfold failed_at.
  unfold panel_st7701_init, init_prologue. unfold_m.
  rewrite Hud. simpl. rewrite Hl. simpl.
  destruct (env_status env (trace w ++ [EvRxParam (io st7701) 4 3])) eqn:Hrx;
    simpl; [|prologue_rejected st7701 Hrx ..].
  match goal with |- context [match env_status env ?t with _ => _ end] =>
    destruct (env_status env t) eqn:Htx1 end;
    simpl; [|prologue_rejected st7701 Htx1 ..].
  match goal with |- context [match env_status env ?t with _ => _ end] =>
    destruct (env_status env t) eqn:Htx2 end;
    simpl; [|prologue_rejected st7701 Htx2 ..].
  match goal with |- context [match env_status env ?t with _ => _ end] =>
    destruct (env_status env t) eqn:Htx3 end;
    simpl; [|prologue_rejected st7701 Htx3 ..].
  edestruct (init_cmds_loop_run (io st7701) l _ Hwf true st7701) as
    (o & wl & evsl & sl & Hloop & Hhl & Htl & Hcfgl & Hbytesl & Ho);
    [|rewrite Hloop]; [exact Hl|].
  simpl in Hhl, Htl.
  destruct o as [f|e]; simpl.
  - assert (Hll : heap wl !! l = Some sl)
      by (rewrite Hhl; apply lookup_insert_eq).
    rewrite Hll.
    assert (Hinitl : init sl = fn_dpi op)
      by (destruct Hcfgl as (_&_&_&_&_&_&->); exact Hinit).
    rewrite Hinitl. simpl.
    destruct Ho as [Hbus Hregs].
    assert (Hfull : bus_events
              (init_prologue_events (init_id env st7701 w) st7701 ++ evsl
               ++ [EvLog LOG_D "send init commands success" [];
                   EvPanelCall (fn_dpi op)]) = init_bus st7701).
    { unfold bus_events, init_bus in *. rewrite !List.filter_app, Hbus, Hinit.
      reflexivity. }
    match goal with
    | |- context [match env_status env ?t with _ => _ end] =>
        destruct (env_status env t) eqn:Hcall
    end; simpl.
    1: { exists ESP_OK, (mk_world (heap wl)
                  ((trace wl ++ [EvLog LOG_D "send init commands success" []])
                   ++ [EvPanelCall (fn_dpi op)])),
           (init_prologue_events (init_id env st7701 w) st7701 ++ evsl
            ++ [EvLog LOG_D "send init commands success" [];
                EvPanelCall (fn_dpi op)]), sl.
         simpl. split; [reflexivity|]. split; [exact Hhl|].
         split; [rewrite Htl; unfold init_prologue_events, init_id;
                 norm_trace; reflexivity|].
         split; [exact Hcfgl|]. split; [exact Hbytesl|].
         split; [by exists (init_active_cmds st7701)|]. auto. }
    all: assert (Hfull' : bus_events
              (init_prologue_events (init_id env st7701 w) st7701 ++ evsl
               ++ [EvLog LOG_D "send init commands success" [];
                   EvPanelCall (fn_dpi op);
                   EvLog LOG_E "init MIPI DPI panel failed" []])
              = init_bus st7701)
      by (rewrite <- Hfull; unfold bus_events; rewrite !List.filter_app;
          reflexivity).
    all: eexists _, _,
           (init_prologue_events (init_id env st7701 w) st7701 ++ evsl
            ++ [EvLog LOG_D "send init commands success" [];
                EvPanelCall (fn_dpi op);
                EvLog LOG_E "init MIPI DPI panel failed" []]), sl;
      (split; [reflexivity|]); (split; [exact Hhl|]);
      (split; [simpl; rewrite Htl; unfold init_prologue_events, init_id;
               norm_trace; reflexivity|]);
      (split; [exact Hcfgl|]); (split; [exact Hbytesl|]);
      (split; [by exists (init_active_cmds st7701)|]);
      (split;
        [rewrite Hfull'; reflexivity
        |exists (init_prologue_events (init_id env st7701 w) st7701 ++ evsl
                 ++ [EvLog LOG_D "send init commands success" []]),
                (EvPanelCall (fn_dpi op)), "init MIPI DPI panel failed";
         (split; [by rewrite <- !app_assoc|]); (split; [reflexivity|]);
         rewrite <- Hcall, Htl; unfold init_prologue_events, init_id;
         norm_trace; reflexivity]).
  - destruct Ho
      as (Hne & pre & c & post & evs0 & Hcmds & Hbus0 & -> & -> & Hregs).
    exists (env_status env
              ((trace w ++ init_prologue_events (init_id env st7701 w) st7701)
               ++ evs0 ++ [EvTxParam (io st7701) (cmd c) (data c) (data_bytes c)])),
           wl,
           (init_prologue_events (init_id env st7701 w) st7701 ++ evs0
            ++ [EvTxParam (io st7701) (cmd c) (data c) (data_bytes c);
                EvLog LOG_E "send command failed" []]), sl.
    unfold init_prologue_events, init_id in *. simpl in *.
    revert Hne Htl. norm_trace. intros Hne Htl.
    split; [reflexivity|]. split; [exact Hhl|].
    split; [rewrite Htl; norm_trace; reflexivity|].
    split; [exact Hcfgl|]. split; [exact Hbytesl|].
    split.
    { exists (pre ++ [c]). split; [|exact Hregs].
      exists post. rewrite Hcmds. by rewrite <- app_assoc. }
    assert (Hpre : bus_events
              (EvRxParam (io st7701) 4 3
               :: EvLog LOG_I "LCD ID: %02X %02X %02X"
                    (take 3 (env_rx_bytes env (trace w ++ [EvRxParam (io st7701) 4 3])))
               :: EvTxParam (io st7701) ST7701_CMD_CND2BKxSEL
                    (uint8_array [ST7701_CMD_BKxSEL_BYTE0; ST7701_CMD_BKxSEL_BYTE1;
                                  ST7701_CMD_BKxSEL_BYTE2; ST7701_CMD_BKxSEL_BYTE3; 0]) 5
               :: EvTxParam (io st7701) LCD_CMD_MADCTL [madctl_val st7701] 1
               :: EvTxParam (io st7701) LCD_CMD_COLMOD [colmod_val st7701] 1
               :: EvLog LOG_I " st7701->madctl_val: 0x%x, st7701->colmod_val: 0x%x"
                    [madctl_val st7701; colmod_val st7701]
               :: evs0 ++ [EvTxParam (io st7701) (cmd c) (data c) (data_bytes c);
                           EvLog LOG_E "send command failed" []])
            `prefix_of` init_bus st7701).
    { unfold init_bus, bus_events in *. simpl.
      rewrite List.filter_app, Hbus0, Hcmds, flat_map_app. simpl.
      exists (EvDelay (delay_ms c)
              :: flat_map (entry_events (io st7701)) post
                 ++ [EvPanelCall (init st7701)]).
      simpl. rewrite <- ?app_assoc. simpl. reflexivity. }
    assert (Hat : exists evs1 e msg,
              EvRxParam (io st7701) 4 3
               :: EvLog LOG_I "LCD ID: %02X %02X %02X"
                    (take 3 (env_rx_bytes env (trace w ++ [EvRxParam (io st7701) 4 3])))
               :: EvTxParam (io st7701) ST7701_CMD_CND2BKxSEL
                    (uint8_array [ST7701_CMD_BKxSEL_BYTE0; ST7701_CMD_BKxSEL_BYTE1;
                                  ST7701_CMD_BKxSEL_BYTE2; ST7701_CMD_BKxSEL_BYTE3; 0]) 5
               :: EvTxParam (io st7701) LCD_CMD_MADCTL [madctl_val st7701] 1
               :: EvTxParam (io st7701) LCD_CMD_COLMOD [colmod_val st7701] 1
               :: EvLog LOG_I " st7701->madctl_val: 0x%x, st7701->colmod_val: 0x%x"
                    [madctl_val st7701; colmod_val st7701]
               :: evs0 ++ [EvTxParam (io st7701) (cmd c) (data c) (data_bytes c);
                           EvLog LOG_E "send command failed" []]
              = evs1 ++ [e; EvLog LOG_E msg []] /\ is_log_event e = false /\
              env_status env
                (trace w ++ EvRxParam (io st7701) 4 3
                 :: EvLog LOG_I "LCD ID: %02X %02X %02X"
                      (take 3 (env_rx_bytes env (trace w ++ [EvRxParam (io st7701) 4 3])))
                 :: EvTxParam (io st7701) ST7701_CMD_CND2BKxSEL
                      (uint8_array [ST7701_CMD_BKxSEL_BYTE0; ST7701_CMD_BKxSEL_BYTE1;
                                    ST7701_CMD_BKxSEL_BYTE2; ST7701_CMD_BKxSEL_BYTE3; 0]) 5
                 :: EvTxParam (io st7701) LCD_CMD_MADCTL [madctl_val st7701] 1
                 :: EvTxParam (io st7701) LCD_CMD_COLMOD [colmod_val st7701] 1
                 :: EvLog LOG_I " st7701->madctl_val: 0x%x, st7701->colmod_val: 0x%x"
                      [madctl_val st7701; colmod_val st7701]
                 :: evs0 ++ [EvTxParam (io st7701) (cmd c) (data c) (data_bytes c)])
              = env_status env (trace w ++ evs1 ++ [e])).
    { eexists (_ :: _ :: _ :: _ :: _ :: _ :: evs0), _, _. simpl.
      split; [reflexivity|]. split; reflexivity. }
    unfold uint8_array in Hat. simpl in Hat.
    revert Hne Hpre Hat.
    match goal with |- ?x <> ESP_OK -> _ => generalize x end.
    intros r Hne Hpre Hat.
    destruct r; [contradiction|..]; (split; [exact Hpre|exact Hat]).
Qed.

End InitRuns.

Section Invariants.

Context {hdr : Headers}.
Variable env : Env.

Lemma same_config_active_cmds (s s' : st7701_panel_t) :
  same_config s s' -> init_active_cmds s' = init_active_cmds s.
Proof.
  intros (_ & _ & Hc & Hn & _). unfold init_active_cmds. by rewrite Hc, Hn.
Qed.

(** A step that leaves the heap alone is a step that stores the state it
    found. *)
Lemma kept_heap_step (l : loc) (s : st7701_panel_t) (w w' : World)
    (evs : list event) :
  heap w !! l = Some s -> heap w' = heap w -> trace w' = trace w ++ evs ->
  heap w' = <[l := s]> (heap w) /\ trace w' = trace w ++ evs /\
  same_config s s /\ (regs_are_bytes s -> regs_are_bytes s).
Proof.
  intros Hl Hh Ht. rewrite insert_id by done.
  auto using same_config_refl.
Qed.

(** One call on the handle of a live panel: it returns, the block is
    still live, and only the two register values may have changed. *)
Lemma run_call_step (panel : esp_lcd_panel_t) (l : loc) (op : panel_op)
    (c : panel_call) (s : st7701_panel_t) (w : World) :
  user_data panel = Some l ->
  heap w !! l = Some s ->
  init s = fn_dpi op ->
  Forall init_cmd_wf (init_active_cmds s) ->
  exists r w' evs s',
    run_call env panel c w = Some (Normal r, w') /\
    heap w' = <[l := s']> (heap w) /\ trace w' = trace w ++ evs /\
    same_config s s' /\ (regs_are_bytes s -> regs_are_bytes s').
Proof.
  intros Hud Hl Hinit Hwf. destruct c as [| |b|x y|b|b]; simpl.
  - unfold panel_st7701_reset. unfold_m. rewrite Hud. simpl. rewrite Hl. simpl.
    destruct (0 <=? reset_gpio_num s); simpl.
    { eexists _, _, _, s. split; [reflexivity|].
      apply kept_heap_step; [done|done|]. simpl. norm_trace. reflexivity. }
    unfold is_null. destruct (io s =? NULL); simpl.
    { exists ESP_OK, w, [], s. split; [reflexivity|].
      apply kept_heap_step; [done|done|]. by rewrite app_nil_r. }
    destruct (env_status env _); simpl;
      (eexists _, _, _, s; split; [reflexivity|];
       apply kept_heap_step; [done|done|]; simpl; norm_trace; reflexivity).
  - destruct (init_run env panel l s op w Hud Hl Hwf Hinit)
      as (r & w' & evs & s' & Hrun & Hh & Ht & Hcfg & Hbytes & _).
    exists r, w', evs, s'. auto.
  - unfold panel_st7701_invert_color. unfold_m. rewrite Hud. simpl.
    rewrite Hl. simpl.
    destruct (env_status env _); simpl;
      (eexists _, _, _, s; split; [reflexivity|];
       apply kept_heap_step; [done|done|]; simpl; norm_trace; reflexivity).
  - destruct (Z.eq_dec (io s) NULL) as [Hio|Hio].
    + rewrite (mirror_run_null env panel l s x y w Hud Hl Hio).
      eexists _, _, _, s. split; [reflexivity|].
      apply kept_heap_step; [done|done|]. reflexivity.
    + rewrite (mirror_run env panel l s x y w Hud Hl Hio).
      eexists _, _, _, _. split; [reflexivity|]. simpl.
      split; [reflexivity|]. split; [reflexivity|].
      split; [unfold same_config; simpl; auto 10|].
      intros [_ Hcol]. split; [apply to_uint8_range|exact Hcol].
  - unfold panel_st7701_disp_on_off. unfold_m. rewrite Hud. simpl.
    rewrite Hl. simpl.
    destruct (env_status env _); simpl;
      (eexists _, _, _, s; split; [reflexivity|];
       apply kept_heap_step; [done|done|]; simpl; norm_trace; reflexivity).
  - unfold panel_st7701_sleep. unfold_m. rewrite Hud. simpl.
    rewrite Hl. simpl.
    destruct (env_status env _); simpl;
      (eexists _, _, _, s; split; [reflexivity|];
       apply kept_heap_step; [done|done|]; simpl; norm_trace; reflexivity).
Qed.

(** Any run of calls on the handle of a live panel. *)
Lemma run_calls_inv (panel : esp_lcd_panel_t) (l : loc) (op : panel_op)
    (cs : list panel_call) :
  user_data panel = Some l ->
  forall (w : World) (s : st7701_panel_t),
    heap w !! l = Some s ->
    init s = fn_dpi op ->
    Forall init_cmd_wf (init_active_cmds s) ->
    exists w' evs s',
      run_calls env panel cs w = Some (Normal tt, w') /\
      heap w' = <[l := s']> (heap w) /\ trace w' = trace w ++ evs /\
      same_config s s' /\ (regs_are_bytes s -> regs_are_bytes s').
Proof.
  intros Hud. induction cs as [|c cs IH]; intros w s Hl Hinit Hwf.
  - exists w, [], s. simpl. split; [reflexivity|].
    apply kept_heap_step; [done|done|]. by rewrite app_nil_r.
  - destruct (run_call_step panel l op c s w Hud Hl Hinit Hwf)
      as (r & w1 & evs1 & s1 & Hrun1 & Hh1 & Ht1 & Hcfg1 & Hbytes1).
    destruct (IH w1 s1) as (w' & evs & s' & Hrun & Hh & Ht & Hcfg & Hbytes).
    { rewrite Hh1. apply lookup_insert_eq. }
    { destruct Hcfg1 as (_&_&_&_&_&_&->). exact Hinit. }
    { by rewrite (same_config_active_cmds s s1). }
    exists w', (evs1 ++ evs), s'. simpl. unfold mbind, M_bind.
    rewrite Hrun1. split; [exact Hrun|].
    split; [rewrite Hh, Hh1; apply insert_insert_eq|].
    split; [rewrite Ht, Ht1; by rewrite <- app_assoc|].
    split; [eapply same_config_trans; eassumption|auto].
Qed.

(** [panel_st7701_del] on a live panel whose saved [del] is the DPI
    panel's. *)
Lemma del_run_live (panel : esp_lcd_panel_t) (l : loc) (op : panel_op)
    (s : st7701_panel_t) (w : World) :
  user_data panel = Some l ->
  heap w !! l = Some s ->
  del s = fn_dpi op ->
  exists w',
    panel_st7701_del env panel w = Some (Normal ESP_OK, w') /\
    heap w' = delete l (heap w) /\ trace w `prefix_of` trace w'.
Proof.
  intros Hud Hl Hdel. unfold panel_st7701_del. unfold_m.
  rewrite Hud. simpl. rewrite Hl. simpl. rewrite Hdel.
  destruct (0 <=? reset_gpio_num s); simpl; rewrite Hl; simpl;
    (eexists; split; [reflexivity|]; split; [reflexivity|]);
    simpl; norm_trace; by eexists.
Qed.

End Invariants.

Section Lifecycle.

Context {hdr : Headers}.
Variable env : Env.

(** *** [panel_st7701_mirror], once more *)

Lemma mirror_madctl_absorb (y1 y2 : bool) (m : Z) :
  to_uint8 (mirror_madctl y2 (to_uint8 (mirror_madctl y1 m)))
    = to_uint8 (mirror_madctl y2 m).
Proof.
  rewrite !to_uint8_land. unfold mirror_madctl.
  destruct y1, y2; apply Z.bits_inj'; intros i Hi;
    repeat first [rewrite Z.land_spec | rewrite Z.lor_spec
                 | rewrite Z.lnot_spec by lia];
    destruct (Z.testbit m i), (Z.testbit LCD_CMD_ML_BIT i),
      (Z.testbit (Z.ones 8) i); reflexivity.
Qed.

Lemma mirror_madctl_other_bits (y : bool) (m i : Z) :
  0 <= m < 256 -> 0 <= i -> Z.testbit LCD_CMD_ML_BIT i = false ->
  Z.testbit (to_uint8 (mirror_madctl y m)) i = Z.testbit m i.
Proof.
  intros Hm Hi Hml. rewrite to_uint8_land. unfold mirror_madctl.
  destruct y;
    repeat first [rewrite Z.land_spec | rewrite Z.lor_spec
                 | rewrite Z.lnot_spec by lia];
    rewrite Hml; simpl; rewrite ?orb_false_r, ?andb_true_r;
    (rewrite ones8_testbit by lia; case_bool_decide;
     [apply andb_true_r|rewrite andb_false_r; symmetry;
                        apply byte_mask_high_bits; lia]).
Qed.

(** X7.  After any run of mirror calls on a panel with a transport, the
    driver state is the one a single call with the last pair of flags
    would have left: the saved orientation does not depend on the earlier
    calls, nor on what the transport answered to any of them. *)
Theorem mirror_last_call_wins (panel : esp_lcd_panel_t) (l : loc)
    (args : list (bool * bool)) (mirror_x mirror_y : bool) :
  user_data panel = Some l ->
  forall (w : World) (st7701 : st7701_panel_t),
    heap w !! l = Some st7701 ->
    io st7701 <> NULL ->
    exists w',
      mirror_calls env panel (args ++ [(mirror_x, mirror_y)]) w
        = Some (Normal tt, w') /\
      heap w'
        = <[l := set_madctl_val (mirror_madctl mirror_y (madctl_val st7701))
                                st7701]> (heap w).
Proof.
  intros Hud. induction args as [|[x1 y1] args IH]; intros w s Hl Hio; simpl;
    unfold mbind, M_bind; rewrite (mirror_run env panel l s _ _ w Hud Hl Hio).
  - eexists. split; reflexivity.
  - edestruct IH as (w' & Hrun & Hh);
      [| |exists w'; split; [exact Hrun|rewrite Hh]].
    + simpl. apply lookup_insert_eq.
    + exact Hio.
    + simpl. rewrite insert_insert_eq. f_equal.
      unfold set_madctl_val. simpl. by rewrite mirror_madctl_absorb.
Qed.

(** X8.  One mirror call on a panel with a transport changes nothing in the
    driver state but the vertical-mirror bit of [madctl_val]: every bit of
    the saved byte that is not in [LCD_CMD_ML_BIT] keeps its value, and so
    do [colmod_val] and the fields set at construction, whatever the
    transport answers. *)
Theorem mirror_changes_only_ml_bit (panel : esp_lcd_panel_t) (l : loc)
    (st7701 : st7701_panel_t) (mirror_x mirror_y : bool) (w : World) :
  user_data panel = Some l ->
  heap w !! l = Some st7701 ->
  io st7701 <> NULL ->
  0 <= madctl_val st7701 < 256 ->
  exists r w' st7701',
    panel_st7701_mirror env panel mirror_x mirror_y w = Some (Normal r, w') /\
    heap w' = <[l := st7701']> (heap w) /\
    same_config st7701 st7701' /\
    colmod_val st7701' = colmod_val st7701 /\
    forall i, 0 <= i -> Z.testbit LCD_CMD_ML_BIT i = false ->
      Z.testbit (madctl_val st7701') i = Z.testbit (madctl_val st7701) i.
Proof.
  intros Hud Hl Hio Hm.
  rewrite (mirror_run env panel l st7701 _ _ w Hud Hl Hio).
  eexists _, _, _. split; [reflexivity|]. simpl. split; [reflexivity|].
  split; [unfold same_config; simpl; auto 10|]. split; [reflexivity|].
  intros i Hi Hml. by apply mirror_madctl_other_bits.
Qed.

(** *** [panel_st7701_init], as a whole *)

Lemma replay_regs_no_override
    (cmds : list esp_panel_lcd_vendor_init_cmd_t) :
  Forall (fun c => ~ targets_madctl_or_colmod c) cmds ->
  forall flag regs, replay_regs cmds flag regs = regs.
Proof.
  induction 1 as [|c cmds Hc _ IH]; intros flag regs; [reflexivity|].
  simpl. rewrite IH. unfold override_regs.
  destruct (flag && _); [|reflexivity].
  destruct (data c !! 0%nat); [|reflexivity].
  destruct (Z.eqb_spec (cmd c) LCD_CMD_MADCTL) as [Hm|_];
    [destruct Hc; by left|].
  destruct (Z.eqb_spec (cmd c) LCD_CMD_COLMOD) as [Hm|_];
    [destruct Hc; by right|reflexivity].
Qed.

Lemma same_config_regs_eq (s s' : st7701_panel_t) :
  same_config s s' ->
  (madctl_val s', colmod_val s') = (madctl_val s, colmod_val s) -> s' = s.
Proof.
  destruct s, s'. unfold same_config. simpl.
  intros (-> & -> & -> & -> & -> & -> & ->) [= -> ->]. reflexivity.
Qed.

(** X9.  [panel_st7701_init] on a live panel whose table can be read
    returns; what it puts on the bus is, in this order, the identifier
    read, the page-select write, the orientation and pixel-format writes
    carrying the saved register values, every entry of the active table
    followed by its delay, and last the call of the saved [init] of the DPI
    panel.  A run that returns [ESP_OK] has put all of it on the bus; any
    other run has put a prefix of it, ending with the call that was
    rejected, whose status is the one returned, followed by one error
    line. *)
Theorem init_runs_in_order (panel : esp_lcd_panel_t) (l : loc)
    (st7701 : st7701_panel_t) (op : panel_op) (w : World) :
  user_data panel = Some l ->
  heap w !! l = Some st7701 ->
  init_table_ok st7701 ->
  init st7701 = fn_dpi op ->
  exists r w' evs,
    panel_st7701_init env panel w = Some (Normal r, w') /\
    trace w' = trace w ++ evs /\
    match r with
    | ESP_OK => bus_events evs = init_bus st7701
    | _ => bus_events evs `prefix_of` init_bus st7701 /\
           failed_at env (trace w) evs r
    end.
Proof.
  intros Hud Hl [_ Hwf] Hinit.
  destruct (init_run env panel l st7701 op w Hud Hl Hwf Hinit)
    as (r & w' & evs & s' & Hrun & _ & Ht & _ & _ & _ & Hr).
  exists r, w', evs. split; [exact Hrun|]. split; [exact Ht|].
  destruct r; tauto.
Qed.

(** X10.  The registers [panel_st7701_init] leaves are those of a replay of
    the overrides over a prefix of the active table, the whole table when
    it returns [ESP_OK]; so with a table none of whose entries names the
    orientation or the pixel-format register, it leaves the whole heap as
    it found it, whatever the transport and the DPI panel answer. *)
Theorem init_without_overrides_keeps_state (panel : esp_lcd_panel_t)
    (l : loc) (st7701 : st7701_panel_t) (op : panel_op) (w : World) :
  user_data panel = Some l ->
  heap w !! l = Some st7701 ->
  init_table_ok st7701 ->
  init st7701 = fn_dpi op ->
  exists r w' st7701',
    panel_st7701_init env panel w = Some (Normal r, w') /\
    heap w' = <[l := st7701']> (heap w) /\
    same_config st7701 st7701' /\
    (match r with
     | ESP_OK =>
         (madctl_val st7701', colmod_val st7701')
           = replay_regs (init_active_cmds st7701) true
               (madctl_val st7701, colmod_val st7701)
     | _ => True
     end) /\
    (Forall (fun c => ~ targets_madctl_or_colmod c) (init_active_cmds st7701) ->
     heap w' = heap w).
Proof.
  intros Hud Hl [_ Hwf] Hinit.
  destruct (init_run env panel l st7701 op w Hud Hl Hwf Hinit)
    as (r & w' & evs & s' & Hrun & Hh & _ & Hcfg & _ & (pre & Hpre & Hregs) & Hr).
  exists r, w', s'. split; [exact Hrun|]. split; [exact Hh|].
  split; [exact Hcfg|]. split; [destruct r; tauto|].
  intros Hno. rewrite Hh.
  assert (Hno' : Forall (fun c => ~ targets_madctl_or_colmod c) pre).
  { destruct Hpre as [k Hk]. rewrite Hk in Hno.
    by apply Forall_app in Hno as [? _]. }
  rewrite (replay_regs_no_override pre Hno') in Hregs.
  rewrite (same_config_regs_eq _ _ Hcfg Hregs). by apply insert_id.
Qed.

(** With the opcodes of the controller's data sheet, no entry of the
    built-in table names the orientation or the pixel-format register. *)
Lemma default_table_no_override :
  LCD_CMD_MADCTL = 0x36 -> LCD_CMD_COLMOD = 0x3A ->
  Forall (fun c => ~ targets_madctl_or_colmod c) vendor_specific_init_default.
Proof.
  intros Hm Hc. unfold targets_madctl_or_colmod. rewrite Hm, Hc.
  unfold vendor_specific_init_default.
  repeat (apply Forall_cons; split; [simpl; intros [?|?]; discriminate|]).
  apply Forall_nil_2.
Qed.

(** *** The life of a panel *)

(** X11.  On a live panel whose table can be read, whatever calls are
    made on the handle, in whatever order and with whatever answers from
    the environment, every call returns, the block stays allocated, no
    other block of the heap is touched, the fields set at construction keep
    their values, and the two saved registers still fit a byte. *)
Theorem calls_keep_panel_configured (panel : esp_lcd_panel_t) (l : loc)
    (op : panel_op) (cs : list panel_call) (w : World)
    (st7701 : st7701_panel_t) :
  user_data panel = Some l ->
  heap w !! l = Some st7701 ->
  init st7701 = fn_dpi op ->
  init_table_ok st7701 ->
  exists w' st7701',
    run_calls env panel cs w = Some (Normal tt, w') /\
    heap w' = <[l := st7701']> (heap w) /\
    trace w `prefix_of` trace w' /\
    same_config st7701 st7701' /\
    (regs_are_bytes st7701 -> regs_are_bytes st7701').
Proof.
  intros Hud Hl Hinit [_ Hwf].
  destruct (run_calls_inv env panel l op cs Hud w st7701 Hl Hinit Hwf)
    as (w' & evs & s' & Hrun & Hh & Ht & Hcfg & Hbytes).
  exists w', s'. split; [exact Hrun|]. split; [exact Hh|].
  split; [by exists evs|]. auto.
Qed.

(** The block a successful construction leaves, in the words of
    [constructed_state]. *)
Lemma new_panel_ok_state (io_h : Z) (cfg : esp_lcd_panel_dev_config_t)
    (vc : esp_panel_lcd_vendor_config_t) (ret_panel : Z) (w w1 : World)
    (panel : esp_lcd_panel_t) :
  dev_vendor_config cfg = Some vc ->
  esp_lcd_new_panel_st7701_mipi env io_h (Some cfg) ret_panel w
    = Some (Normal (ESP_OK, Some panel), w1) ->
  let l := fresh (dom (heap w)) in
  panel = st7701_panel_handle l /\ heap w !! l = None /\
  heap w1 = <[l := constructed_state io_h cfg vc]> (heap w) /\
  trace w `prefix_of` trace w1.
Proof.
  intros Hvc Hnew l.
  destruct (new_panel_ok_inv env io_h (Some cfg) ret_panel w w1 _ Hnew)
    as (cfg' & vc' & madctl & colmod & Hcfg & Hvc' & _ & Hout & Hheap
        & Htrace & Hmad & Hcol).
  injection Hcfg as <-. rewrite Hvc in Hvc'. injection Hvc' as <-.
  injection Hout as ->.
  split; [reflexivity|]. split; [apply not_elem_of_dom, is_fresh|].
  split; [|exact Htrace].
  rewrite Hheap. f_equal. unfold constructed_state, initial_madctl,
    initial_colmod.
  assert (Hm : madctl = if dev_color_space cfg =? LCD_RGB_ELEMENT_ORDER_RGB
                        then 0 else to_uint8 LCD_CMD_BGR_BIT).
  { destruct Hmad as [[Heq ->]|(Hne & _ & ->)].
    - by rewrite Heq, Z.eqb_refl.
    - by destruct (Z.eqb_spec (dev_color_space cfg) LCD_RGB_ELEMENT_ORDER_RGB). }
  assert (Hc : colmod = if dev_bits_per_pixel cfg =? 16 then 0x55
                        else if dev_bits_per_pixel cfg =? 18 then 0x66
                        else 0x77).
  { destruct Hcol as [[-> ->]|[[-> ->]|[-> ->]]]; reflexivity. }
  by rewrite <- Hm, <- Hc.
Qed.

(** X12.  Construct, use, delete: after a successful construction, any
    run of calls on the handle followed by [del] returns [ESP_OK] and
    leaves the heap of driver states exactly as it was before the
    construction: the block is freed, and nothing else was allocated or
    freed on the way. *)
Theorem construct_use_delete_restores_heap (io_h : Z)
    (cfg : esp_lcd_panel_dev_config_t) (vc : esp_panel_lcd_vendor_config_t)
    (ret_panel : Z) (w w1 : World) (panel : esp_lcd_panel_t)
    (cs : list panel_call) :
  dev_vendor_config cfg = Some vc ->
  init_table_ok (constructed_state io_h cfg vc) ->
  esp_lcd_new_panel_st7701_mipi env io_h (Some cfg) ret_panel w
    = Some (Normal (ESP_OK, Some panel), w1) ->
  exists w2 w3,
    run_calls env panel cs w1 = Some (Normal tt, w2) /\
    panel_st7701_del env panel w2 = Some (Normal ESP_OK, w3) /\
    heap w3 = heap w /\
    trace w `prefix_of` trace w3.
Proof.
  intros Hvc [_ Hwf] Hnew.
  destruct (new_panel_ok_state io_h cfg vc ret_panel w w1 panel Hvc Hnew)
    as (-> & Hfresh & Hh1 & Ht1).
  set (l := fresh (dom (heap w))) in *.
  destruct (run_calls_inv env (st7701_panel_handle l) l op_init cs eq_refl w1
              (constructed_state io_h cfg vc))
    as (w2 & evs & s2 & Hrun & Hh2 & Ht2 & Hcfg2 & _);
    [rewrite Hh1; apply lookup_insert_eq|reflexivity|exact Hwf|].
  destruct (del_run_live env (st7701_panel_handle l) l op_del s2 w2)
    as (w3 & Hdel & Hh3 & Ht3);
    [reflexivity|rewrite Hh2; apply lookup_insert_eq
    |by destruct Hcfg2 as (_&_&_&_&_&->&_)|].
  exists w2, w3. split; [exact Hrun|]. split; [exact Hdel|]. split.
  - rewrite Hh3, Hh2, Hh1, insert_insert_eq. by apply delete_insert_id.
  - etrans; [exact Ht1|]. etrans; [|exact Ht3]. rewrite Ht2. by eexists.
Qed.

(** X13.  What is chosen at construction is what [init] sends: on a panel
    constructed without a caller's table, with the opcodes of the data
    sheet, [panel_st7701_init] returns, leaves the heap as the constructor
    left it, and a run that returns [ESP_OK] has sent the orientation byte
    computed from the colour order and the pixel-format byte computed from
    the pixel width, then the forty entries of the built-in table and the
    [init] of the DPI panel. *)
Theorem init_after_construction (io_h : Z)
    (cfg : esp_lcd_panel_dev_config_t) (vc : esp_panel_lcd_vendor_config_t)
    (ret_panel : Z) (w w1 : World) (panel : esp_lcd_panel_t) :
  LCD_CMD_MADCTL = 0x36 -> LCD_CMD_COLMOD = 0x3A ->
  dev_vendor_config cfg = Some vc ->
  vc_init_cmds vc = None ->
  esp_lcd_new_panel_st7701_mipi env io_h (Some cfg) ret_panel w
    = Some (Normal (ESP_OK, Some panel), w1) ->
  exists r w2 evs,
    panel_st7701_init env panel w1 = Some (Normal r, w2) /\
    heap w2 = heap w1 /\ trace w2 = trace w1 ++ evs /\
    (r = ESP_OK ->
     bus_events evs
       = [EvRxParam io_h 0x04 3;
          EvTxParam io_h ST7701_CMD_CND2BKxSEL
            (uint8_array [ST7701_CMD_BKxSEL_BYTE0; ST7701_CMD_BKxSEL_BYTE1;
                          ST7701_CMD_BKxSEL_BYTE2; ST7701_CMD_BKxSEL_BYTE3;
                          0x00]) 5;
          EvTxParam io_h LCD_CMD_MADCTL
            [initial_madctl (dev_color_space cfg)] 1;
          EvTxParam io_h LCD_CMD_COLMOD
            [initial_colmod (dev_bits_per_pixel cfg)] 1]
         ++ flat_map (entry_events io_h) vendor_specific_init_default
         ++ [EvPanelCall (fn_dpi op_init)]).
Proof.
  intros Hmad Hcol Hvc Hnone Hnew.
  destruct (new_panel_ok_state io_h cfg vc ret_panel w w1 panel Hvc Hnew)
    as (-> & _ & Hh1 & _).
  set (l := fresh (dom (heap w))) in *.
  assert (Hactive : init_active_cmds (constructed_state io_h cfg vc)
                    = vendor_specific_init_default)
    by (unfold init_active_cmds, constructed_state; simpl; by rewrite Hnone).
  assert (Hl : heap w1 !! l = Some (constructed_state io_h cfg vc))
    by (rewrite Hh1; apply lookup_insert_eq).
  destruct (init_run env (st7701_panel_handle l) l
              (constructed_state io_h cfg vc) op_init w1 eq_refl Hl)
    as (r & w2 & evs & s2 & Hrun & Hh & Ht & Hcfg & _
        & (pre & Hpre & Hregs) & Hr);
    [rewrite Hactive; apply default_table_wf|reflexivity|].
  exists r, w2, evs. split; [exact Hrun|]. split; [|split; [exact Ht|]].
  - assert (Hno : Forall (fun c => ~ targets_madctl_or_colmod c) pre).
    { destruct Hpre as [k Hk]. rewrite Hactive in Hk.
      pose proof (default_table_no_override Hmad Hcol) as Hall.
      rewrite Hk in Hall. by apply Forall_app in Hall as [? _]. }
    rewrite (replay_regs_no_override pre Hno) in Hregs.
    rewrite Hh, (same_config_regs_eq _ _ Hcfg Hregs). by apply insert_id.
  - intros ->. destruct Hr as [Hbus _]. rewrite Hbus.
    unfold init_bus. rewrite Hactive. reflexivity.
Qed.

End Lifecycle.

(** ** Concrete runs of the further properties *)

(** X1, witness: sleep-in over a working transport. *)
Lemma sleep_sends_one_command_then_waits_witness :
  exists r evs,
    @panel_st7701_sleep esp_idf_headers env_ok panel_1 true (world_with st_soft)
      = Some (Normal r, mk_world (heap (world_with st_soft))
                                 (trace (world_with st_soft) ++ evs)) /\
    bus_events evs
      = EvTxParam 0x1000 0x10 [] 0
        :: match r with ESP_OK => [EvDelay 100] | _ => [] end.
Proof.
  destruct (@sleep_sends_one_command_then_waits esp_idf_headers env_ok panel_1
              1%positive st_soft true (world_with st_soft) eq_refl eq_refl)
    as (r & evs & Hrun & Hbus & _).
  exists r, evs. split; [exact Hrun|exact Hbus].
Defined.

(** X2, witness: inversion on and display on, over a transport that
    rejects every write. *)
Lemma invert_and_on_off_send_one_command_witness :
  (exists evs,
     @panel_st7701_invert_color esp_idf_headers env_tx_fails panel_1 true
       (world_with st_soft)
       = Some (Normal ESP_FAIL, mk_world (heap (world_with st_soft))
                                         (trace (world_with st_soft) ++ evs)) /\
     bus_events evs = [EvTxParam 0x1000 0x21 [] 0]) /\
  (exists evs,
     @panel_st7701_disp_on_off esp_idf_headers env_tx_fails panel_1 true
       (world_with st_soft)
       = Some (Normal ESP_FAIL, mk_world (heap (world_with st_soft))
                                         (trace (world_with st_soft) ++ evs)) /\
     bus_events evs = [EvTxParam 0x1000 0x29 [] 0]).
Proof.
  exact (@invert_and_on_off_send_one_command esp_idf_headers env_tx_fails
           panel_1 1%positive st_soft true (world_with st_soft)
           eq_refl eq_refl).
Defined.

(** X3, witness: deleting a panel with reset pin 5. *)
Lemma del_frees_and_always_succeeds_witness :
  exists evs,
    panel_st7701_del env_ok panel_1 (world_with st_pin5)
      = Some (Normal ESP_OK,
              mk_world (delete 1%positive (heap (world_with st_pin5)))
                       (trace (world_with st_pin5) ++ evs)) /\
    bus_events evs = [EvGpioResetPin 5; EvPanelCall (fn_dpi op_del)].
Proof.
  exact (del_frees_and_always_succeeds env_ok panel_1 1%positive st_pin5
           op_del (world_with st_pin5) eq_refl eq_refl eq_refl).
Defined.

(** X4, witness: a null transport handle, a configuration without vendor
    part, and an allocator without memory. *)
Lemma new_panel_fails_cleanly_before_allocation_witness :
  @esp_lcd_new_panel_st7701_mipi esp_idf_headers env_ok NULL
    (Some dev_config_rgb565) 0x2000 world_empty
    = Some (Normal (ESP_ERR_INVALID_ARG, None),
            mk_world (heap world_empty)
              (trace world_empty ++ [EvLog LOG_E "invalid argument" []])) /\
  @esp_lcd_new_panel_st7701_mipi esp_idf_headers env_ok 0x1000
    (Some dev_config_no_vendor) 0x2000 world_empty
    = Some (Normal (ESP_ERR_INVALID_ARG, None),
            mk_world (heap world_empty)
              (trace world_empty ++ [EvLog LOG_E "invalid vendor config" []])) /\
  @esp_lcd_new_panel_st7701_mipi esp_idf_headers env_calloc_fails 0x1000
    (Some dev_config_rgb565) 0x2000 world_empty
    = Some (Normal (ESP_ERR_NO_MEM, None),
            mk_world (heap world_empty)
              (trace world_empty ++ [EvLog LOG_E "no mem for st7701 panel" []])).
Proof.
  split; [|split].
  - apply (@new_panel_fails_cleanly_before_allocation esp_idf_headers env_ok
             NULL (Some dev_config_rgb565) 0x2000 world_empty).
    left. reflexivity.
  - apply (proj1 (proj2 (@new_panel_fails_cleanly_before_allocation
             esp_idf_headers env_ok 0x1000 (Some dev_config_no_vendor) 0x2000
             world_empty)) dev_config_no_vendor);
      [discriminate|discriminate|reflexivity|left; reflexivity].
  - apply (proj2 (proj2 (@new_panel_fails_cleanly_before_allocation
             esp_idf_headers env_calloc_fails 0x1000 (Some dev_config_rgb565)
             0x2000 world_empty)) dev_config_rgb565 vendor_config_default);
      [reflexivity| |reflexivity].
    unfold valid_new_panel_args.
    split; [discriminate|]. split; [discriminate|]. split; [reflexivity|].
    split; discriminate.
Defined.

(** X5, witness: construction with reset pin 5, RGB order, 16 bits per
    pixel and no caller's table. *)
Lemma new_panel_succeeds_witness :
  @esp_lcd_new_panel_st7701_mipi esp_idf_headers env_ok 0x1000
    (Some dev_config_pin5) 0x2000 world_empty
    = Some (Normal (ESP_OK, Some (st7701_panel_handle (fresh (dom (heap world_empty))))),
            mk_world
              (<[fresh (dom (heap world_empty))
                 := @constructed_state esp_idf_headers 0x1000 dev_config_pin5
                      vendor_config_default]> (heap world_empty))
              (trace world_empty
               ++ if_pin 5 [gpio_config_event 5]
               ++ [EvNewPanelDpi 0x3000 0x4000;
                   EvLog LOG_D "new MIPI DPI panel @%p" [];
                   EvLog LOG_D "new st7701 panel @%p" []])).
Proof.
  apply (@new_panel_succeeds esp_idf_headers env_ok 0x1000 dev_config_pin5
           vendor_config_default 0x2000 world_empty).
  - unfold valid_new_panel_args.
    split; [discriminate|]. split; [discriminate|]. split; [reflexivity|].
    split; discriminate.
  - reflexivity.
  - reflexivity.
  - left. reflexivity.
  - left. reflexivity.
  - reflexivity.
Defined.

(** X6, witness: the pin configuration rejected, an unknown colour order,
    an unknown pixel width, and a DPI driver without memory, each with
    reset pin 5. *)
Lemma new_panel_failure_releases_pin_witness :
  (exists w',
     @esp_lcd_new_panel_st7701_mipi esp_idf_headers env_gpio_fails 0x1000
       (Some dev_config_pin5) 0x2000 world_empty
       = Some (Normal (ESP_FAIL, None), w') /\
     trace w' = [gpio_config_event 5;
                 EvLog LOG_E "configure GPIO for RST line failed" [];
                 EvGpioResetPin 5]) /\
  (exists w',
     @esp_lcd_new_panel_st7701_mipi esp_idf_headers env_ok 0x1000
       (Some dev_config_order7) 0x2000 world_empty
       = Some (Normal (ESP_ERR_NOT_SUPPORTED, None), w') /\
     trace w' = [gpio_config_event 5;
                 EvLog LOG_E "unsupported rgb element order" [];
                 EvGpioResetPin 5]) /\
  (exists w',
     @esp_lcd_new_panel_st7701_mipi esp_idf_headers env_ok 0x1000
       (Some dev_config_17bpp) 0x2000 world_empty
       = Some (Normal (ESP_ERR_NOT_SUPPORTED, None), w') /\
     trace w' = [gpio_config_event 5;
                 EvLog LOG_E "unsupported pixel width" [];
                 EvGpioResetPin 5]) /\
  (exists w',
     @esp_lcd_new_panel_st7701_mipi esp_idf_headers env_dpi_no_mem 0x1000
       (Some dev_config_pin5) 0x2000 world_empty
       = Some (Normal (ESP_ERR_NO_MEM, None), w') /\
     trace w' = [gpio_config_event 5;
                 EvNewPanelDpi 0x3000 0x4000;
                 EvLog LOG_E "create MIPI DPI panel failed" [];
                 EvGpioResetPin 5]).
Proof.
  assert (Hargs : forall cfg, dev_vendor_config cfg = Some vendor_config_default ->
            valid_new_panel_args 0x1000 cfg vendor_config_default 0x2000).
  { intros cfg Hvc. unfold valid_new_panel_args.
    split; [discriminate|]. split; [discriminate|]. split; [exact Hvc|].
    split; discriminate. }
  split; [|split; [|split]].
  - apply (proj1 (@new_panel_failure_releases_pin esp_idf_headers
             env_gpio_fails 0x1000 dev_config_pin5 vendor_config_default
             0x2000 world_empty (Hargs dev_config_pin5 eq_refl) eq_refl));
      [discriminate|discriminate].
  - apply (proj1 (proj2 (@new_panel_failure_releases_pin esp_idf_headers
             env_ok 0x1000 dev_config_order7 vendor_config_default
             0x2000 world_empty (Hargs dev_config_order7 eq_refl) eq_refl)));
      [reflexivity|discriminate|discriminate].
  - apply (proj1 (proj2 (proj2 (@new_panel_failure_releases_pin
             esp_idf_headers env_ok 0x1000 dev_config_17bpp
             vendor_config_default 0x2000 world_empty
             (Hargs dev_config_17bpp eq_refl) eq_refl))));
      [reflexivity|left; reflexivity|discriminate|discriminate|discriminate].
  - apply (proj2 (proj2 (proj2 (@new_panel_failure_releases_pin
             esp_idf_headers env_dpi_no_mem 0x1000 dev_config_pin5
             vendor_config_default 0x2000 world_empty
             (Hargs dev_config_pin5 eq_refl) eq_refl))));
      [reflexivity|left; reflexivity|left; reflexivity|discriminate].
Defined.

(** X7, witness: three mirror calls over a transport that rejects every
    write. *)
Lemma mirror_last_call_wins_witness :
  exists w',
    @mirror_calls esp_idf_headers env_tx_fails panel_1
      ([(true, true); (false, true)] ++ [(true, false)]) (world_with st_soft)
      = Some (Normal tt, w') /\
    heap w'
      = <[1%positive := set_madctl_val
                          (@mirror_madctl esp_idf_headers false
                             (madctl_val st_soft)) st_soft]>
          (heap (world_with st_soft)).
Proof.
  apply (@mirror_last_call_wins esp_idf_headers env_tx_fails panel_1
           1%positive [(true, true); (false, true)] true false eq_refl
           (world_with st_soft) st_soft eq_refl).
  discriminate.
Defined.

(** X8, witness: [mirror(false, true)] on a panel whose saved orientation
    has the BGR bit. *)
Lemma mirror_changes_only_ml_bit_witness :
  exists r w' st7701',
    @panel_st7701_mirror esp_idf_headers env_ok panel_1 false true
      (world_with (set_madctl_val 8 st_soft)) = Some (Normal r, w') /\
    heap w' = <[1%positive := st7701']>
                (heap (world_with (set_madctl_val 8 st_soft))) /\
    Z.testbit (madctl_val st7701') 3 = true.
Proof.
  destruct (@mirror_changes_only_ml_bit esp_idf_headers env_ok panel_1
              1%positive (set_madctl_val 8 st_soft) false true
              (world_with (set_madctl_val 8 st_soft)) eq_refl eq_refl)
    as (r & w' & s' & Hrun & Hh & _ & _ & Hbits).
  - discriminate.
  - split; by vm_compute.
  - exists r, w', s'. split; [exact Hrun|]. split; [exact Hh|].
    rewrite (Hbits 3); [reflexivity|lia|reflexivity].
Defined.

(** X9, witness: initialisation with the built-in table over a transport
    that rejects every write. *)
Lemma init_runs_in_order_witness :
  exists r w' evs,
    @panel_st7701_init esp_idf_headers env_tx_fails panel_1 (world_with st_soft)
      = Some (Normal r, w') /\
    trace w' = trace (world_with st_soft) ++ evs /\
    match r with
    | ESP_OK => bus_events evs = @init_bus esp_idf_headers st_soft
    | _ => bus_events evs `prefix_of` @init_bus esp_idf_headers st_soft /\
           failed_at env_tx_fails (trace (world_with st_soft)) evs r
    end.
Proof.
  apply (@init_runs_in_order esp_idf_headers env_tx_fails panel_1 1%positive
           st_soft op_init (world_with st_soft) eq_refl eq_refl).
  - split; [exact I|exact default_table_wf].
  - reflexivity.
Defined.

(** X10, witness: initialisation with the built-in table. *)
Lemma init_without_overrides_keeps_state_witness :
  exists r w',
    @panel_st7701_init esp_idf_headers env_ok panel_1 (world_with st_soft)
      = Some (Normal r, w') /\
    heap w' = heap (world_with st_soft).
Proof.
  destruct (@init_without_overrides_keeps_state esp_idf_headers env_ok panel_1
              1%positive st_soft op_init (world_with st_soft) eq_refl eq_refl)
    as (r & w' & s' & Hrun & _ & _ & _ & Hkeep).
  - split; [exact I|exact default_table_wf].
  - reflexivity.
  - exists r, w'. split; [exact Hrun|]. apply Hkeep.
    exact (@default_table_no_override esp_idf_headers eq_refl eq_refl).
Defined.

(** X11, witness: every operation once, over a transport that rejects
    every write. *)
Lemma calls_keep_panel_configured_witness :
  exists w' st7701',
    @run_calls esp_idf_headers env_tx_fails panel_1 calls_all
      (world_with st_soft) = Some (Normal tt, w') /\
    heap w' = <[1%positive := st7701']> (heap (world_with st_soft)) /\
    same_config st_soft st7701' /\ regs_are_bytes st7701'.
Proof.
  destruct (@calls_keep_panel_configured esp_idf_headers env_tx_fails panel_1
              1%positive op_init calls_all (world_with st_soft) st_soft
              eq_refl eq_refl eq_refl)
    as (w' & s' & Hrun & Hh & _ & Hcfg & Hbytes).
  - split; [exact I|exact default_table_wf].
  - exists w', s'. split; [exact Hrun|]. split; [exact Hh|].
    split; [exact Hcfg|]. apply Hbytes. split; by vm_compute.
Defined.

(** X12, witness: construct on an empty heap, use every operation, delete. *)
Lemma construct_use_delete_restores_heap_witness :
  exists w1 w2 w3,
    @esp_lcd_new_panel_st7701_mipi esp_idf_headers env_ok 0x1000
      (Some dev_config_rgb565) 0x2000 world_empty
      = Some (Normal (ESP_OK, Some panel_1), w1) /\
    @run_calls esp_idf_headers env_ok panel_1 calls_all w1
      = Some (Normal tt, w2) /\
    panel_st7701_del env_ok panel_1 w2 = Some (Normal ESP_OK, w3) /\
    heap w3 = heap world_empty.
Proof.
  destruct construct_rgb565_run as [w1 Hnew]. exists w1.
  destruct (@construct_use_delete_restores_heap esp_idf_headers env_ok 0x1000
              dev_config_rgb565 vendor_config_default 0x2000 world_empty w1
              panel_1 calls_all eq_refl
              (conj I default_table_wf) Hnew)
    as (w2 & w3 & Hrun & Hdel & Hh & _).
  exists w2, w3. auto.
Defined.

(** X13, witness: BGR order and 16 bits per pixel. *)
Lemma init_after_construction_witness :
  exists w1 r w2 evs,
    @esp_lcd_new_panel_st7701_mipi esp_idf_headers env_ok 0x1000
      (Some dev_config_bgr565) 0x2000 world_empty
      = Some (Normal (ESP_OK, Some panel_1), w1) /\
    @panel_st7701_init esp_idf_headers env_ok panel_1 w1
      = Some (Normal r, w2) /\
    heap w2 = heap w1 /\ trace w2 = trace w1 ++ evs /\
    (r = ESP_OK ->
     firstn 4 (bus_events evs)
       = [EvRxParam 0x1000 0x04 3;
          EvTxParam 0x1000 0xFF [0x77; 0x01; 0x00; 0x00; 0x00] 5;
          EvTxParam 0x1000 0x36 [0x08] 1;
          EvTxParam 0x1000 0x3A [0x55] 1]).
Proof.
  destruct construct_bgr565_run as [w1 Hnew]. exists w1.
  destruct (@init_after_construction esp_idf_headers env_ok 0x1000
              dev_config_bgr565 vendor_config_default 0x2000 world_empty w1
              panel_1 eq_refl eq_refl eq_refl eq_refl Hnew)
    as (r & w2 & evs & Hrun & Hh & Ht & Hbus).
  exists r, w2, evs. split; [exact Hnew|]. split; [exact Hrun|].
  split; [exact Hh|]. split; [exact Ht|].
  intros Hr. rewrite (Hbus Hr). reflexivity.
Defined.
